(** * velero-plugin-for-csi (data-mover branch): item actions and their helpers

    A shallow embedding of the backup, restore and delete item actions of the
    plugin and of the helpers of package [util] they call.  Every action is a
    program over the calls it issues to the cluster API; a run of a program
    against an environment yields the trace of calls with their answers, the
    outcome (a result, a returned error, or a Go panic) and the final state
    of the environment. *)

From Stdlib Require Import ZArith Ascii String List Lia.
From stdpp Require Import base option strings gmap fin_maps.

Local Open Scope string_scope.
Local Open Scope Z_scope.

(** ** Go values *)

(** [metav1.StatusReason], as far as the actions tell reasons apart. *)
Inductive StatusReason :=
| StatusReasonNotFound
| StatusReasonAlreadyExists
| StatusReasonUnknown.

(** Go [error] values that occur: API status errors, the polling time-out,
    errors made with [errors.New] / [errors.Errorf], the wrappers of
    [github.com/pkg/errors], and any other (transport, decoding) error.
    A message is the text with the names filled in. *)
Inductive error :=
| StatusError (reason : StatusReason) (message : string)
| ErrWaitTimeout
| ErrorsNew (message : string)
| Wrapf (message : string) (cause : error)
| WithStack (cause : error)
| OtherError (message : string).

(** [apierrors.ReasonForError] finds the status error with [errors.As], that
    is through the wrappers. *)
Fixpoint ReasonForError (err : error) : StatusReason :=
  match err with
  | StatusError reason _ => reason
  | Wrapf _ cause => ReasonForError cause
  | WithStack cause => ReasonForError cause
  | _ => StatusReasonUnknown
  end.

Definition IsNotFound (err : error) : bool :=
  match ReasonForError err with
  | StatusReasonNotFound => true
  | _ => false
  end.

(** A Go map: [None] is the nil map.  Reading a nil map, or a key that is
    absent, gives the zero value with [ok = false]. *)
Definition gomap (V : Type) := option (gmap string V).

Definition index {V} (m : gomap V) (k : string) : option V :=
  match m with
  | None => None
  | Some m => m !! k
  end.

(** [m[k]] for a map of strings: the empty string when the key is absent. *)
Definition index_string (m : gomap string) (k : string) : string :=
  default "" (index m k).

(** ** Library functions the helpers rely on *)

Definition utf8 (bytes : list nat) : list ascii := map ascii_of_nat bytes.

  (** The runes [unicode.IsSpace] accepts, in UTF-8: tab, LF, VT, FF, CR,
      space, U+0085, U+00A0, U+1680, U+2000..U+200A, U+2028, U+2029, U+202F,
      U+205F, U+3000. *)
Definition White_Space : list (list ascii) :=
    map utf8
      [ [9]; [10]; [11]; [12]; [13]; [32]; [194; 133]; [194; 160];
        [225; 154; 128];
        [226; 128; 128]; [226; 128; 129]; [226; 128; 130]; [226; 128; 131];
        [226; 128; 132]; [226; 128; 133]; [226; 128; 134]; [226; 128; 135];
        [226; 128; 136]; [226; 128; 137]; [226; 128; 138];
        [226; 128; 168]; [226; 128; 169]; [226; 128; 175];
        [226; 129; 159]; [227; 128; 128] ]%nat.

Fixpoint starts_with (p l : list ascii) : bool :=
    match p, l with
    | [], _ => true
    | a :: p', b :: l' => if Ascii.eqb a b then starts_with p' l' else false
    | _ :: _, [] => false
    end.

  (** Width in bytes of the white-space rune among [runes] that [l] starts
      with, [0] when there is none. *)
Definition space_width (runes : list (list ascii)) (l : list ascii) : nat :=
    match find (fun p => starts_with p l) runes with
    | Some p => length p
    | None => 0%nat
    end.

  (** Drop the leading white-space runes; [skip] counts the bytes still to
      drop of the rune being removed. *)
Fixpoint trim_from (runes : list (list ascii)) (skip : nat) (l : list ascii)
    : list ascii :=
    match l with
    | [] => []
    | _ :: l' =>
        match skip with
        | S k => trim_from runes k l'
        | O =>
            match space_width runes l with
            | O => l
            | S k => trim_from runes k l'
            end
        end
    end.

Definition TrimLeftSpace (l : list ascii) : list ascii :=
    trim_from White_Space 0 l.

  (** Trailing runes are found by reading the bytes backwards. *)
Definition TrimRightSpace (l : list ascii) : list ascii :=
    rev (trim_from (map (@rev ascii) White_Space) 0 (rev l)).

  (** [strings.TrimSpace]. *)
Definition TrimSpace (s : string) : string :=
    string_of_list_ascii
      (TrimRightSpace (TrimLeftSpace (list_ascii_of_string s))).

(** Values that come from outside the repository and whose text is not part
    of its sources: the SHA-256 digest in hexadecimal used by velero's
    [label.GetValidName], the quantity parser of apimachinery, and the
    annotation keys declared in [util]'s constants, and the expansion of
    formatting verbs by [fmt]. *)
Record Quantity := {
  unscaled : Z;       (* the number is [unscaled * 10 ^ scale] *)
  scale : Z;
  Format : string
}.

Class Externals := {
  sha256_hex : string -> string;
  (* [resource.MustParse]; [None] stands for its panic on a malformed text *)
  MustParse : string -> option Quantity;
  CSIDriverNameAnnotation : string;
  CSIVSCDeletionPolicy : string;
  DatamoverSourcePVCName : string;
  DatamoverSourcePVCSize : string;
  DatamoverResticRepository : string;
  PrefixedSnapshotterSecretNameKey : string;
  PrefixedSnapshotterSecretNamespaceKey : string;
  (* what [fmt.Sprintf] makes, without operands, of a format that holds verbs *)
  Sprintf_verbs : string -> string
}.

Definition DNS1035LabelMaxLength : nat := 63.

(** velero's [label.GetValidName]: a label value of at most 63 bytes is kept;
    a longer one is cut to 57 bytes followed by the first 6 hexadecimal
    digits of its SHA-256 digest. *)
Definition GetValidName `{Externals} (label : string) : string :=
  if (String.length label <=? DNS1035LabelMaxLength)%nat then label
  else
    let strSha := sha256_hex label in
    let charsFromLabel := (DNS1035LabelMaxLength - 6)%nat in
    substring 0 charsFromLabel label ++ substring 0 6 strSha.

Definition BackupNameLabel : string := "velero.io/backup-name".
Definition RestoreNameLabel : string := "velero.io/restore-name".

(** [Quantity.Cmp]: the sign of the difference of the two numbers, the
    numbers being brought to the smaller of the two scales. *)
Definition Cmp (q y : Quantity) : Z :=
  let m := Z.min (scale q) (scale y) in
  match (unscaled q * 10 ^ (scale q - m)) ?= (unscaled y * 10 ^ (scale y - m)) with
  | Lt => -1
  | Eq => 0
  | Gt => 1
  end.

(** ** Data model: the fields of the API objects that the actions touch *)

(** [metav1.ObjectMeta]. *)
Module ObjectMeta.
Record t := {
    Name : string;
    Namespace : string;
    Labels : gomap string;
    Annotations : gomap string
  }.
Definition named (namespace name : string) : t :=
    {| Name := name; Namespace := namespace; Labels := None; Annotations := None |}.
End ObjectMeta.

(** [corev1.ObjectReference]. *)
Module ObjectReference.
Record t := { Kind : string; Namespace : string; Name : string }.
End ObjectReference.

(** [corev1.TypedLocalObjectReference]. *)
Module TypedLocalObjectReference.
Record t := { APIGroup : option string; Kind : string; Name : string }.
End TypedLocalObjectReference.

(** [corev1.LocalObjectReference]. *)
Module LocalObjectReference.
Record t := { Name : string }.
End LocalObjectReference.

(** [snapshot.VolumeSnapshotContent] (the v1 and v1beta1 types agree on these
    fields); [DeletionPolicy] is a Go string type. *)
Module VolumeSnapshotContent.
Record Source := { VolumeHandle : option string; SnapshotHandle : option string }.
Record Spec_t := {
    DeletionPolicy : string;
    Driver : string;
    VolumeSnapshotRef : ObjectReference.t;
    Source_ : Source
  }.
Record Status_t := { StatusSnapshotHandle : option string }.
Record t := {
    ObjectMeta : ObjectMeta.t;
    Spec : Spec_t;
    Status : option Status_t
  }.
Definition Name (o : t) : string := ObjectMeta.Name (ObjectMeta o).
Definition Namespace (o : t) : string := ObjectMeta.Namespace (ObjectMeta o).
End VolumeSnapshotContent.

Definition VolumeSnapshotContentRetain : string := "Retain".
Definition VolumeSnapshotContentDelete : string := "Delete".

(** [snapshot.VolumeSnapshot]. *)
Module VolumeSnapshot.
Record Source := {
    PersistentVolumeClaimName : option string;
    VolumeSnapshotContentName : option string
  }.
Record Status_t := { BoundVolumeSnapshotContentName : option string }.
Record t := {
    ObjectMeta : ObjectMeta.t;
    Spec_Source : Source;
    Status : option Status_t
  }.
Definition Name (o : t) : string := ObjectMeta.Name (ObjectMeta o).
Definition Namespace (o : t) : string := ObjectMeta.Namespace (ObjectMeta o).
Definition Annotations (o : t) : gomap string := ObjectMeta.Annotations (ObjectMeta o).
End VolumeSnapshot.

(** [corev1.PersistentVolumeClaim]. *)
Module PersistentVolumeClaim.
Record Spec_t := {
    VolumeName : string;
    DataSource : option TypedLocalObjectReference.t;
    Resources_Requests : gomap Quantity
  }.
Record t := { ObjectMeta : ObjectMeta.t; Spec : Spec_t }.
Definition Name (o : t) : string := ObjectMeta.Name (ObjectMeta o).
Definition Namespace (o : t) : string := ObjectMeta.Namespace (ObjectMeta o).
Definition Annotations (o : t) : gomap string := ObjectMeta.Annotations (ObjectMeta o).
End PersistentVolumeClaim.

Definition ResourceStorage : string := "storage".

(** The mover's [PVCData] and the reference a restore request carries. *)
Module PVCData.
Record t := { Name : string; Size : string }.
End PVCData.

Module DMBRef.
Record t := { BackedUpPVCData : PVCData.t; ResticRepository : string }.
End DMBRef.

(** [DataMoverBackup]; the later [VolumeSnapshotBackup] has the same fields. *)
Module DataMoverBackup.
Record Spec_t := {
    VolumeSnapshotContent : ObjectReference.t;
    ProtectedNamespace : string
  }.
Record Status_t := {
    Phase : string;
    SourcePVCData : PVCData.t;
    ResticRepository : string
  }.
Record t := { ObjectMeta : ObjectMeta.t; Spec : Spec_t; Status : Status_t }.
Definition Name (o : t) : string := ObjectMeta.Name (ObjectMeta o).
Definition Namespace (o : t) : string := ObjectMeta.Namespace (ObjectMeta o).
Definition Annotations (o : t) : gomap string := ObjectMeta.Annotations (ObjectMeta o).
End DataMoverBackup.

(** [DataMoverRestore]. *)
Module DataMoverRestore.
Record Spec_t := {
    ResticSecretRef : LocalObjectReference.t;
    DataMoverBackupref : DMBRef.t;
    ProtectedNamespace : string
  }.
Record t := { ObjectMeta : ObjectMeta.t; Spec : Spec_t }.
Definition Name (o : t) : string := ObjectMeta.Name (ObjectMeta o).
Definition Namespace (o : t) : string := ObjectMeta.Namespace (ObjectMeta o).
End DataMoverRestore.

(** [VolumeSnapshotRestore], the later name of the restore request. *)
Module VolumeSnapshotRestore.
Record Spec_t := {
    ResticSecretRef : LocalObjectReference.t;
    VolumeSnapshotMoverBackupref : DMBRef.t;
    ProtectedNamespace : string
  }.
Record Status_t := { SnapshotHandle : string }.
Record t := { ObjectMeta : ObjectMeta.t; Spec : Spec_t; Status : Status_t }.
Definition Name (o : t) : string := ObjectMeta.Name (ObjectMeta o).
End VolumeSnapshotRestore.

(** VolSync's [ReplicationDestination]; [Spec.Trigger], [Status],
    [Status.LastSyncTime] and [Status.LatestImage] are pointers. *)
Module ReplicationDestination.
Record Trigger_t := { Manual : string }.
Record Status_t := {
    LastSyncTime : option Z;
    LastManualSync : string;
    LatestImage : option TypedLocalObjectReference.t
  }.
Record t := {
    ObjectMeta : ObjectMeta.t;
    Spec_Trigger : option Trigger_t;
    Status : option Status_t
  }.
Definition Name (o : t) : string := ObjectMeta.Name (ObjectMeta o).
End ReplicationDestination.

(** velero's plugin interface. *)
Module velero.
Record Backup := { Backup_ObjectMeta : ObjectMeta.t }.
Record Restore := {
    Restore_ObjectMeta : ObjectMeta.t;
    NamespaceMapping : gomap string
  }.
Record GroupResource := { Group : string; Resource : string }.
Record ResourceIdentifier := {
    GroupResource_ : GroupResource;
    Namespace : string;
    Name : string
  }.
  (** An item as [DefaultUnstructuredConverter.FromUnstructured] reads it at
      the type [T] the action asks for: the conversion error, or the object. *)
Definition Unstructured (T : Type) : Type := error + T.
Record DeleteItemActionExecuteInput (T : Type) := {
    Delete_Item : Unstructured T;
    Delete_Backup : Backup
  }.
Record RestoreItemActionExecuteInput (T : Type) := {
    Item : Unstructured T;
    Restore_ : Restore
  }.
Record RestoreItemActionExecuteOutput (T : Type) := {
    UpdatedItem : option T;
    AdditionalItems : list ResourceIdentifier;
    SkipRestore : bool
  }.
Arguments Delete_Item {T}.
Arguments Delete_Backup {T}.
Arguments Item {T}.
Arguments Restore_ {T}.
Arguments UpdatedItem {T}.
Arguments AdditionalItems {T}.
Arguments SkipRestore {T}.
  (** [&velero.RestoreItemActionExecuteOutput{}]. *)
Definition empty_output {T} : RestoreItemActionExecuteOutput T :=
    {| UpdatedItem := None; AdditionalItems := []; SkipRestore := false |}.
End velero.

(** ** Programs over the cluster API *)

(** The calls the actions issue, indexed by the type of the answer.  A call
    that returns only an error answers [None] for the nil error; a call that
    returns an object and an error answers one or the other.  Building a
    client ([util.GetClients] and the like) is a call too: it reads the
    cluster configuration and can fail.  [util.GetVolumeSnapshotMoverClient]
    has no body in the sources; it is taken to be a constructor like the
    others. *)
Inductive Request : Type -> Type :=
| GetClients : Request (option error)
| GetDatamoverClient : Request (option error)
| GetVolumeSnapshotMoverClient : Request (option error)
| GetReplicationDestinationClient : Request (option error)
| PatchVolumeSnapshotContent (name patch : string) : Request (option error)
| DeleteVolumeSnapshotContent (name : string) : Request (option error)
| CreateVolumeSnapshotContent (vsc : VolumeSnapshotContent.t)
  : Request (error + VolumeSnapshotContent.t)
| GetVolumeSnapshotContent (name : string)
  : Request (error + VolumeSnapshotContent.t)
| GetVolumeSnapshot (namespace name : string)
  : Request (error + VolumeSnapshot.t)
| GetDataMoverBackup (namespace name : string)
  : Request (error + DataMoverBackup.t)
| CreateVolumeSnapshotBackup (vsb : DataMoverBackup.t) : Request (option error)
| GetDataMoverRestore (namespace name : string)
  : Request (error + DataMoverRestore.t)
| CreateDataMoverRestore (dmr : DataMoverRestore.t) : Request (option error)
| GetVolumeSnapshotRestore (namespace name : string)
  : Request (error + VolumeSnapshotRestore.t)
| GetReplicationDestination (namespace name : string)
  : Request (error + ReplicationDestination.t).

(** A call together with the answer it got, as a run records it. *)
Inductive Event :=
| EvGetClients (r : option error)
| EvGetDatamoverClient (r : option error)
| EvGetVolumeSnapshotMoverClient (r : option error)
| EvGetReplicationDestinationClient (r : option error)
| EvPatchVolumeSnapshotContent (name patch : string) (r : option error)
| EvDeleteVolumeSnapshotContent (name : string) (r : option error)
| EvCreateVolumeSnapshotContent (vsc : VolumeSnapshotContent.t)
    (r : error + VolumeSnapshotContent.t)
| EvGetVolumeSnapshotContent (name : string) (r : error + VolumeSnapshotContent.t)
| EvGetVolumeSnapshot (namespace name : string) (r : error + VolumeSnapshot.t)
| EvGetDataMoverBackup (namespace name : string) (r : error + DataMoverBackup.t)
| EvCreateVolumeSnapshotBackup (vsb : DataMoverBackup.t) (r : option error)
| EvGetDataMoverRestore (namespace name : string) (r : error + DataMoverRestore.t)
| EvCreateDataMoverRestore (dmr : DataMoverRestore.t) (r : option error)
| EvGetVolumeSnapshotRestore (namespace name : string)
    (r : error + VolumeSnapshotRestore.t)
| EvGetReplicationDestination (namespace name : string)
    (r : error + ReplicationDestination.t).

Definition event_of {R} (c : Request R) : R -> Event :=
  match c in Request R return R -> Event with
  | GetClients => EvGetClients
  | GetDatamoverClient => EvGetDatamoverClient
  | GetVolumeSnapshotMoverClient => EvGetVolumeSnapshotMoverClient
  | GetReplicationDestinationClient => EvGetReplicationDestinationClient
  | PatchVolumeSnapshotContent name patch => EvPatchVolumeSnapshotContent name patch
  | DeleteVolumeSnapshotContent name => EvDeleteVolumeSnapshotContent name
  | CreateVolumeSnapshotContent vsc => EvCreateVolumeSnapshotContent vsc
  | GetVolumeSnapshotContent name => EvGetVolumeSnapshotContent name
  | GetVolumeSnapshot ns name => EvGetVolumeSnapshot ns name
  | GetDataMoverBackup ns name => EvGetDataMoverBackup ns name
  | CreateVolumeSnapshotBackup vsb => EvCreateVolumeSnapshotBackup vsb
  | GetDataMoverRestore ns name => EvGetDataMoverRestore ns name
  | CreateDataMoverRestore dmr => EvCreateDataMoverRestore dmr
  | GetVolumeSnapshotRestore ns name => EvGetVolumeSnapshotRestore ns name
  | GetReplicationDestination ns name => EvGetReplicationDestination ns name
  end.

(** A Go function body: it returns a value, returns a non-nil error, panics,
    or issues a call and goes on with the answer. *)
Inductive Prog (A : Type) : Type :=
| Ret (a : A)
| Fail (e : error)
| Panic (why : string)
| Call {R : Type} (c : Request R) (k : R -> Prog A).

Arguments Ret {A}.
Arguments Fail {A}.
Arguments Panic {A}.
Arguments Call {A R}.

Fixpoint bind {A B} (p : Prog A) (f : A -> Prog B) : Prog B :=
  match p with
  | Ret a => f a
  | Fail e => Fail e
  | Panic why => Panic why
  | Call c k => Call c (fun r => bind (k r) f)
  end.

Definition call {R} (c : Request R) : Prog R := Call c Ret.

Declare Scope prog_scope.
Delimit Scope prog_scope with prog.
Notation "'let*' x ':=' p 'in' k" := (bind p (fun x => k))
  (at level 10, x pattern, p at level 100, k at level 200) : prog_scope.
Local Open Scope prog_scope.

Definition nil_pointer_dereference : string :=
  "invalid memory address or nil pointer dereference".

(** [*p] for a Go pointer. *)
Definition deref {A} (p : option A) : Prog A :=
  match p with
  | Some a => Ret a
  | None => Panic nil_pointer_dereference
  end.

(** What a function did in the end. *)
Inductive Outcome (A : Type) :=
| Done (a : A)
| Failed (e : error)
| Panicked (why : string).

Arguments Done {A}.
Arguments Failed {A}.
Arguments Panicked {A}.

(** The cluster as the plugin sees it: any state, and any way of answering
    a call and moving to the next state.  Other controllers acting between
    two calls are part of the move. *)
Record Environment (W : Type) := {
  handle : forall R, Request R -> W -> R * W
}.
Arguments handle {W} _ {R}.

Record Run (W A : Type) := {
  trace : list Event;
  outcome : Outcome A;
  final : W
}.
Arguments trace {W A}.
Arguments outcome {W A}.
Arguments final {W A}.

Definition after {W A} (ev : Event) (r : Run W A) : Run W A :=
  {| trace := ev :: trace r; outcome := outcome r; final := final r |}.

Fixpoint exec {W A} (env : Environment W) (p : Prog A) (w : W) : Run W A :=
  match p with
  | Ret a => {| trace := []; outcome := Done a; final := w |}
  | Fail e => {| trace := []; outcome := Failed e; final := w |}
  | Panic why => {| trace := []; outcome := Panicked why; final := w |}
  | Call c k =>
      let rw := handle env c w in
      after (event_of c (fst rw)) (exec env (k (fst rw)) (snd rw))
  end.

(** [wait.PollImmediate]: the condition is tried at once and then again at
    every tick of the interval; [ticks] is the number of ticks that fit in
    the time-out (clock time itself is not modelled).  An error of the
    condition ends the wait with that error, a [true] ends it with the nil
    error, and running out of ticks ends it with [ErrWaitTimeout]. *)
Fixpoint PollImmediate (ticks : nat) (condition : Prog (bool * option error))
  : Prog (option error) :=
  let* (done, err) := condition in
  match err with
  | Some e => Ret (Some e)
  | None =>
      if done : bool then Ret None
      else
        match ticks with
        | O => Ret (Some ErrWaitTimeout)
        | S ticks' => PollImmediate ticks' condition
        end
  end.

(** ** Further objects and surroundings

    What the remaining helpers and actions read besides the objects above. *)

(** [corev1.Volume], with its claim source ([nil] when the volume is not
    backed by a claim). *)
Module Volume.
Record PersistentVolumeClaimVolumeSource := { ClaimName : string }.
Record t := {
  Name : string;
  PersistentVolumeClaim : option PersistentVolumeClaimVolumeSource
}.
End Volume.

(** [corev1.Pod]. *)
Module Pod.
Record t := { ObjectMeta : ObjectMeta.t; Spec_Volumes : list Volume.t }.
End Pod.

(** [snapshot.VolumeSnapshotClass]. *)
Module VolumeSnapshotClass.
Record t := { ObjectMeta : ObjectMeta.t; Driver : string }.
End VolumeSnapshotClass.

(** The zero value of a [DataMoverBackup]. *)
Definition zeroDataMoverBackup : DataMoverBackup.t :=
  {| DataMoverBackup.ObjectMeta := ObjectMeta.named "" "";
     DataMoverBackup.Spec :=
       {| DataMoverBackup.VolumeSnapshotContent :=
            {| ObjectReference.Kind := ""; ObjectReference.Namespace := "";
               ObjectReference.Name := "" |};
          DataMoverBackup.ProtectedNamespace := "" |};
     DataMoverBackup.Status :=
       {| DataMoverBackup.Phase := "";
          DataMoverBackup.SourcePVCData := {| PVCData.Name := ""; PVCData.Size := "" |};
          DataMoverBackup.ResticRepository := "" |} |}.

(** The process environment and velero's choice of the pod volumes that
    restic backs up, both outside the repository. *)
Class Platform := {
  Getenv : string -> string;
  GetPodVolumesUsingRestic : Pod.t -> bool -> list string
}.

(** Constants of [util] and of the mover's API whose text is not in the
    sources. *)
Class Constants := {
  CSIDeleteSnapshotSecretName : string;
  CSIDeleteSnapshotSecretNamespace : string;
  VolumeSnapshotClassSelectorLabel : string;
  DatamoverBackupPhaseCompleted : string
}.

(** [strconv.ParseBool]: the value and whether the text was accepted. *)
Definition ParseBool (str : string) : bool * bool :=
  if existsb (String.eqb str) ["1"; "t"; "T"; "true"; "TRUE"; "True"] then (true, true)
  else if existsb (String.eqb str) ["0"; "f"; "F"; "false"; "FALSE"; "False"] then (false, true)
  else (false, false).

(** [boolptr.IsSetToFalse]. *)
Definition IsSetToFalse (b : option bool) : bool :=
  match b with
  | Some false => true
  | _ => false
  end.

(** The wait of [wait.PollImmediate] when the condition assigns to a
    variable of the function that waits: the variable is handed from try to
    try and comes back with the error. *)
Fixpoint PollImmediateWith {V : Type} (ticks : nat)
    (condition : V -> Prog (V * (bool * option error))) (s : V) : Prog (V * option error) :=
  let* (s', (done, err)) := condition s in
  match err with
  | Some e => Ret (s', Some e)
  | None =>
      if done : bool then Ret (s', None)
      else
        match ticks with
        | O => Ret (s', Some ErrWaitTimeout)
        | S ticks' => PollImmediateWith ticks' condition s'
        end
  end.

(** ** Package [fmt], as far as the actions use it *)

Fixpoint has_verb (format : string) : bool :=
  match format with
  | EmptyString => false
  | String c rest => if Ascii.eqb c "%"%char then true else has_verb rest
  end.

(** [fmt.Sprintf(format)] with no operand: a format without [%] is printed
    as it is. *)
Definition Sprintf `{Externals} (format : string) : string :=
  if has_verb format then Sprintf_verbs format else format.

(** ** Package [util] *)

Module util.

Fixpoint Contains (slice : list string) (key : string) : bool :=
  match slice with
  | [] => false
  | i :: rest => if String.eqb i key then true else Contains rest key
  end.

Definition HasBackupLabel `{Externals} (o : ObjectMeta.t) (backupName : string) : bool :=
  match ObjectMeta.Labels o with
  | None => false
  | Some _ =>
      if (String.length (TrimSpace backupName) =? 0)%nat then false
      else String.eqb (index_string (ObjectMeta.Labels o) BackupNameLabel)
                      (GetValidName backupName)
  end.

Definition quote : string := String (ascii_of_nat 34) EmptyString.

(** The merge patch that sets [spec.deletionPolicy] to [Delete], as JSON
    text. *)
Definition deletionPolicyPatch : string :=
  "{" ++ quote ++ "spec" ++ quote ++ ":{" ++ quote ++ "deletionPolicy" ++ quote
      ++ ":" ++ quote ++ "Delete" ++ quote ++ "}}".

Definition SetVolumeSnapshotContentDeletionPolicy (vscName : string)
  : Prog (option error) :=
  call (PatchVolumeSnapshotContent vscName deletionPolicyPatch).

(** Returns [(bool, error)]. *)
Definition DoesDataMoverBackupExistForVSC (volSnap : VolumeSnapshotContent.t)
  : Prog (bool * option error) :=
  let* err := call GetDatamoverClient in
  match err with
  | Some err => Ret (false, Some err)
  | None =>
      let* r := call (GetDataMoverBackup (VolumeSnapshotContent.Namespace volSnap)
                        ("dmb-" ++ ObjectReference.Name
                           (VolumeSnapshotContent.VolumeSnapshotRef
                              (VolumeSnapshotContent.Spec volSnap)))) in
      match r with
      | inl err => Ret (false, Some err)
      | inr dmb =>
          let name := ObjectReference.Name
                        (DataMoverBackup.VolumeSnapshotContent (DataMoverBackup.Spec dmb)) in
          if (0 <? String.length name)%nat && String.eqb name (VolumeSnapshotContent.Name volSnap)
          then Ret (true, None)
          else Ret (false, None)
      end
  end.

(** The condition polled by [IsDataMoverRestoreCompleted].  Each [Get]
    is taken to fill its object with the answer alone. *)
Definition restoreCompletedCondition (datamoverNS dataMoverRestoreName protectedNS : string)
  : Prog (bool * option error) :=
  let* r := call (GetDataMoverRestore datamoverNS dataMoverRestoreName) in
  match r with
  | inl err =>
      Ret (false, Some (Wrapf ("failed to get datamoverrestore " ++ dataMoverRestoreName) err))
  | inr dmr =>
      let repDestinationName := DataMoverRestore.Name dmr ++ "-rep-dest" in
      let* r := call (GetReplicationDestination protectedNS repDestinationName) in
      match r with
      | inl _ => Ret (false, None)
      | inr repDestination =>
          match ReplicationDestination.Status repDestination with
          | None => Ret (false, None)
          | Some status =>
              match ReplicationDestination.LastSyncTime status with
              | None => Ret (false, None)
              | Some _ =>
                  let* trigger := deref (ReplicationDestination.Spec_Trigger repDestination) in
                  if negb (String.eqb (ReplicationDestination.Manual trigger)
                                      (ReplicationDestination.LastManualSync status))
                  then Ret (false, None)
                  else Ret (true, None)
              end
          end
      end
  end.

(** Returns [(bool, error)]; [ticks] stands for the five minutes of time-out
    at one try every five seconds. *)
Definition IsDataMoverRestoreCompleted (ticks : nat)
    (datamoverNS dataMoverRestoreName protectedNS : string)
  : Prog (bool * option error) :=
  let* err := call GetDatamoverClient in
  match err with
  | Some err => Ret (false, Some err)
  | None =>
      let* err := call GetReplicationDestinationClient in
      match err with
      | Some err => Ret (false, Some err)
      | None =>
          let* err := PollImmediate ticks
                        (restoreCompletedCondition datamoverNS dataMoverRestoreName protectedNS) in
          match err with
          | Some err => Ret (false, Some err)
          | None => Ret (true, None)
          end
      end
  end.

(** Returns a content and an error; its caller hands the error on
    unchanged, so the error is the failure of the program. *)
Definition GetVolSyncSnapContent (repDest : ReplicationDestination.t) (protectedNS : string)
  : Prog VolumeSnapshotContent.t :=
  let* err := call GetClients in
  match err with
  | Some err => Fail (WithStack err)
  | None =>
      let* status := deref (ReplicationDestination.Status repDest) in
      let* latestImage := deref (ReplicationDestination.LatestImage status) in
      let volSyncVolSnapshotName := TypedLocalObjectReference.Name latestImage in
      let* r := call (GetVolumeSnapshot protectedNS volSyncVolSnapshotName) in
      match r with
      | inl err => Fail (Wrapf ("failed to get volumesnapshot " ++ volSyncVolSnapshotName) err)
      | inr vs =>
          let* vsStatus := deref (VolumeSnapshot.Status vs) in
          let* volSyncSnapContentName :=
            deref (VolumeSnapshot.BoundVolumeSnapshotContentName vsStatus) in
          let* r := call (GetVolumeSnapshotContent volSyncSnapContentName) in
          match r with
          | inl err =>
              Fail (Wrapf ("failed to get volumesnapshotcontent " ++ volSyncSnapContentName
                             ++ " for volumesnapshot " ++ VolumeSnapshot.Namespace vs
                             ++ "/" ++ VolumeSnapshot.Name vs) err)
          | inr vsc => Ret vsc
          end
      end
  end.

Definition IsVolumeSnapshotContentHasDeleteSecret `{Externals}
    (vsc : VolumeSnapshotContent.t) : bool :=
  let annotations := ObjectMeta.Annotations (VolumeSnapshotContent.ObjectMeta vsc) in
  bool_decide (is_Some (index annotations PrefixedSnapshotterSecretNameKey))
  && bool_decide (is_Some (index annotations PrefixedSnapshotterSecretNamespaceKey)).

Definition IsVolumeSnapshotExists (volSnap : VolumeSnapshot.t) : Prog bool :=
  let* r := call (GetVolumeSnapshot (VolumeSnapshot.Namespace volSnap)
                    (VolumeSnapshot.Name volSnap)) in
  match r with
  | inl _ => Ret false
  | inr _ => Ret true
  end.

(** *** The helpers of [util] that the claims leave aside *)

Definition VolumeSnapshotMoverEnv : string := "VOLUME_SNAPSHOT_MOVER".

(** The variable [dataMoverCase] is read once from the environment; the
    error of [ParseBool] is dropped. *)
Definition DataMoverCase `{Platform} : bool := fst (ParseBool (Getenv VolumeSnapshotMoverEnv)).

(** The client interfaces that are arguments of the helpers: a getter is the
    answer it gives to the one request the helper makes. *)
Definition PodsGetter : Type := string -> error + list Pod.t.
Definition VolumeSnapshotClassesLister : Type := error + list VolumeSnapshotClass.t.

Definition usesClaim (pvcName : string) (v : Volume.t) : bool :=
  match Volume.PersistentVolumeClaim v with
  | Some source => String.eqb (Volume.ClaimName source) pvcName
  | None => false
  end.

(** The pod is appended once for each of its volumes that uses the claim. *)
Definition GetPodsUsingPVC (pvcNamespace pvcName : string) (corev1 : PodsGetter)
  : error + list Pod.t :=
  match corev1 pvcNamespace with
  | inl err => inl err
  | inr items =>
      inr (flat_map (fun p => flat_map (fun v => if usesClaim pvcName v then [p] else [])
                                       (Pod.Spec_Volumes p))
                    items)
  end.

Definition GetPodVolumeNameForPVC (pod : Pod.t) (pvcName : string) : error + string :=
  match find (usesClaim pvcName) (Pod.Spec_Volumes pod) with
  | Some v => inr (Volume.Name v)
  | None =>
      let m := Pod.ObjectMeta pod in
      inl (ErrorsNew ("Pod " ++ ObjectMeta.Namespace m ++ "/" ++ ObjectMeta.Name m
                        ++ " does not use PVC " ++ ObjectMeta.Namespace m ++ "/" ++ pvcName))
  end.

(** The loop of [IsPVCBackedUpByRestic] over the pods that use the claim. *)
Fixpoint resticLoop `{Platform} (pods : list Pod.t) (pvcName : string)
    (defaultVolumesToRestic : bool) : error + bool :=
  match pods with
  | [] => inr false
  | p :: rest =>
      let resticVols := GetPodVolumesUsingRestic p defaultVolumesToRestic in
      if (0 <? length resticVols)%nat then
        match GetPodVolumeNameForPVC p pvcName with
        | inl err => inl err
        | inr volName =>
            if Contains resticVols volName then inr true
            else resticLoop rest pvcName defaultVolumesToRestic
        end
      else resticLoop rest pvcName defaultVolumesToRestic
  end.

Definition IsPVCBackedUpByRestic `{Platform} (pvcNamespace pvcName : string)
    (podClient : PodsGetter) (defaultVolumesToRestic : bool) : error + bool :=
  match GetPodsUsingPVC pvcNamespace pvcName podClient with
  | inl err => inl (WithStack err)
  | inr pods => resticLoop pods pvcName defaultVolumesToRestic
  end.

Definition hasSelectorLabel `{Constants} (sc : VolumeSnapshotClass.t) : bool :=
  bool_decide (is_Some (index (ObjectMeta.Labels (VolumeSnapshotClass.ObjectMeta sc))
                              VolumeSnapshotClassSelectorLabel)).

Definition GetVolumeSnapshotClassForStorageClass `{Constants} (provisioner : string)
    (snapshotClient : VolumeSnapshotClassesLister) : error + VolumeSnapshotClass.t :=
  match snapshotClient with
  | inl err => inl (Wrapf "error listing volumesnapshot classes" err)
  | inr items =>
      match find (fun sc => String.eqb (VolumeSnapshotClass.Driver sc) provisioner
                            && hasSelectorLabel sc) items with
      | Some sc => inr sc
      | None =>
          inl (ErrorsNew ("failed to get volumesnapshotclass for provisioner " ++ provisioner
                            ++ ", ensure that the desired volumesnapshot class has the "
                            ++ VolumeSnapshotClassSelectorLabel ++ " label"))
      end
  end.

(** The condition polled by [GetDataMoverbackupWithCompletedStatus]; [dmb]
    is the variable the request is read into. *)
Definition backupCompletedCondition `{Constants} (datamoverbackupNS datamoverbackupName : string)
    (dmb : DataMoverBackup.t) : Prog (DataMoverBackup.t * (bool * option error)) :=
  let* r := call (GetDataMoverBackup datamoverbackupNS datamoverbackupName) in
  match r with
  | inl err =>
      Ret (dmb, (false, Some (Wrapf ("failed to get datamoverbackup " ++ datamoverbackupNS
                                       ++ "/" ++ datamoverbackupName) err)))
  | inr dmb =>
      let phase := DataMoverBackup.Phase (DataMoverBackup.Status dmb) in
      if (String.length phase =? 0)%nat || negb (String.eqb phase DatamoverBackupPhaseCompleted)
      then Ret (dmb, (false, None))
      else Ret (dmb, (true, None))
  end.

(** Returns the request as last read, and an error. *)
Definition GetDataMoverbackupWithCompletedStatus `{Constants} (ticks : nat)
    (datamoverbackupNS datamoverbackupName : string)
  : Prog (DataMoverBackup.t * option error) :=
  let* err := call GetDatamoverClient in
  match err with
  | Some err => Ret (zeroDataMoverBackup, Some err)
  | None =>
      PollImmediateWith ticks
        (backupCompletedCondition datamoverbackupNS datamoverbackupName) zeroDataMoverBackup
  end.

(** The condition polled by [GetVolumeSnapshotContentForVolumeSnapshot]; the
    variable is the content last read (after an error of the read it is not
    looked at again). *)
Definition contentReadyCondition (volSnap : VolumeSnapshot.t)
    (snapshotContent : option VolumeSnapshotContent.t)
  : Prog (option VolumeSnapshotContent.t * (bool * option error)) :=
  let id := VolumeSnapshot.Namespace volSnap ++ "/" ++ VolumeSnapshot.Name volSnap in
  let* r := call (GetVolumeSnapshot (VolumeSnapshot.Namespace volSnap)
                    (VolumeSnapshot.Name volSnap)) in
  match r with
  | inl err => Ret (snapshotContent, (false, Some (Wrapf ("failed to get volumesnapshot " ++ id) err)))
  | inr vs =>
      match VolumeSnapshot.Status vs with
      | None => Ret (snapshotContent, (false, None))
      | Some status =>
          match VolumeSnapshot.BoundVolumeSnapshotContentName status with
          | None => Ret (snapshotContent, (false, None))
          | Some boundName =>
              let* r := call (GetVolumeSnapshotContent boundName) in
              match r with
              | inl err =>
                  Ret (None,
                       (false,
                        Some (Wrapf ("failed to get volumesnapshotcontent " ++ boundName
                                       ++ " for volumesnapshot " ++ VolumeSnapshot.Namespace vs
                                       ++ "/" ++ VolumeSnapshot.Name vs) err)))
              | inr content =>
                  match VolumeSnapshotContent.Status content with
                  | None => Ret (Some content, (false, None))
                  | Some contentStatus =>
                      match VolumeSnapshotContent.StatusSnapshotHandle contentStatus with
                      | None => Ret (Some content, (false, None))
                      | Some _ => Ret (Some content, (true, None))
                      end
                  end
              end
          end
      end
  end.

(** Returns a content, [None] for the nil pointer, and an error, which is
    the failure of the program; [ticks] stands for the ten minutes of
    time-out at one try every five seconds. *)
Definition GetVolumeSnapshotContentForVolumeSnapshot (ticks : nat) (volSnap : VolumeSnapshot.t)
    (shouldWait : bool) : Prog (option VolumeSnapshotContent.t) :=
  if negb shouldWait then
    match VolumeSnapshot.Status volSnap with
    | None => Ret None
    | Some status =>
        match VolumeSnapshot.BoundVolumeSnapshotContentName status with
        | None => Ret None
        | Some boundName =>
            let* r := call (GetVolumeSnapshotContent boundName) in
            match r with
            | inl err => Fail (Wrapf "error getting volume snapshot content from API" err)
            | inr vsc => Ret (Some vsc)
            end
        end
    end
  else
    let* (snapshotContent, err) := PollImmediateWith ticks (contentReadyCondition volSnap) None in
    match err with
    | Some err => Fail err
    | None => Ret snapshotContent
    end.

Definition setMaps (o : ObjectMeta.t) (labels annotations : gomap string) : ObjectMeta.t :=
  {| ObjectMeta.Name := ObjectMeta.Name o;
     ObjectMeta.Namespace := ObjectMeta.Namespace o;
     ObjectMeta.Labels := labels;
     ObjectMeta.Annotations := annotations |}.

(** Ranging over [vals] (over nothing when it is nil) and assigning each
    pair into the map of the object, made first when it is nil. *)
Definition assignAll (f : string -> string) (vals : gomap string) (into : gomap string)
  : gmap string string :=
  map_fold (fun k v (acc : gmap string string) => <[k := f v]> acc)
           (default ∅ into) (default ∅ vals).

Definition AddAnnotations (o : ObjectMeta.t) (vals : gomap string) : ObjectMeta.t :=
  setMaps o (ObjectMeta.Labels o) (Some (assignAll (fun v => v) vals (ObjectMeta.Annotations o))).

Definition AddLabels `{Externals} (o : ObjectMeta.t) (vals : gomap string) : ObjectMeta.t :=
  setMaps o (Some (assignAll GetValidName vals (ObjectMeta.Labels o))) (ObjectMeta.Annotations o).

End util.

(** ** Package [delete]: src/internal/delete/volumesnapshotcontent_action.go *)

Module delete.
Module VolumeSnapshotContentDeleteItemAction.

(** [Execute] returns an error: [Done tt] is the nil error.  The warning on
    the not-found path takes [*snapCont.Status.SnapshotHandle] as an operand,
    which is evaluated before the log call. *)
Definition Execute `{Externals}
    (input : velero.DeleteItemActionExecuteInput VolumeSnapshotContent.t) : Prog unit :=
  match velero.Delete_Item input with
  | inl err => Fail (Wrapf "failed to convert input.Item from unstructured" err)
  | inr snapCont =>
      let backupName := ObjectMeta.Name (velero.Backup_ObjectMeta (velero.Delete_Backup input)) in
      let name := VolumeSnapshotContent.Name snapCont in
      if negb (util.HasBackupLabel (VolumeSnapshotContent.ObjectMeta snapCont) backupName)
      then Ret tt
      else
        let* err := call GetClients in
        match err with
        | Some err => Fail (WithStack err)
        | None =>
            let* err := util.SetVolumeSnapshotContentDeletionPolicy name in
            match err with
            | Some err =>
                if IsNotFound err then
                  let* status := deref (VolumeSnapshotContent.Status snapCont) in
                  let* _ := deref (VolumeSnapshotContent.StatusSnapshotHandle status) in
                  Ret tt
                else
                  Fail (Wrapf ("failed to set DeletionPolicy on volumesnapshotcontent "
                                 ++ name ++ ". Skipping deletion") err)
            | None =>
                let* err := call (DeleteVolumeSnapshotContent name) in
                match err with
                | Some err => if negb (IsNotFound err) then Fail err else Ret tt
                | None => Ret tt
                end
            end
        end
  end.

End VolumeSnapshotContentDeleteItemAction.
End delete.

(** ** Package [restore] *)

Module restore.

(** *** The claim rewrite (the sources' PVC restore action) *)
Module PVCRestoreItemAction.

Definition AnnBindCompleted : string := "pv.kubernetes.io/bind-completed".
Definition AnnBoundByController : string := "pv.kubernetes.io/bound-by-controller".
Definition AnnStorageProvisioner : string := "volume.beta.kubernetes.io/storage-provisioner".
Definition AnnSelectedNode : string := "volume.kubernetes.io/selected-node".

Definition setAnnotations (pvc : PersistentVolumeClaim.t) (a : gomap string)
  : PersistentVolumeClaim.t :=
  let m := PersistentVolumeClaim.ObjectMeta pvc in
  {| PersistentVolumeClaim.ObjectMeta :=
       {| ObjectMeta.Name := ObjectMeta.Name m;
          ObjectMeta.Namespace := ObjectMeta.Namespace m;
          ObjectMeta.Labels := ObjectMeta.Labels m;
          ObjectMeta.Annotations := a |};
     PersistentVolumeClaim.Spec := PersistentVolumeClaim.Spec pvc |}.

(** [pvc.SetNamespace]. *)
Definition SetNamespace (pvc : PersistentVolumeClaim.t) (namespace : string)
  : PersistentVolumeClaim.t :=
  let m := PersistentVolumeClaim.ObjectMeta pvc in
  {| PersistentVolumeClaim.ObjectMeta :=
       {| ObjectMeta.Name := ObjectMeta.Name m;
          ObjectMeta.Namespace := namespace;
          ObjectMeta.Labels := ObjectMeta.Labels m;
          ObjectMeta.Annotations := ObjectMeta.Annotations m |};
     PersistentVolumeClaim.Spec := PersistentVolumeClaim.Spec pvc |}.

(** The loop ranges over the keys of the map and deletes from the same map
    those found in [remove]. *)
Definition removePVCAnnotations (pvc : PersistentVolumeClaim.t) (remove : list string)
  : PersistentVolumeClaim.t :=
  match PersistentVolumeClaim.Annotations pvc with
  | None => setAnnotations pvc (Some ∅)
  | Some annotations =>
      setAnnotations pvc
        (Some (map_fold (fun k (_ : string) acc =>
                           if util.Contains remove k then delete k acc else acc)
                        annotations annotations))
  end.

(** [snapshotv1beta1api.SchemeGroupVersion.Group]. *)
Definition SchemeGroupVersion_Group : string := "snapshot.storage.k8s.io".

Definition resetPVCSpec (pvc : PersistentVolumeClaim.t) (vsName : string)
  : PersistentVolumeClaim.t :=
  let spec := PersistentVolumeClaim.Spec pvc in
  {| PersistentVolumeClaim.ObjectMeta := PersistentVolumeClaim.ObjectMeta pvc;
     PersistentVolumeClaim.Spec :=
       {| PersistentVolumeClaim.VolumeName := "";
          PersistentVolumeClaim.DataSource :=
            Some {| TypedLocalObjectReference.APIGroup := Some SchemeGroupVersion_Group;
                    TypedLocalObjectReference.Kind := "VolumeSnapshot";
                    TypedLocalObjectReference.Name := vsName |};
          PersistentVolumeClaim.Resources_Requests :=
            PersistentVolumeClaim.Resources_Requests spec |} |}.

Definition setRequests (pvc : PersistentVolumeClaim.t) (requests : gmap string Quantity)
  : PersistentVolumeClaim.t :=
  let spec := PersistentVolumeClaim.Spec pvc in
  {| PersistentVolumeClaim.ObjectMeta := PersistentVolumeClaim.ObjectMeta pvc;
     PersistentVolumeClaim.Spec :=
       {| PersistentVolumeClaim.VolumeName := PersistentVolumeClaim.VolumeName spec;
          PersistentVolumeClaim.DataSource := PersistentVolumeClaim.DataSource spec;
          PersistentVolumeClaim.Resources_Requests := Some requests |} |}.

Definition setPVCStorageResourceRequest (pvc : PersistentVolumeClaim.t)
    (restoreSize : Quantity) : PersistentVolumeClaim.t :=
  let requests :=
    match PersistentVolumeClaim.Resources_Requests (PersistentVolumeClaim.Spec pvc) with
    | None => ∅
    | Some requests => requests
    end in
  match requests !! ResourceStorage with
  | Some storageReq =>
      if Cmp storageReq restoreSize <? 0
      then setRequests pvc (<[ResourceStorage := restoreSize]> requests)
      else setRequests pvc requests
  | None => setRequests pvc (<[ResourceStorage := restoreSize]> requests)
  end.

(** The name under which the replication destination is looked up. *)
Definition repDestName : string := "dmr-mssql-pvc-rep-dest".

Definition Execute `{Externals}
    (input : velero.RestoreItemActionExecuteInput PersistentVolumeClaim.t)
  : Prog (velero.RestoreItemActionExecuteOutput PersistentVolumeClaim.t) :=
  match velero.Item input with
  | inl err => Fail (WithStack err)
  | inr pvc =>
      let pvc := removePVCAnnotations pvc
                   [AnnBindCompleted; AnnBoundByController; AnnStorageProvisioner;
                    AnnSelectedNode] in
      let pvc :=
        match index (velero.NamespaceMapping (velero.Restore_ input))
                    (PersistentVolumeClaim.Namespace pvc) with
        | Some val => SetNamespace pvc val
        | None => pvc
        end in
      let* err := call GetDatamoverClient in
      match err with
      | Some err => Fail err
      | None =>
          let dataMoverRestoreName := Sprintf ("dmr-" ++ PersistentVolumeClaim.Name pvc) in
          let* r := call (GetDataMoverRestore (PersistentVolumeClaim.Namespace pvc)
                            dataMoverRestoreName) in
          match r with
          | inl err =>
              Fail (Wrapf ("failed to get datamoverrestore " ++ dataMoverRestoreName) err)
          | inr dmr =>
              let* err := call GetReplicationDestinationClient in
              match err with
              | Some err => Fail err
              | None =>
                  let* r := call (GetReplicationDestination
                                    (DataMoverRestore.ProtectedNamespace (DataMoverRestore.Spec dmr))
                                    repDestName) in
                  match r with
                  | inl err => Fail (Wrapf ("failed to get repDest for PVC " ++ repDestName) err)
                  | inr repDestination =>
                      let* status := deref (ReplicationDestination.Status repDestination) in
                      let* latestImage := deref (ReplicationDestination.LatestImage status) in
                      let volumeSnapshotName := TypedLocalObjectReference.Name latestImage in
                      let stringRestoreSize :=
                        PVCData.Size
                          (DMBRef.BackedUpPVCData
                             (DataMoverRestore.DataMoverBackupref (DataMoverRestore.Spec dmr))) in
                      match MustParse stringRestoreSize with
                      | None => Panic "cannot parse quantity"
                      | Some restoreSize =>
                          let pvc := setPVCStorageResourceRequest pvc restoreSize in
                          let pvc := resetPVCSpec pvc volumeSnapshotName in
                          Ret {| velero.UpdatedItem := Some pvc;
                                 velero.AdditionalItems := [];
                                 velero.SkipRestore := false |}
                      end
                  end
              end
          end
      end
  end.

End PVCRestoreItemAction.

(** *** The snapshot rewrite, src/internal/restore/volumesnapshot_action.go
    (the revision that resolves the content through the replication
    destination) *)
Module VolumeSnapshotRestoreItemAction.

Definition resetVolumeSnapshotSpecForRestore (vs : VolumeSnapshot.t) (vscName : option string)
  : VolumeSnapshot.t :=
  {| VolumeSnapshot.ObjectMeta := VolumeSnapshot.ObjectMeta vs;
     VolumeSnapshot.Spec_Source :=
       {| VolumeSnapshot.PersistentVolumeClaimName := None;
          VolumeSnapshot.VolumeSnapshotContentName := vscName |};
     VolumeSnapshot.Status := VolumeSnapshot.Status vs |}.

(** The name under which the restore request is looked up, and the name
    given to the content that is created. *)
Definition dataMoverRestoreName : string := "dmr-mssql-pvc".
Definition contentName : string := "VSC-DM-test".

Definition Execute `{Externals}
    (input : velero.RestoreItemActionExecuteInput VolumeSnapshot.t)
  : Prog (velero.RestoreItemActionExecuteOutput VolumeSnapshot.t) :=
  match velero.Item input with
  | inl err => Fail (Wrapf "failed to convert input.Item from unstructured" err)
  | inr vs =>
      let* err := call GetDatamoverClient in
      match err with
      | Some err => Fail err
      | None =>
      let* err := call GetReplicationDestinationClient in
      match err with
      | Some err => Fail err
      | None =>
      let* r := call (GetDataMoverRestore (VolumeSnapshot.Namespace vs) dataMoverRestoreName) in
      match r with
      | inl err => Fail (Wrapf ("failed to get datamoverrestore " ++ dataMoverRestoreName) err)
      | inr dmr =>
      let protectedNS := DataMoverRestore.ProtectedNamespace (DataMoverRestore.Spec dmr) in
      let repDestinationName := DataMoverRestore.Name dmr ++ "-rep-dest" in
      let* r := call (GetReplicationDestination protectedNS repDestinationName) in
      match r with
      | inl err => Fail err
      | inr repDestination =>
      let* volSyncVSC := util.GetVolSyncSnapContent repDestination protectedNS in
      let* err := call GetClients in
      match err with
      | Some err => Fail (WithStack err)
      | None =>
      let* vscStatus := deref (VolumeSnapshotContent.Status volSyncVSC) in
      let snapHandle := VolumeSnapshotContent.StatusSnapshotHandle vscStatus in
      let* _ := deref snapHandle in
      match index (VolumeSnapshot.Annotations vs) CSIDriverNameAnnotation with
      | None =>
          Fail (ErrorsNew ("Volumesnapshot " ++ VolumeSnapshot.Namespace vs ++ "/"
                             ++ VolumeSnapshot.Name vs ++ " does not have a "
                             ++ CSIDriverNameAnnotation ++ " annotation"))
      | Some csiDriverName =>
      let deletionPolicy :=
        match index (VolumeSnapshot.Annotations vs) CSIVSCDeletionPolicy with
        | Some deletionPolicy => deletionPolicy
        | None => VolumeSnapshotContentRetain
        end in
      let* rdStatus := deref (ReplicationDestination.Status repDestination) in
      let* latestImage := deref (ReplicationDestination.LatestImage rdStatus) in
      let vsc :=
        {| VolumeSnapshotContent.ObjectMeta :=
             {| ObjectMeta.Name := contentName;
                ObjectMeta.Namespace := "";
                ObjectMeta.Labels :=
                  Some {[ RestoreNameLabel :=
                            GetValidName (ObjectMeta.Name
                                            (velero.Restore_ObjectMeta (velero.Restore_ input))) ]};
                ObjectMeta.Annotations := None |};
           VolumeSnapshotContent.Spec :=
             {| VolumeSnapshotContent.DeletionPolicy := deletionPolicy;
                VolumeSnapshotContent.Driver := csiDriverName;
                VolumeSnapshotContent.VolumeSnapshotRef :=
                  {| ObjectReference.Kind := "VolumeSnapshot";
                     ObjectReference.Namespace := protectedNS;
                     ObjectReference.Name := TypedLocalObjectReference.Name latestImage |};
                VolumeSnapshotContent.Source_ :=
                  {| VolumeSnapshotContent.VolumeHandle := None;
                     VolumeSnapshotContent.SnapshotHandle := snapHandle |} |};
           VolumeSnapshotContent.Status := None |} in
      let* r := call (CreateVolumeSnapshotContent vsc) in
      match r with
      | inl err => Fail (Wrapf "failed to create volumesnapshotcontents " err)
      | inr vscupd =>
          (* the rewritten snapshot is a local value that is not returned *)
          let _ := resetVolumeSnapshotSpecForRestore vs
                     (Some (VolumeSnapshotContent.Name vscupd)) in
          Ret velero.empty_output
      end end end end end end end
  end.

End VolumeSnapshotRestoreItemAction.

(** *** The snapshot rewrite, later revision (the sources' file that reads
    the snapshot handle from the [VolumeSnapshotRestore]) *)
Module VolumeSnapshotRestoreItemAction_vsr.

Definition resetVolumeSnapshotSpecForRestore :=
  VolumeSnapshotRestoreItemAction.resetVolumeSnapshotSpecForRestore.

(** [vs.ObjectMeta.Annotations[k] = v]: writing to a nil map panics. *)
Definition resetVolumeSnapshotAnnotation `{Externals} (vs : VolumeSnapshot.t)
  : Prog VolumeSnapshot.t :=
  match VolumeSnapshot.Annotations vs with
  | None => Panic "assignment to entry in nil map"
  | Some annotations =>
      let m := VolumeSnapshot.ObjectMeta vs in
      Ret {| VolumeSnapshot.ObjectMeta :=
               {| ObjectMeta.Name := ObjectMeta.Name m;
                  ObjectMeta.Namespace := ObjectMeta.Namespace m;
                  ObjectMeta.Labels := ObjectMeta.Labels m;
                  ObjectMeta.Annotations :=
                    Some (<[CSIVSCDeletionPolicy := VolumeSnapshotContentRetain]> annotations) |};
             VolumeSnapshot.Spec_Source := VolumeSnapshot.Spec_Source vs;
             VolumeSnapshot.Status := VolumeSnapshot.Status vs |}
  end.

Definition Execute `{Externals}
    (input : velero.RestoreItemActionExecuteInput VolumeSnapshot.t)
  : Prog (velero.RestoreItemActionExecuteOutput VolumeSnapshot.t) :=
  match velero.Item input with
  | inl err => Fail (Wrapf "failed to convert input.Item from unstructured" err)
  | inr vs =>
      let* err := call GetVolumeSnapshotMoverClient in
      match err with
      | Some err => Fail err
      | None =>
      let* claimName := deref (VolumeSnapshot.PersistentVolumeClaimName
                                 (VolumeSnapshot.Spec_Source vs)) in
      let VSRestoreName := "vsr-" ++ claimName in
      let* r := call (GetVolumeSnapshotRestore (VolumeSnapshot.Namespace vs) VSRestoreName) in
      match r with
      | inl err =>
          Fail (Wrapf ("failed to get volumesnapshotrestore " ++ VSRestoreName ++ "/"
                         ++ VolumeSnapshot.Namespace vs) err)
      | inr vsr =>
      let* err := call GetClients in
      match err with
      | Some err => Fail (WithStack err)
      | None =>
      let* exists_ := util.IsVolumeSnapshotExists vs in
      let* vs :=
        if negb exists_ then
          let snapHandle := VolumeSnapshotRestore.SnapshotHandle (VolumeSnapshotRestore.Status vsr) in
          match index (VolumeSnapshot.Annotations vs) CSIDriverNameAnnotation with
          | None =>
              Fail (ErrorsNew ("Volumesnapshot " ++ VolumeSnapshot.Namespace vs ++ "/"
                                 ++ VolumeSnapshot.Name vs ++ " does not have a "
                                 ++ CSIDriverNameAnnotation ++ " annotation"))
          | Some csiDriverName =>
              let vsc :=
                {| VolumeSnapshotContent.ObjectMeta :=
                     {| ObjectMeta.Name :=
                          "vsr-vsc-" ++ PVCData.Name
                                          (DMBRef.BackedUpPVCData
                                             (VolumeSnapshotRestore.VolumeSnapshotMoverBackupref
                                                (VolumeSnapshotRestore.Spec vsr)));
                        ObjectMeta.Namespace := "";
                        ObjectMeta.Labels :=
                          Some {[ RestoreNameLabel :=
                                    GetValidName
                                      (ObjectMeta.Name
                                         (velero.Restore_ObjectMeta (velero.Restore_ input))) ]};
                        ObjectMeta.Annotations := None |};
                   VolumeSnapshotContent.Spec :=
                     {| VolumeSnapshotContent.DeletionPolicy := VolumeSnapshotContentRetain;
                        VolumeSnapshotContent.Driver := csiDriverName;
                        VolumeSnapshotContent.VolumeSnapshotRef :=
                          {| ObjectReference.Kind := "VolumeSnapshot";
                             ObjectReference.Namespace := VolumeSnapshot.Namespace vs;
                             ObjectReference.Name := VolumeSnapshot.Name vs |};
                        VolumeSnapshotContent.Source_ :=
                          {| VolumeSnapshotContent.VolumeHandle := None;
                             VolumeSnapshotContent.SnapshotHandle := Some snapHandle |} |};
                   VolumeSnapshotContent.Status := None |} in
              let* r := call (CreateVolumeSnapshotContent vsc) in
              match r with
              | inl err =>
                  Fail (Wrapf ("failed to create volumesnapshotcontents "
                                 ++ VolumeSnapshotContent.Name vsc) err)
              | inr vscupd =>
                  resetVolumeSnapshotAnnotation
                    (resetVolumeSnapshotSpecForRestore vs
                       (Some (VolumeSnapshotContent.Name vscupd)))
              end
          end
        else Ret vs in
      Ret {| velero.UpdatedItem := Some vs;
             velero.AdditionalItems := [];
             velero.SkipRestore := false |}
      end end end
  end.

End VolumeSnapshotRestoreItemAction_vsr.

(** *** The restore orchestrator (the sources' action on a backed-up
    [DataMoverBackup], the revision that waits for the restore) *)
Module DataMoverRestoreItemAction.

Definition Execute `{Externals} (ticks : nat)
    (input : velero.RestoreItemActionExecuteInput DataMoverBackup.t)
  : Prog (velero.RestoreItemActionExecuteOutput DataMoverBackup.t) :=
  match velero.Item input with
  | inl err => Fail (Wrapf "failed to convert DMB input.Item from unstructured" err)
  | inr dmb =>
      let* err := call GetDatamoverClient in
      match err with
      | Some err => Fail err
      | None =>
          let annotations := DataMoverBackup.Annotations dmb in
          let dmr :=
            {| DataMoverRestore.ObjectMeta :=
                 ObjectMeta.named (DataMoverBackup.Namespace dmb)
                   ("dmr-" ++ index_string annotations DatamoverSourcePVCName);
               DataMoverRestore.Spec :=
                 {| DataMoverRestore.ResticSecretRef :=
                      {| LocalObjectReference.Name := "restic-secret" |};
                    DataMoverRestore.DataMoverBackupref :=
                      {| DMBRef.BackedUpPVCData :=
                           {| PVCData.Name := index_string annotations DatamoverSourcePVCName;
                              PVCData.Size := index_string annotations DatamoverSourcePVCSize |};
                         DMBRef.ResticRepository :=
                           index_string annotations DatamoverResticRepository |};
                    DataMoverRestore.ProtectedNamespace :=
                      DataMoverBackup.ProtectedNamespace (DataMoverBackup.Spec dmb) |} |} in
          let* err := call (CreateDataMoverRestore dmr) in
          match err with
          | Some err => Fail (Wrapf "error creating datamoverrestore CR" err)
          | None =>
              let* (dataMoverRestoreCompleted, err) :=
                util.IsDataMoverRestoreCompleted ticks
                  (DataMoverRestore.Namespace dmr) (DataMoverRestore.Name dmr)
                  (DataMoverRestore.ProtectedNamespace (DataMoverRestore.Spec dmr)) in
              match err with
              | Some err => Fail (WithStack err)
              | None =>
                  if negb dataMoverRestoreCompleted
                  then Fail (ErrorsNew "datamoverRestore never completed")
                  else Ret velero.empty_output
              end
          end
      end
  end.

End DataMoverRestoreItemAction.

(** *** The restore action on snapshot contents (the second file held in
    src/internal/delete/volumesnapshotcontent_action.go) *)
Module VolumeSnapshotContentRestoreItemAction.

(** The input with [input.Restore.Spec.RestorePVs], a field of the restore
    that only this action reads. *)
Record Input := {
  Base : velero.RestoreItemActionExecuteInput VolumeSnapshotContent.t;
  RestorePVs : option bool
}.

Definition skip : velero.RestoreItemActionExecuteOutput VolumeSnapshotContent.t :=
  {| velero.UpdatedItem := None; velero.AdditionalItems := []; velero.SkipRestore := true |}.

Definition Execute `{Externals} `{Platform} `{Constants} (input : Input)
  : Prog (velero.RestoreItemActionExecuteOutput VolumeSnapshotContent.t) :=
  if util.DataMoverCase then Ret skip
  else if IsSetToFalse (RestorePVs input) then Ret skip
  else
    match velero.Item (Base input) with
    | inl err => Fail (Wrapf "failed to convert input.Item from unstructured" err)
    | inr snapCont =>
        let annotations := ObjectMeta.Annotations (VolumeSnapshotContent.ObjectMeta snapCont) in
        let additionalItems :=
          if util.IsVolumeSnapshotContentHasDeleteSecret snapCont then
            [ {| velero.GroupResource_ := {| velero.Group := ""; velero.Resource := "secrets" |};
                 velero.Namespace := index_string annotations CSIDeleteSnapshotSecretNamespace;
                 velero.Name := index_string annotations CSIDeleteSnapshotSecretName |} ]
          else [] in
        Ret {| velero.UpdatedItem := Some snapCont;
               velero.AdditionalItems := additionalItems;
               velero.SkipRestore := false |}
    end.

End VolumeSnapshotContentRestoreItemAction.

End restore.

(** ** Package [backup]: src/internal/backup/volumesnapshotcontent_action.go *)

Module backup.
Module VolumeSnapshotContentBackupItemAction.

(** Modelled from the spec: [util.DoesVolumeSnapshotBackupExistForVSC], the
    existence check that [Execute] calls.  Its body is not in the sources,
    which hold only the check of the earlier request type,
    [util.DoesDataMoverBackupExistForVSC].  The spec: the orchestrator
    checks whether a mover-backup request already exists whose recorded
    content reference equals the name of the content; the request is
    created at most once for a content, its idempotency key being the
    deterministic name derived from the name of the owning snapshot
    (create-if-absent by lookup), so the lookup is under the name and in the
    namespace that [Execute] gives the request.  A request that is not there
    is the answer no, not an error; a client that cannot be made, or another
    failure of the read, is handed to the caller.  Returns [(bool, error)]. *)
Definition DoesVolumeSnapshotBackupExistForVSC (volSnap : VolumeSnapshotContent.t)
  : Prog (bool * option error) :=
  let ref := VolumeSnapshotContent.VolumeSnapshotRef (VolumeSnapshotContent.Spec volSnap) in
  let* err := call GetDatamoverClient in
  match err with
  | Some err => Ret (false, Some err)
  | None =>
      let* r := call (GetDataMoverBackup (ObjectReference.Namespace ref)
                        ("vsb-" ++ ObjectReference.Name ref)) in
      match r with
      | inl err => if IsNotFound err then Ret (false, None) else Ret (false, Some err)
      | inr vsb =>
          Ret (String.eqb (ObjectReference.Name
                             (DataMoverBackup.VolumeSnapshotContent (DataMoverBackup.Spec vsb)))
                          (VolumeSnapshotContent.Name volSnap),
               None)
      end
  end.

(** The body of [Execute], with the existence check it calls as an
    argument.  It returns the item, the additional items and an error.  The
    error of [util.GetDatamoverClient] is overwritten by the one of [Create];
    with no client the method call on the nil interface panics. *)
Definition ExecuteWith `{Externals}
    (check : VolumeSnapshotContent.t -> Prog (bool * option error))
    (item : velero.Unstructured VolumeSnapshotContent.t) (backup : velero.Backup)
  : Prog (velero.Unstructured VolumeSnapshotContent.t * list velero.ResourceIdentifier) :=
  match item with
  | inl err => Fail (WithStack err)
  | inr snapCont =>
      let ref := VolumeSnapshotContent.VolumeSnapshotRef (VolumeSnapshotContent.Spec snapCont) in
      let vsb :=
        {| DataMoverBackup.ObjectMeta :=
             ObjectMeta.named (ObjectReference.Namespace ref) ("vsb-" ++ ObjectReference.Name ref);
           DataMoverBackup.Spec :=
             {| DataMoverBackup.VolumeSnapshotContent :=
                  {| ObjectReference.Kind := "";
                     ObjectReference.Namespace := "";
                     ObjectReference.Name := VolumeSnapshotContent.Name snapCont |};
                DataMoverBackup.ProtectedNamespace :=
                  ObjectMeta.Namespace (velero.Backup_ObjectMeta backup) |};
           DataMoverBackup.Status :=
             {| DataMoverBackup.Phase := "";
                DataMoverBackup.SourcePVCData := {| PVCData.Name := ""; PVCData.Size := "" |};
                DataMoverBackup.ResticRepository := "" |} |} in
      let* (VSBExists, err) := check snapCont in
      match err with
      | Some err => Fail (WithStack err)
      | None =>
          let* _ :=
            if negb VSBExists then
              let* noClient := call GetDatamoverClient in
              match noClient with
              | Some _ => Panic nil_pointer_dereference
              | None =>
                  let* err := call (CreateVolumeSnapshotBackup vsb) in
                  match err with
                  | Some err => Fail (Wrapf "error creating volumesnapshotbackup CR" err)
                  | None => Ret tt
                  end
              end
            else Ret tt in
          let annotations := ObjectMeta.Annotations (VolumeSnapshotContent.ObjectMeta snapCont) in
          let secret :=
            if util.IsVolumeSnapshotContentHasDeleteSecret snapCont then
              [ {| velero.GroupResource_ := {| velero.Group := ""; velero.Resource := "secrets" |};
                   velero.Namespace := index_string annotations PrefixedSnapshotterSecretNamespaceKey;
                   velero.Name := index_string annotations PrefixedSnapshotterSecretNameKey |} ]
            else [] in
          Ret (item,
               (secret ++
                [ {| velero.GroupResource_ :=
                       {| velero.Group := "datamover.oadp.openshift.io";
                          velero.Resource := "volumesnapshotbackup" |};
                     velero.Namespace := DataMoverBackup.Namespace vsb;
                     velero.Name := DataMoverBackup.Name vsb |} ])%list)
      end
  end.

Definition Execute `{Externals}
    (item : velero.Unstructured VolumeSnapshotContent.t) (backup : velero.Backup)
  : Prog (velero.Unstructured VolumeSnapshotContent.t * list velero.ResourceIdentifier) :=
  ExecuteWith DoesVolumeSnapshotBackupExistForVSC item backup.

End VolumeSnapshotContentBackupItemAction.

(** *** src/internal/backup/datamoverbackup_action.go *)
Module DataMoverBackupItemAction.

(** [Execute] returns the item, the additional items (none) and an error.
    The three annotation keys are constants that differ, as a Go map literal
    requires. *)
Definition Execute `{Externals} `{Constants} (ticks : nat)
    (item : velero.Unstructured DataMoverBackup.t) (backup : velero.Backup)
  : Prog (DataMoverBackup.t * list velero.ResourceIdentifier) :=
  match item with
  | inl err => Fail (WithStack err)
  | inr dmb =>
      let* (dmbNew, err) :=
        util.GetDataMoverbackupWithCompletedStatus ticks
          (DataMoverBackup.Namespace dmb) (DataMoverBackup.Name dmb) in
      match err with
      | Some err => Fail (WithStack err)
      | None =>
          let status := DataMoverBackup.Status dmbNew in
          let vals : gmap string string :=
            {[ DatamoverResticRepository := DataMoverBackup.ResticRepository status;
               DatamoverSourcePVCName := PVCData.Name (DataMoverBackup.SourcePVCData status);
               DatamoverSourcePVCSize := PVCData.Size (DataMoverBackup.SourcePVCData status) ]} in
          Ret ({| DataMoverBackup.ObjectMeta :=
                    util.AddAnnotations (DataMoverBackup.ObjectMeta dmb) (Some vals);
                  DataMoverBackup.Spec := DataMoverBackup.Spec dmb;
                  DataMoverBackup.Status := status |},
               [])
      end
  end.

End DataMoverBackupItemAction.

End backup.

(** ** An in-memory cluster

    A store of objects by kind and name that answers the calls the way the
    API server does: reading, patching or deleting an absent object is a
    not-found error, creating a present one an already-exists error.  It
    serves to run the actions on concrete inputs. *)

Record Cluster := {
  contents : gmap string VolumeSnapshotContent.t;
  snapshots : gmap (string * string) VolumeSnapshot.t;
  moverBackups : gmap (string * string) DataMoverBackup.t;
  moverRestores : gmap (string * string) DataMoverRestore.t;
  snapshotRestores : gmap (string * string) VolumeSnapshotRestore.t;
  replicationDestinations : gmap (string * string) ReplicationDestination.t
}.

Definition emptyCluster : Cluster :=
  {| contents := ∅; snapshots := ∅; moverBackups := ∅; moverRestores := ∅;
     snapshotRestores := ∅; replicationDestinations := ∅ |}.

Definition notFound (name : string) : error :=
  StatusError StatusReasonNotFound (name ++ " not found").
Definition alreadyExists (name : string) : error :=
  StatusError StatusReasonAlreadyExists (name ++ " already exists").

Definition lookup_or_notFound {K V} `{Countable K} (m : gmap K V) (k : K) (name : string)
  : error + V :=
  match m !! k with
  | Some v => inr v
  | None => inl (notFound name)
  end.

Definition setContents (w : Cluster) (c : gmap string VolumeSnapshotContent.t) : Cluster :=
  {| contents := c; snapshots := snapshots w; moverBackups := moverBackups w;
     moverRestores := moverRestores w; snapshotRestores := snapshotRestores w;
     replicationDestinations := replicationDestinations w |}.

Definition setMoverBackups (w : Cluster) (b : gmap (string * string) DataMoverBackup.t)
  : Cluster :=
  {| contents := contents w; snapshots := snapshots w; moverBackups := b;
     moverRestores := moverRestores w; snapshotRestores := snapshotRestores w;
     replicationDestinations := replicationDestinations w |}.

Definition setMoverRestores (w : Cluster) (r : gmap (string * string) DataMoverRestore.t)
  : Cluster :=
  {| contents := contents w; snapshots := snapshots w; moverBackups := moverBackups w;
     moverRestores := r; snapshotRestores := snapshotRestores w;
     replicationDestinations := replicationDestinations w |}.

Definition setReplicationDestinations (w : Cluster)
    (r : gmap (string * string) ReplicationDestination.t) : Cluster :=
  {| contents := contents w; snapshots := snapshots w; moverBackups := moverBackups w;
     moverRestores := moverRestores w; snapshotRestores := snapshotRestores w;
     replicationDestinations := r |}.

Definition withDeletionPolicy (policy : string) (vsc : VolumeSnapshotContent.t)
  : VolumeSnapshotContent.t :=
  let spec := VolumeSnapshotContent.Spec vsc in
  {| VolumeSnapshotContent.ObjectMeta := VolumeSnapshotContent.ObjectMeta vsc;
     VolumeSnapshotContent.Spec :=
       {| VolumeSnapshotContent.DeletionPolicy := policy;
          VolumeSnapshotContent.Driver := VolumeSnapshotContent.Driver spec;
          VolumeSnapshotContent.VolumeSnapshotRef := VolumeSnapshotContent.VolumeSnapshotRef spec;
          VolumeSnapshotContent.Source_ := VolumeSnapshotContent.Source_ spec |};
     VolumeSnapshotContent.Status := VolumeSnapshotContent.Status vsc |}.

Definition serve {R} (c : Request R) (w : Cluster) : R * Cluster :=
  match c in Request R return R * Cluster with
  | GetClients => (None, w)
  | GetDatamoverClient => (None, w)
  | GetVolumeSnapshotMoverClient => (None, w)
  | GetReplicationDestinationClient => (None, w)
  | PatchVolumeSnapshotContent name _ =>
      match contents w !! name with
      | Some vsc =>
          (None, setContents w (<[name := withDeletionPolicy VolumeSnapshotContentDelete vsc]>
                                  (contents w)))
      | None => (Some (notFound name), w)
      end
  | DeleteVolumeSnapshotContent name =>
      match contents w !! name with
      | Some _ => (None, setContents w (delete name (contents w)))
      | None => (Some (notFound name), w)
      end
  | CreateVolumeSnapshotContent vsc =>
      let name := VolumeSnapshotContent.Name vsc in
      match contents w !! name with
      | Some _ => (inl (alreadyExists name), w)
      | None => (inr vsc, setContents w (<[name := vsc]> (contents w)))
      end
  | GetVolumeSnapshotContent name => (lookup_or_notFound (contents w) name name, w)
  | GetVolumeSnapshot ns name => (lookup_or_notFound (snapshots w) (ns, name) name, w)
  | GetDataMoverBackup ns name => (lookup_or_notFound (moverBackups w) (ns, name) name, w)
  | CreateVolumeSnapshotBackup vsb =>
      let key := (DataMoverBackup.Namespace vsb, DataMoverBackup.Name vsb) in
      match moverBackups w !! key with
      | Some _ => (Some (alreadyExists (DataMoverBackup.Name vsb)), w)
      | None => (None, setMoverBackups w (<[key := vsb]> (moverBackups w)))
      end
  | GetDataMoverRestore ns name => (lookup_or_notFound (moverRestores w) (ns, name) name, w)
  | CreateDataMoverRestore dmr =>
      let key := (DataMoverRestore.Namespace dmr, DataMoverRestore.Name dmr) in
      match moverRestores w !! key with
      | Some _ => (Some (alreadyExists (DataMoverRestore.Name dmr)), w)
      | None => (None, setMoverRestores w (<[key := dmr]> (moverRestores w)))
      end
  | GetVolumeSnapshotRestore ns name =>
      (lookup_or_notFound (snapshotRestores w) (ns, name) name, w)
  | GetReplicationDestination ns name =>
      (lookup_or_notFound (replicationDestinations w) (ns, name) name, w)
  end.

Definition apiServer : Environment Cluster := {| handle := @serve |}.

(** The same, with a controller that acts on the store after every call. *)
Definition reconciledBy (controller : Cluster -> Cluster) : Environment Cluster :=
  {| handle := fun R (c : Request R) w =>
                 let rw := serve c w in (fst rw, controller (snd rw)) |}.

(** Values for the outside parts when an action is run on an example: the
    annotation keys in the style of the plugin, a table in place of the
    quantity parser, and no digest (no example has a name over 63 bytes, so
    none is asked for). *)
Definition Gi (n : Z) : Quantity :=
  {| unscaled := n * 2 ^ 30; scale := 0; Format := "BinarySI" |}.

Definition exampleExternals : Externals :=
  {| sha256_hex := fun _ => "";
     MustParse := fun text =>
       if String.eqb text "5Gi" then Some (Gi 5)
       else if String.eqb text "8Gi" then Some (Gi 8)
       else if String.eqb text "10Gi" then Some (Gi 10)
       else None;
     CSIDriverNameAnnotation := "velero.io/csi-driver-name";
     CSIVSCDeletionPolicy := "velero.io/csi-vsc-deletion-policy";
     DatamoverSourcePVCName := "datamover.io/source-pvc-name";
     DatamoverSourcePVCSize := "datamover.io/source-pvc-size";
     DatamoverResticRepository := "datamover.io/restic-repository";
     PrefixedSnapshotterSecretNameKey := "csi.storage.k8s.io/snapshotter-secret-name";
     PrefixedSnapshotterSecretNamespaceKey := "csi.storage.k8s.io/snapshotter-secret-namespace";
     Sprintf_verbs := fun format => format |}.

(** ** Examples

    Items and clusters on which the actions are run below. *)

Definition backup1 : velero.Backup :=
  {| velero.Backup_ObjectMeta := ObjectMeta.named "velero" "backup-1" |}.

(** A content labelled as taken by [backup-1]; it has no status. *)
Definition content1 : VolumeSnapshotContent.t :=
  {| VolumeSnapshotContent.ObjectMeta :=
       {| ObjectMeta.Name := "snapcontent-1";
          ObjectMeta.Namespace := "";
          ObjectMeta.Labels := Some {[ BackupNameLabel := "backup-1" ]};
          ObjectMeta.Annotations := None |};
     VolumeSnapshotContent.Spec :=
       {| VolumeSnapshotContent.DeletionPolicy := VolumeSnapshotContentRetain;
          VolumeSnapshotContent.Driver := "hostpath.csi.k8s.io";
          VolumeSnapshotContent.VolumeSnapshotRef :=
            {| ObjectReference.Kind := "VolumeSnapshot";
               ObjectReference.Namespace := "app";
               ObjectReference.Name := "snap-1" |};
          VolumeSnapshotContent.Source_ :=
            {| VolumeSnapshotContent.VolumeHandle := Some "vol-1";
               VolumeSnapshotContent.SnapshotHandle := None |} |};
     VolumeSnapshotContent.Status := None |}.

Definition deleteContent1 : Prog unit :=
  @delete.VolumeSnapshotContentDeleteItemAction.Execute exampleExternals
    {| velero.Delete_Item := inr content1; velero.Delete_Backup := backup1 |}.

(** A cluster that holds [content1], and a controller that removes a
    content as soon as its policy is [Delete]. *)
Definition clusterWithContent1 : Cluster :=
  setContents emptyCluster {[ "snapcontent-1" := content1 ]}.

Definition removesContents (w : Cluster) : Cluster :=
  setContents w
    (filter (fun kv => VolumeSnapshotContent.DeletionPolicy (VolumeSnapshotContent.Spec (snd kv))
                       <> VolumeSnapshotContentDelete)
            (contents w)).


(** A claim bound in the source cluster, with the four provisioner
    annotations and one of its own, asking for 5Gi. *)
Definition restore1 : velero.Restore :=
  {| velero.Restore_ObjectMeta := ObjectMeta.named "velero" "restore-1";
     velero.NamespaceMapping := None |}.

Definition claim (name : string) (request : Quantity) : PersistentVolumeClaim.t :=
  {| PersistentVolumeClaim.ObjectMeta :=
       {| ObjectMeta.Name := name;
          ObjectMeta.Namespace := "app";
          ObjectMeta.Labels := None;
          ObjectMeta.Annotations :=
            Some (list_to_map
                    [ ("pv.kubernetes.io/bind-completed", "yes");
                      ("pv.kubernetes.io/bound-by-controller", "yes");
                      ("volume.beta.kubernetes.io/storage-provisioner", "hostpath.csi.k8s.io");
                      ("volume.kubernetes.io/selected-node", "node-1");
                      ("example.com/owner", "team-a") ]) |};
     PersistentVolumeClaim.Spec :=
       {| PersistentVolumeClaim.VolumeName := "pvc-0a1b";
          PersistentVolumeClaim.DataSource := None;
          PersistentVolumeClaim.Resources_Requests :=
            Some {[ ResourceStorage := request ]} |} |}.

(** The restore request made for the claim [name], with 8Gi recorded, and a
    replication destination named [rd] that has completed one manual sync
    and shows the snapshot [volsync-snap] as its latest image. *)
Definition restoreRequest (name : string) : DataMoverRestore.t :=
  {| DataMoverRestore.ObjectMeta := ObjectMeta.named "app" ("dmr-" ++ name);
     DataMoverRestore.Spec :=
       {| DataMoverRestore.ResticSecretRef := {| LocalObjectReference.Name := "restic-secret" |};
          DataMoverRestore.DataMoverBackupref :=
            {| DMBRef.BackedUpPVCData := {| PVCData.Name := name; PVCData.Size := "8Gi" |};
               DMBRef.ResticRepository := "s3:bucket/repo" |};
          DataMoverRestore.ProtectedNamespace := "openshift-adp" |} |}.

Definition volsyncImage : TypedLocalObjectReference.t :=
  {| TypedLocalObjectReference.APIGroup := Some "snapshot.storage.k8s.io";
     TypedLocalObjectReference.Kind := "VolumeSnapshot";
     TypedLocalObjectReference.Name := "volsync-snap" |}.

Definition syncedDestination (rd : string) : ReplicationDestination.t :=
  {| ReplicationDestination.ObjectMeta := ObjectMeta.named "openshift-adp" rd;
     ReplicationDestination.Spec_Trigger := Some {| ReplicationDestination.Manual := "sync-1" |};
     ReplicationDestination.Status :=
       Some {| ReplicationDestination.LastSyncTime := Some 1652365000;
               ReplicationDestination.LastManualSync := "sync-1";
               ReplicationDestination.LatestImage := Some volsyncImage |} |}.

(** The cluster after the mover has restored the claim [name]: request and
    destination under the names of the convention. *)
Definition clusterRestored (name : string) : Cluster :=
  setReplicationDestinations
    (setMoverRestores emptyCluster {[ ("app", "dmr-" ++ name) := restoreRequest name ]})
    {[ ("openshift-adp", "dmr-" ++ name ++ "-rep-dest")
       := syncedDestination ("dmr-" ++ name ++ "-rep-dest") ]}.

Definition restoreClaim (pvc : PersistentVolumeClaim.t)
  : Prog (velero.RestoreItemActionExecuteOutput PersistentVolumeClaim.t) :=
  @restore.PVCRestoreItemAction.Execute exampleExternals
    {| velero.Item := inr pvc; velero.Restore_ := restore1 |}.

(** A snapshot of the claim [name] as the backup holds it: taken from the
    claim, with the driver recorded and the deletion policy [policy] of its
    content at backup time. *)
Definition snapshotOf (name policy : string) : VolumeSnapshot.t :=
  {| VolumeSnapshot.ObjectMeta :=
       {| ObjectMeta.Name := "velero-" ++ name;
          ObjectMeta.Namespace := "app";
          ObjectMeta.Labels := None;
          ObjectMeta.Annotations :=
            Some (list_to_map
                    [ (@CSIDriverNameAnnotation exampleExternals, "hostpath.csi.k8s.io");
                      (@CSIVSCDeletionPolicy exampleExternals, policy) ]) |};
     VolumeSnapshot.Spec_Source :=
       {| VolumeSnapshot.PersistentVolumeClaimName := Some name;
          VolumeSnapshot.VolumeSnapshotContentName := None |};
     VolumeSnapshot.Status := None |}.

(** What the mover left after the restore of [name]: besides the request
    and the destination, the snapshot [volsync-snap] bound to a content with
    a snapshot handle. *)
Definition volsyncContent : VolumeSnapshotContent.t :=
  {| VolumeSnapshotContent.ObjectMeta := ObjectMeta.named "" "snapcontent-volsync";
     VolumeSnapshotContent.Spec :=
       {| VolumeSnapshotContent.DeletionPolicy := VolumeSnapshotContentDelete;
          VolumeSnapshotContent.Driver := "hostpath.csi.k8s.io";
          VolumeSnapshotContent.VolumeSnapshotRef :=
            {| ObjectReference.Kind := "VolumeSnapshot";
               ObjectReference.Namespace := "openshift-adp";
               ObjectReference.Name := "volsync-snap" |};
          VolumeSnapshotContent.Source_ :=
            {| VolumeSnapshotContent.VolumeHandle := Some "vol-7";
               VolumeSnapshotContent.SnapshotHandle := None |} |};
     VolumeSnapshotContent.Status :=
       Some {| VolumeSnapshotContent.StatusSnapshotHandle := Some "snap-0f3c" |} |}.

Definition volsyncSnapshot : VolumeSnapshot.t :=
  {| VolumeSnapshot.ObjectMeta := ObjectMeta.named "openshift-adp" "volsync-snap";
     VolumeSnapshot.Spec_Source :=
       {| VolumeSnapshot.PersistentVolumeClaimName := Some "volsync-dst";
          VolumeSnapshot.VolumeSnapshotContentName := None |};
     VolumeSnapshot.Status :=
       Some {| VolumeSnapshot.BoundVolumeSnapshotContentName := Some "snapcontent-volsync" |} |}.

Definition clusterMoved (name : string) : Cluster :=
  let w := clusterRestored name in
  {| contents := {[ "snapcontent-volsync" := volsyncContent ]};
     snapshots := {[ ("openshift-adp", "volsync-snap") := volsyncSnapshot ]};
     moverBackups := moverBackups w;
     moverRestores := moverRestores w;
     snapshotRestores := snapshotRestores w;
     replicationDestinations := replicationDestinations w |}.

Definition restoreSnapshot (vs : VolumeSnapshot.t)
  : Prog (velero.RestoreItemActionExecuteOutput VolumeSnapshot.t) :=
  @restore.VolumeSnapshotRestoreItemAction.Execute exampleExternals
    {| velero.Item := inr vs; velero.Restore_ := restore1 |}.

(** A backed-up mover-backup item with the data of the claim in its
    annotations. *)
Definition moverItem : DataMoverBackup.t :=
  {| DataMoverBackup.ObjectMeta :=
       {| ObjectMeta.Name := "dmb-velero-mssql-pvc";
          ObjectMeta.Namespace := "app";
          ObjectMeta.Labels := None;
          ObjectMeta.Annotations :=
            Some (list_to_map
                    [ (@DatamoverSourcePVCName exampleExternals, "mssql-pvc");
                      (@DatamoverSourcePVCSize exampleExternals, "8Gi");
                      (@DatamoverResticRepository exampleExternals, "s3:bucket/repo") ]) |};
     DataMoverBackup.Spec :=
       {| DataMoverBackup.VolumeSnapshotContent :=
            {| ObjectReference.Kind := ""; ObjectReference.Namespace := "";
               ObjectReference.Name := "snapcontent-1" |};
          DataMoverBackup.ProtectedNamespace := "openshift-adp" |};
     DataMoverBackup.Status :=
       {| DataMoverBackup.Phase := "";
          DataMoverBackup.SourcePVCData := {| PVCData.Name := ""; PVCData.Size := "" |};
          DataMoverBackup.ResticRepository := "" |} |}.

(** A cluster in which the mover takes its time: the state comes with a
    count of the calls answered, and once [n] calls have been answered the
    replication destination of [dmr-mssql-pvc] is there, synced. *)
Definition moverDoneAfter (n : nat) : Environment (nat * Cluster) :=
  {| handle := fun R (c : Request R) s =>
       let rw := serve c (snd s) in
       (fst rw,
        (S (fst s),
         if (n <=? fst s)%nat
         then setReplicationDestinations (snd rw)
                {[ ("openshift-adp", "dmr-mssql-pvc-rep-dest")
                   := syncedDestination "dmr-mssql-pvc-rep-dest" ]}
         else snd rw)) |}.

Definition restoreMoverItem (ticks : nat)
  : Prog (velero.RestoreItemActionExecuteOutput DataMoverBackup.t) :=
  @restore.DataMoverRestoreItemAction.Execute exampleExternals ticks
    {| velero.Item := inr moverItem; velero.Restore_ := restore1 |}.

(** The content [sc-a] of the snapshot [snap-a] (a content has no
    namespace), and a cluster that holds a mover-backup request of the
    earlier type, made for an earlier content of a snapshot of that name. *)
Definition contentA : VolumeSnapshotContent.t :=
  {| VolumeSnapshotContent.ObjectMeta := ObjectMeta.named "" "sc-a";
     VolumeSnapshotContent.Spec :=
       {| VolumeSnapshotContent.DeletionPolicy := VolumeSnapshotContentRetain;
          VolumeSnapshotContent.Driver := "hostpath.csi.k8s.io";
          VolumeSnapshotContent.VolumeSnapshotRef :=
            {| ObjectReference.Kind := "VolumeSnapshot";
               ObjectReference.Namespace := "app";
               ObjectReference.Name := "snap-a" |};
          VolumeSnapshotContent.Source_ :=
            {| VolumeSnapshotContent.VolumeHandle := Some "vol-1";
               VolumeSnapshotContent.SnapshotHandle := None |} |};
     VolumeSnapshotContent.Status :=
       Some {| VolumeSnapshotContent.StatusSnapshotHandle := Some "snap-77aa" |} |}.

Definition olderRequest : DataMoverBackup.t :=
  {| DataMoverBackup.ObjectMeta := ObjectMeta.named "app" "dmb-snap-a";
     DataMoverBackup.Spec :=
       {| DataMoverBackup.VolumeSnapshotContent :=
            {| ObjectReference.Kind := ""; ObjectReference.Namespace := "";
               ObjectReference.Name := "sc-old" |};
          DataMoverBackup.ProtectedNamespace := "velero" |};
     DataMoverBackup.Status :=
       {| DataMoverBackup.Phase := "Completed";
          DataMoverBackup.SourcePVCData := {| PVCData.Name := "data"; PVCData.Size := "8Gi" |};
          DataMoverBackup.ResticRepository := "s3:bucket/repo" |} |}.

Definition clusterWithOlderRequest : Cluster :=
  setMoverBackups emptyCluster {[ ("app", "dmb-snap-a") := olderRequest ]}.

Definition backupContent (vsc : VolumeSnapshotContent.t)
  : Prog (velero.Unstructured VolumeSnapshotContent.t * list velero.ResourceIdentifier) :=
  @backup.VolumeSnapshotContentBackupItemAction.Execute exampleExternals (inr vsc) backup1.

(** Values for the further outside parts: the mover path off, no volume
    given to restic, and constants in the style of the plugin. *)
Definition examplePlatform : Platform :=
  {| Getenv := fun _ => ""; GetPodVolumesUsingRestic := fun _ _ => [] |}.

Definition exampleConstants : Constants :=
  {| CSIDeleteSnapshotSecretName := "velero.io/csi-deletesnapshotsecret-name";
     CSIDeleteSnapshotSecretNamespace := "velero.io/csi-deletesnapshotsecret-namespace";
     VolumeSnapshotClassSelectorLabel := "velero.io/csi-volumesnapshot-class";
     DatamoverBackupPhaseCompleted := "Completed" |}.

(** A pod that mounts the claim [mssql-pvc] as its volume [data], and a
    platform on which restic backs up the volumes named [data]. *)
Definition podA : Pod.t :=
  {| Pod.ObjectMeta := ObjectMeta.named "app" "mssql-0";
     Pod.Spec_Volumes :=
       [ {| Volume.Name := "config"; Volume.PersistentVolumeClaim := None |};
         {| Volume.Name := "data";
            Volume.PersistentVolumeClaim := Some {| Volume.ClaimName := "mssql-pvc" |} |} ] |}.

Definition podsOfApp : util.PodsGetter :=
  fun ns => if String.eqb ns "app" then inr [podA] else inl (OtherError "connection refused").

Definition resticOnData : Platform :=
  {| Getenv := fun _ => "true"; GetPodVolumesUsingRestic := fun _ _ => ["data"] |}.

(** A backup request being backed up, with an annotation of its own, and
    the request as the cluster holds it once the mover is done. *)
Definition requestItem : DataMoverBackup.t :=
  {| DataMoverBackup.ObjectMeta :=
       {| ObjectMeta.Name := "dmb-snap-1";
          ObjectMeta.Namespace := "app";
          ObjectMeta.Labels := None;
          ObjectMeta.Annotations := Some {[ "example.com/owner" := "team-a" ]} |};
     DataMoverBackup.Spec :=
       {| DataMoverBackup.VolumeSnapshotContent :=
            {| ObjectReference.Kind := ""; ObjectReference.Namespace := "";
               ObjectReference.Name := "snapcontent-1" |};
          DataMoverBackup.ProtectedNamespace := "openshift-adp" |};
     DataMoverBackup.Status :=
       {| DataMoverBackup.Phase := "";
          DataMoverBackup.SourcePVCData := {| PVCData.Name := ""; PVCData.Size := "" |};
          DataMoverBackup.ResticRepository := "" |} |}.

Definition requestDone : DataMoverBackup.t :=
  {| DataMoverBackup.ObjectMeta := ObjectMeta.named "app" "dmb-snap-1";
     DataMoverBackup.Spec := DataMoverBackup.Spec requestItem;
     DataMoverBackup.Status :=
       {| DataMoverBackup.Phase := "Completed";
          DataMoverBackup.SourcePVCData :=
            {| PVCData.Name := "mssql-pvc"; PVCData.Size := "8Gi" |};
          DataMoverBackup.ResticRepository := "s3:bucket/repo" |} |}.

Definition clusterBackedUp : Cluster :=
  setMoverBackups emptyCluster {[ ("app", "dmb-snap-1") := requestDone ]}.

Definition backupRequestItem (ticks : nat)
  : Prog (DataMoverBackup.t * list velero.ResourceIdentifier) :=
  @backup.DataMoverBackupItemAction.Execute exampleExternals exampleConstants ticks
    (inr requestItem) backup1.

(** A cluster whose mover has not touched the request. *)
Definition clusterNotBackedUp : Cluster :=
  setMoverBackups emptyCluster {[ ("app", "dmb-snap-1") := requestItem ]}.

(** The item the backup action is to return for [requestItem]. *)
Definition requestBackedUp : DataMoverBackup.t :=
  {| DataMoverBackup.ObjectMeta :=
       {| ObjectMeta.Name := "dmb-snap-1";
          ObjectMeta.Namespace := "app";
          ObjectMeta.Labels := None;
          ObjectMeta.Annotations :=
            Some {[ "example.com/owner" := "team-a";
                    "datamover.io/restic-repository" := "s3:bucket/repo";
                    "datamover.io/source-pvc-name" := "mssql-pvc";
                    "datamover.io/source-pvc-size" := "8Gi" ]} |};
     DataMoverBackup.Spec := DataMoverBackup.Spec requestItem;
     DataMoverBackup.Status := DataMoverBackup.Status requestDone |}.

(** A content whose annotations name the secret of its snapshotter but not
    the secret that velero recorded for deletion. *)
Definition contentWithSecret : VolumeSnapshotContent.t :=
  {| VolumeSnapshotContent.ObjectMeta :=
       {| ObjectMeta.Name := "snapcontent-2";
          ObjectMeta.Namespace := "";
          ObjectMeta.Labels := None;
          ObjectMeta.Annotations :=
            Some {[ "csi.storage.k8s.io/snapshotter-secret-name" := "csi-secret";
                    "csi.storage.k8s.io/snapshotter-secret-namespace" := "storage" ]} |};
     VolumeSnapshotContent.Spec := VolumeSnapshotContent.Spec content1;
     VolumeSnapshotContent.Status := None |}.

Definition restoreContentInput (item : velero.Unstructured VolumeSnapshotContent.t)
    (restorePVs : option bool) : restore.VolumeSnapshotContentRestoreItemAction.Input :=
  {| restore.VolumeSnapshotContentRestoreItemAction.Base :=
       {| velero.Item := item; velero.Restore_ := restore1 |};
     restore.VolumeSnapshotContentRestoreItemAction.RestorePVs := restorePVs |}.

(** A replication destination that has not synced yet, and the cluster in
    which the destination the claim rewrite reads is such a one. *)
Definition freshDestination (rd : string) : ReplicationDestination.t :=
  {| ReplicationDestination.ObjectMeta := ObjectMeta.named "openshift-adp" rd;
     ReplicationDestination.Spec_Trigger := Some {| ReplicationDestination.Manual := "sync-1" |};
     ReplicationDestination.Status := None |}.

Definition clusterRestoring (name : string) : Cluster :=
  setReplicationDestinations
    (setMoverRestores emptyCluster {[ ("app", "dmr-" ++ name) := restoreRequest name ]})
    {[ ("openshift-adp", "dmr-" ++ name ++ "-rep-dest")
       := freshDestination ("dmr-" ++ name ++ "-rep-dest") ]}.

(** The restore request of the later mover for the claim [name], with the
    handle of the snapshot the mover has restored; a cluster that holds it;
    and a cluster that also holds the snapshot of the claim already. *)
Definition snapshotRestoreRequest (name : string) : VolumeSnapshotRestore.t :=
  {| VolumeSnapshotRestore.ObjectMeta := ObjectMeta.named "app" ("vsr-" ++ name);
     VolumeSnapshotRestore.Spec :=
       {| VolumeSnapshotRestore.ResticSecretRef :=
            {| LocalObjectReference.Name := "restic-secret" |};
          VolumeSnapshotRestore.VolumeSnapshotMoverBackupref :=
            {| DMBRef.BackedUpPVCData := {| PVCData.Name := name; PVCData.Size := "8Gi" |};
               DMBRef.ResticRepository := "s3:bucket/repo" |};
          VolumeSnapshotRestore.ProtectedNamespace := "openshift-adp" |};
     VolumeSnapshotRestore.Status :=
       {| VolumeSnapshotRestore.SnapshotHandle := "snap-0f3c" |} |}.

Definition clusterSnapshotMoved (name : string) : Cluster :=
  {| contents := ∅; snapshots := ∅; moverBackups := ∅; moverRestores := ∅;
     snapshotRestores := {[ ("app", "vsr-" ++ name) := snapshotRestoreRequest name ]};
     replicationDestinations := ∅ |}.

Definition clusterSnapshotThere (name : string) : Cluster :=
  {| contents := ∅;
     snapshots := {[ ("app", "velero-" ++ name) := snapshotOf name "Retain" ]};
     moverBackups := ∅; moverRestores := ∅;
     snapshotRestores := {[ ("app", "vsr-" ++ name) := snapshotRestoreRequest name ]};
     replicationDestinations := ∅ |}.

Definition restoreSnapshotLater (vs : VolumeSnapshot.t)
  : Prog (velero.RestoreItemActionExecuteOutput VolumeSnapshot.t) :=
  @restore.VolumeSnapshotRestoreItemAction_vsr.Execute exampleExternals
    {| velero.Item := inr vs; velero.Restore_ := restore1 |}.

(** The content that the later snapshot rewrite creates for [mssql-pvc]. *)
Definition contentRestored : VolumeSnapshotContent.t :=
  {| VolumeSnapshotContent.ObjectMeta :=
       {| ObjectMeta.Name := "vsr-vsc-mssql-pvc";
          ObjectMeta.Namespace := "";
          ObjectMeta.Labels := Some {[ RestoreNameLabel := "restore-1" ]};
          ObjectMeta.Annotations := None |};
     VolumeSnapshotContent.Spec :=
       {| VolumeSnapshotContent.DeletionPolicy := VolumeSnapshotContentRetain;
          VolumeSnapshotContent.Driver := "hostpath.csi.k8s.io";
          VolumeSnapshotContent.VolumeSnapshotRef :=
            {| ObjectReference.Kind := "VolumeSnapshot";
               ObjectReference.Namespace := "app";
               ObjectReference.Name := "velero-mssql-pvc" |};
          VolumeSnapshotContent.Source_ :=
            {| VolumeSnapshotContent.VolumeHandle := None;
               VolumeSnapshotContent.SnapshotHandle := Some "snap-0f3c" |} |};
     VolumeSnapshotContent.Status := None |}.

(** The content that the snapshot rewrite of
    src/internal/restore/volumesnapshot_action.go creates on [clusterMoved]
    for a snapshot with the policy [Retain]. *)
Definition contentMoved : VolumeSnapshotContent.t :=
  {| VolumeSnapshotContent.ObjectMeta :=
       {| ObjectMeta.Name := "VSC-DM-test";
          ObjectMeta.Namespace := "";
          ObjectMeta.Labels := Some {[ RestoreNameLabel := "restore-1" ]};
          ObjectMeta.Annotations := None |};
     VolumeSnapshotContent.Spec :=
       {| VolumeSnapshotContent.DeletionPolicy := VolumeSnapshotContentRetain;
          VolumeSnapshotContent.Driver := "hostpath.csi.k8s.io";
          VolumeSnapshotContent.VolumeSnapshotRef :=
            {| ObjectReference.Kind := "VolumeSnapshot";
               ObjectReference.Namespace := "openshift-adp";
               ObjectReference.Name := "volsync-snap" |};
          VolumeSnapshotContent.Source_ :=
            {| VolumeSnapshotContent.VolumeHandle := None;
               VolumeSnapshotContent.SnapshotHandle := Some "snap-0f3c" |} |};
     VolumeSnapshotContent.Status := None |}.

(** A restore that maps the namespace [legacy] to [app], and the claim
    [mssql-pvc] as backed up in [legacy]. *)
Definition restoreMapped : velero.Restore :=
  {| velero.Restore_ObjectMeta := ObjectMeta.named "velero" "restore-2";
     velero.NamespaceMapping := Some {[ "legacy" := "app" ]} |}.

Definition legacyClaim : PersistentVolumeClaim.t :=
  restore.PVCRestoreItemAction.SetNamespace (claim "mssql-pvc" (Gi 5)) "legacy".

(** The claim [data] next to the claim [mssql-pvc]: each has its restore
    request and its replication destination, synced, and the destination of
    [data] shows the snapshot [volsync-snap-data] as its latest image. *)
Definition imageOfData : TypedLocalObjectReference.t :=
  {| TypedLocalObjectReference.APIGroup := Some "snapshot.storage.k8s.io";
     TypedLocalObjectReference.Kind := "VolumeSnapshot";
     TypedLocalObjectReference.Name := "volsync-snap-data" |}.

Definition destinationOfData : ReplicationDestination.t :=
  {| ReplicationDestination.ObjectMeta := ObjectMeta.named "openshift-adp" "dmr-data-rep-dest";
     ReplicationDestination.Spec_Trigger := Some {| ReplicationDestination.Manual := "sync-1" |};
     ReplicationDestination.Status :=
       Some {| ReplicationDestination.LastSyncTime := Some 1652365000;
               ReplicationDestination.LastManualSync := "sync-1";
               ReplicationDestination.LatestImage := Some imageOfData |} |}.

Definition clusterDataRestored : Cluster :=
  setReplicationDestinations
    (setMoverRestores emptyCluster {[ ("app", "dmr-data") := restoreRequest "data" ]})
    {[ ("openshift-adp", "dmr-data-rep-dest") := destinationOfData ]}.

Definition clusterTwoChains : Cluster :=
  setReplicationDestinations
    (setMoverRestores emptyCluster
       {[ ("app", "dmr-data") := restoreRequest "data";
          ("app", "dmr-mssql-pvc") := restoreRequest "mssql-pvc" ]})
    {[ ("openshift-adp", "dmr-data-rep-dest") := destinationOfData;
       ("openshift-adp", "dmr-mssql-pvc-rep-dest")
       := syncedDestination "dmr-mssql-pvc-rep-dest" ]}.

(** The request that the backup action makes for [sc-a] in the backup
    [backup-1]. *)
Definition requestOfA : DataMoverBackup.t :=
  {| DataMoverBackup.ObjectMeta := ObjectMeta.named "app" "vsb-snap-a";
     DataMoverBackup.Spec :=
       {| DataMoverBackup.VolumeSnapshotContent :=
            {| ObjectReference.Kind := ""; ObjectReference.Namespace := "";
               ObjectReference.Name := "sc-a" |};
          DataMoverBackup.ProtectedNamespace := "velero" |};
     DataMoverBackup.Status :=
       {| DataMoverBackup.Phase := "";
          DataMoverBackup.SourcePVCData := {| PVCData.Name := ""; PVCData.Size := "" |};
          DataMoverBackup.ResticRepository := "" |} |}.

(** ** Vocabulary of the properties *)

(** A run followed by another. *)
Definition prepend {W A} (t : list Event) (r : Run W A) : Run W A :=
  {| trace := (t ++ trace r)%list; outcome := outcome r; final := final r |}.

(** The larger of two quantities, the first one when they are equal. *)
Definition Qmax (x y : Quantity) : Quantity := if Cmp x y <? 0 then y else x.

(** [pvc.Spec.Resources.Requests[corev1.ResourceStorage]]. *)
Definition storageRequest (pvc : PersistentVolumeClaim.t) : option Quantity :=
  index (PersistentVolumeClaim.Resources_Requests (PersistentVolumeClaim.Spec pvc))
        ResourceStorage.

(** The four annotations a provisioner leaves on a bound claim. *)
Definition provisionerAnnotations : list string :=
  [ "pv.kubernetes.io/bind-completed"; "pv.kubernetes.io/bound-by-controller";
    "volume.beta.kubernetes.io/storage-provisioner"; "volume.kubernetes.io/selected-node" ].

(** The chain of a claim is completed in a run when the restore request and
    the replication destination that [Execute] reads are both answered, the
    destination shows a latest image, and the size recorded in the request
    is a quantity. *)
Definition chainCompleted `{Externals} (t : list Event) (dmr : DataMoverRestore.t)
    (repDestination : ReplicationDestination.t) (latestImage : TypedLocalObjectReference.t)
    (restoreSize : Quantity) : Prop :=
  (exists ns name, In (EvGetDataMoverRestore ns name (inr dmr)) t)
  /\ (exists ns name, In (EvGetReplicationDestination ns name (inr repDestination)) t)
  /\ (exists status, ReplicationDestination.Status repDestination = Some status
                     /\ ReplicationDestination.LatestImage status = Some latestImage)
  /\ MustParse (PVCData.Size (DMBRef.BackedUpPVCData
                                (DataMoverRestore.DataMoverBackupref (DataMoverRestore.Spec dmr))))
     = Some restoreSize.

(** The claim as [Execute] has it before the size and the data source are
    set: provisioner annotations removed, namespace mapped. *)
Definition preparedClaim (pvc : PersistentVolumeClaim.t) (restore_ : velero.Restore)
  : PersistentVolumeClaim.t :=
  let pvc := restore.PVCRestoreItemAction.removePVCAnnotations pvc
               [restore.PVCRestoreItemAction.AnnBindCompleted;
                restore.PVCRestoreItemAction.AnnBoundByController;
                restore.PVCRestoreItemAction.AnnStorageProvisioner;
                restore.PVCRestoreItemAction.AnnSelectedNode] in
  match index (velero.NamespaceMapping restore_) (PersistentVolumeClaim.Namespace pvc) with
  | Some val => restore.PVCRestoreItemAction.SetNamespace pvc val
  | None => pvc
  end.

(** The number of tries of the polled condition in a trace: each try starts
    by reading the restore request. *)
Fixpoint rounds (t : list Event) : nat :=
  match t with
  | [] => 0
  | EvGetDataMoverRestore _ _ _ :: t' => S (rounds t')
  | _ :: t' => rounds t'
  end.

(** The state the wait is for: the destination has a status with a last
    sync time, and the manual trigger it was given is the one it last
    synced on. *)
Definition synced (rd : ReplicationDestination.t) : Prop :=
  exists status trigger,
    ReplicationDestination.Status rd = Some status
    /\ is_Some (ReplicationDestination.LastSyncTime status)
    /\ ReplicationDestination.Spec_Trigger rd = Some trigger
    /\ ReplicationDestination.Manual trigger = ReplicationDestination.LastManualSync status.

(** A try that finds the restore complete: the request is there, and so is
    the destination named after it in the protected namespace, synced. *)
Definition completingRound (ns name protectedNS : string) (round : list Event) : Prop :=
  exists dmr rd,
    round = [ EvGetDataMoverRestore ns name (inr dmr);
              EvGetReplicationDestination protectedNS
                (DataMoverRestore.Name dmr ++ "-rep-dest") (inr rd) ]
    /\ synced rd.

(** The content that a mover-backup request is recorded for. *)
Definition recordedContent (vsb : DataMoverBackup.t) : string :=
  ObjectReference.Name (DataMoverBackup.VolumeSnapshotContent (DataMoverBackup.Spec vsb)).

(** Whether restic has the volume through which the pod mounts the claim. *)
Definition resticHasClaim `{Platform} (pvcName : string) (defaultVolumesToRestic : bool)
    (p : Pod.t) : bool :=
  match util.GetPodVolumeNameForPVC p pvcName with
  | inr volName => util.Contains (GetPodVolumesUsingRestic p defaultVolumesToRestic) volName
  | inl _ => false
  end.


(** The mover reports the backup request as completed. *)
Definition backupCompleted `{Constants} (dmb : DataMoverBackup.t) : Prop :=
  DataMoverBackup.Phase (DataMoverBackup.Status dmb) <> ""
  /\ DataMoverBackup.Phase (DataMoverBackup.Status dmb) = DatamoverBackupPhaseCompleted.

(** A read of the backup request that found it, not completed yet. *)
Definition pendingRead `{Constants} (ns name : string) (ev : Event) : Prop :=
  exists live, ev = EvGetDataMoverBackup ns name (inr live) /\ ~ backupCompleted live.

(** The snapshot is bound to the content of this name. *)
Definition boundTo (vs : VolumeSnapshot.t) (contentName : string) : Prop :=
  exists status,
    VolumeSnapshot.Status vs = Some status
    /\ VolumeSnapshot.BoundVolumeSnapshotContentName status = Some contentName.

(** The content has a status with a snapshot handle. *)
Definition hasSnapshotHandle (content : VolumeSnapshotContent.t) : Prop :=
  exists status handle,
    VolumeSnapshotContent.Status content = Some status
    /\ VolumeSnapshotContent.StatusSnapshotHandle status = Some handle.

(** A read of the snapshot of this namespace and name, or of a content. *)
Definition snapshotRead (ns name : string) (ev : Event) : Prop :=
  (exists a, ev = EvGetVolumeSnapshot ns name a)
  \/ exists contentName a, ev = EvGetVolumeSnapshotContent contentName a.

(** * Properties *)

(** ** Library facts *)

Lemma TrimSpace_empty : TrimSpace "" = "".
Proof. reflexivity. Qed.

Lemma not_blank_not_empty (s : string) :
  (String.length (TrimSpace s) =? 0)%nat = false -> s <> "".
Proof. intros Hlen ->. rewrite TrimSpace_empty in Hlen. discriminate. Qed.

Lemma GetValidName_not_empty `{Externals} (label : string) :
  label <> "" -> GetValidName label <> "".
Proof.
  intros Hne. unfold GetValidName.
  destruct (String.length label <=? DNS1035LabelMaxLength)%nat; [exact Hne|].
  destruct label as [|c rest]; [contradiction|].
  cbn. discriminate.
Qed.

Example TrimSpace_blanks :
  TrimSpace (String (ascii_of_nat 9) (" " ++ String (ascii_of_nat 194) (String (ascii_of_nat 160) " "))) = ""
  /\ TrimSpace "  backup-1 " = "backup-1"
  /\ TrimSpace (String (ascii_of_nat 226) (String (ascii_of_nat 128) "x ")) =
       String (ascii_of_nat 226) (String (ascii_of_nat 128) "x").
Proof. repeat split; reflexivity. Qed.

(** ** Tactics for runs *)

(** Case analysis on the answer of the environment to the next call. *)
Ltac answer :=
  match goal with
  | |- context [handle ?e ?c ?s] =>
      let r := fresh "r" in
      let s' := fresh "w" in
      let Hr := fresh "Hr" in
      destruct (handle e c s) as [r s'] eqn:Hr; cbn
  end.

(** Events of different calls, or with different answers, are told apart. *)
Ltac absent :=
  repeat match goal with
         | H : False |- _ => destruct H
         | H : In _ [] |- _ => destruct H
         | H : In _ (_ :: _) |- _ => destruct H as [H | H]
         | H : _ \/ _ |- _ => destruct H as [H | H]
         | H : @eq Event _ _ |- _ => discriminate H
         end.

(** ** The deletion guard *)

Section DeletionGuard.

Context `{Externals}.
Context {W : Type} (env : Environment W) (w : W).
Variable snapCont : VolumeSnapshotContent.t.
Variable backup : velero.Backup.

Let backupName := ObjectMeta.Name (velero.Backup_ObjectMeta backup).
Let labels := ObjectMeta.Labels (VolumeSnapshotContent.ObjectMeta snapCont).
Let run :=
  exec env
    (delete.VolumeSnapshotContentDeleteItemAction.Execute
       {| velero.Delete_Item := inr snapCont; velero.Delete_Backup := backup |}) w.

(** What the label test says when it passes. *)
Lemma HasBackupLabel_true :
  util.HasBackupLabel (VolumeSnapshotContent.ObjectMeta snapCont) backupName = true ->
  exists m, labels = Some m
            /\ m !! BackupNameLabel = Some (GetValidName backupName)
            /\ TrimSpace backupName <> "".
Proof.
  unfold util.HasBackupLabel, index_string, index. fold labels.
  destruct labels as [m|]; [|discriminate].
  destruct (String.length (TrimSpace backupName) =? 0)%nat eqn:Hblank; [discriminate|].
  intros Heq%String.eqb_eq. exists m. split; [reflexivity|]. split.
  - destruct (m !! BackupNameLabel) as [v|]; cbn in Heq; [congruence|].
    exfalso. eapply GetValidName_not_empty; [|symmetry; exact Heq].
    now apply not_blank_not_empty.
  - intros Hempty. rewrite Hempty in Hblank. discriminate.
Qed.

Lemma HasBackupLabel_false :
  util.HasBackupLabel (VolumeSnapshotContent.ObjectMeta snapCont) backupName = false ->
  outcome run = Done tt /\ trace run = [].
Proof.
  intros Hlabel. unfold run, delete.VolumeSnapshotContentDeleteItemAction.Execute.
  cbn. fold backupName. rewrite Hlabel. cbn. split; reflexivity.
Qed.

(** C1.  Ownership: a run of [Execute] holds a delete call only if the
    labels of the content map the backup-name key to the validated name of
    the backup (a name that is not blank); and when the content has no
    labels, lacks the key, or the backup name is empty or white space only,
    [Execute] returns the nil error and the run holds no call at all, so
    neither a patch nor a delete. *)
Theorem deletion_guard_ownership :
  ((exists name r, In (EvDeleteVolumeSnapshotContent name r) (trace run)) ->
   exists m, labels = Some m
             /\ m !! BackupNameLabel = Some (GetValidName backupName)
             /\ TrimSpace backupName <> "")
  /\ (labels = None \/ index labels BackupNameLabel = None
      \/ String.length (TrimSpace backupName) = 0%nat ->
      outcome run = Done tt /\ trace run = []).
Proof.
  destruct (util.HasBackupLabel (VolumeSnapshotContent.ObjectMeta snapCont) backupName)
    eqn:Hlabel.
  - destruct (HasBackupLabel_true Hlabel) as (m & Hm & Hkey & Hname). split.
    + intros _. eauto.
    + intros [Hnil | [Hlack | Hblank]]; exfalso.
      * congruence.
      * rewrite Hm in Hlack. cbn in Hlack. congruence.
      * apply Hname. destruct (TrimSpace backupName); [reflexivity|discriminate].
  - destruct (HasBackupLabel_false Hlabel) as [Hout Htrace]. split.
    + rewrite Htrace. intros (name & r & []).
    + intros _. split; assumption.
Qed.

(** The order of the two calls: a delete call in the run comes after a patch
    call on the same content that set the policy to [Delete] and returned
    the nil error, with only the making of the clients before. *)
Lemma delete_follows_patch name r :
  In (EvDeleteVolumeSnapshotContent name r) (trace run) ->
  trace run =
    [ EvGetClients None;
      EvPatchVolumeSnapshotContent name util.deletionPolicyPatch None;
      EvDeleteVolumeSnapshotContent name r ]
  /\ name = VolumeSnapshotContent.Name snapCont.
Proof.
  unfold run, delete.VolumeSnapshotContentDeleteItemAction.Execute. cbn.
  fold backupName.
  destruct (util.HasBackupLabel _ backupName); cbn; [|intros []].
  answer. destruct r0 as [e|]; cbn; [intros Hin; absent|].
  answer. destruct r0 as [e|]; cbn.
  { destruct (IsNotFound e); cbn.
    - destruct (VolumeSnapshotContent.Status snapCont) as [st|]; cbn;
        [destruct (VolumeSnapshotContent.StatusSnapshotHandle st); cbn|];
        intros Hin; absent.
    - intros Hin; absent. }
  answer. intros Hin.
  assert (Hev : EvDeleteVolumeSnapshotContent (VolumeSnapshotContent.Name snapCont) r0
                = EvDeleteVolumeSnapshotContent name r).
  { destruct r0 as [e|]; [destruct (IsNotFound e)|]; cbn in Hin; absent; assumption. }
  injection Hev as <- <-.
  destruct r0 as [e|]; [destruct (IsNotFound e)|]; cbn; split; reflexivity.
Qed.

(** A patch that fails is never followed by a delete call. *)
Lemma failed_patch_no_delete name patch e name' r :
  In (EvPatchVolumeSnapshotContent name patch (Some e)) (trace run) ->
  ~ In (EvDeleteVolumeSnapshotContent name' r) (trace run).
Proof.
  intros Hpatch Hdelete. apply delete_follows_patch in Hdelete as [Htrace _].
  rewrite Htrace in Hpatch. absent.
Qed.

(** C3.  When the delete call answers with an error, [Execute] returns the
    nil error if the error is a not-found error, and returns that very error
    otherwise. *)
Theorem delete_not_found_tolerated name e :
  In (EvDeleteVolumeSnapshotContent name (Some e)) (trace run) ->
  outcome run = if IsNotFound e then Done tt else Failed e.
Proof.
  unfold run, delete.VolumeSnapshotContentDeleteItemAction.Execute. cbn.
  fold backupName.
  destruct (util.HasBackupLabel _ backupName); cbn; [|intros []].
  answer. destruct r as [e0|]; cbn; [intros Hin; absent|].
  answer. destruct r as [e0|]; cbn.
  { destruct (IsNotFound e0); cbn.
    - destruct (VolumeSnapshotContent.Status snapCont) as [st|]; cbn;
        [destruct (VolumeSnapshotContent.StatusSnapshotHandle st); cbn|];
        intros Hin; absent.
    - intros Hin; absent. }
  answer. destruct r as [e0|]; cbn.
  - destruct (IsNotFound e0) eqn:Hnf; cbn; intros Hin; absent;
      injection Hin as _ <-; rewrite Hnf; reflexivity.
  - intros Hin; absent.
Qed.

(** C10.  When the patch of the deletion policy answers with a not-found
    error and the content has a nil status, or a status with a nil snapshot
    handle, [Execute] panics on the nil pointer it hands to the warning; it
    does not return. *)
Theorem patch_not_found_nil_handle_panics name patch e :
  In (EvPatchVolumeSnapshotContent name patch (Some e)) (trace run) ->
  IsNotFound e = true ->
  (VolumeSnapshotContent.Status snapCont = None
   \/ exists status, VolumeSnapshotContent.Status snapCont = Some status
                     /\ VolumeSnapshotContent.StatusSnapshotHandle status = None) ->
  outcome run = Panicked nil_pointer_dereference.
Proof.
  unfold run, delete.VolumeSnapshotContentDeleteItemAction.Execute. cbn.
  fold backupName.
  destruct (util.HasBackupLabel _ backupName); cbn; [|intros []].
  answer. destruct r as [e0|]; cbn; [intros Hin; absent|].
  answer. destruct r as [e0|]; cbn.
  - intros Hin Hnf Hnil.
    assert (e0 = e) as ->.
    { destruct (IsNotFound e0); cbn in Hin;
        [destruct (VolumeSnapshotContent.Status snapCont) as [st|]; cbn in Hin;
         [destruct (VolumeSnapshotContent.StatusSnapshotHandle st); cbn in Hin|]|];
        absent; congruence. }
    rewrite Hnf. cbn.
    destruct Hnil as [-> | (status & -> & Hhandle)]; cbn; [reflexivity|].
    rewrite Hhandle. reflexivity.
  - answer. intros Hin. destruct r as [e0|]; [destruct (IsNotFound e0)|]; cbn in Hin; absent.
Qed.

(** The same path when the handle is there: the warning is written and
    [Execute] returns the nil error without a delete call. *)
Lemma patch_not_found_with_handle name patch e status handle_ :
  In (EvPatchVolumeSnapshotContent name patch (Some e)) (trace run) ->
  IsNotFound e = true ->
  VolumeSnapshotContent.Status snapCont = Some status ->
  VolumeSnapshotContent.StatusSnapshotHandle status = Some handle_ ->
  outcome run = Done tt.
Proof.
  unfold run, delete.VolumeSnapshotContentDeleteItemAction.Execute. cbn.
  fold backupName.
  destruct (util.HasBackupLabel _ backupName); cbn; [|intros []].
  answer. destruct r as [e0|]; cbn; [intros Hin; absent|].
  answer. destruct r as [e0|]; cbn.
  - intros Hin Hnf Hst Hh. rewrite Hst in *. cbn in *. rewrite Hh in *. cbn in *.
    assert (e0 = e) as ->.
    { destruct (IsNotFound e0); cbn in Hin; absent; congruence. }
    rewrite Hnf. reflexivity.
  - answer. intros Hin. destruct r as [e0|]; [destruct (IsNotFound e0)|]; cbn in Hin; absent.
Qed.

End DeletionGuard.

(** *** The deletion guard on examples *)

(** A backup whose name is white space only: nothing is called, whatever
    the labels of the content. *)
Lemma deletion_guard_ownership_witness :
  let blank := {| velero.Backup_ObjectMeta := ObjectMeta.named "velero" "  " |} in
  let run := exec apiServer
               (@delete.VolumeSnapshotContentDeleteItemAction.Execute exampleExternals
                  {| velero.Delete_Item := inr content1; velero.Delete_Backup := blank |})
               clusterWithContent1 in
  outcome run = Done tt /\ trace run = [].
Proof.
  cbn zeta.
  apply (proj2 (@deletion_guard_ownership exampleExternals Cluster apiServer
                  clusterWithContent1 content1
                  {| velero.Backup_ObjectMeta := ObjectMeta.named "velero" "  " |})).
  right. right. reflexivity.
Defined.

Lemma delete_not_found_tolerated_witness :
  outcome (exec (reconciledBy removesContents) deleteContent1 clusterWithContent1) = Done tt.
Proof.
  apply (@delete_not_found_tolerated exampleExternals Cluster
           (reconciledBy removesContents) clusterWithContent1 content1 backup1
           "snapcontent-1" (notFound "snapcontent-1")).
  vm_compute. right. right. left. reflexivity.
Defined.

Lemma patch_not_found_nil_handle_panics_witness :
  outcome (exec apiServer deleteContent1 emptyCluster) = Panicked nil_pointer_dereference.
Proof.
  apply (@patch_not_found_nil_handle_panics exampleExternals Cluster apiServer emptyCluster
           content1 backup1 "snapcontent-1" util.deletionPolicyPatch
           (notFound "snapcontent-1")).
  - vm_compute. right. left. reflexivity.
  - reflexivity.
  - left. reflexivity.
Defined.

(** C2, where the code departs from it.  The content is labelled for the
    backup and has no status; the cluster no longer holds it, so the patch
    answers not-found.  No delete call follows, as the claim says, but
    [Execute] panics where the claim has it return the nil error. *)
Theorem patch_not_found_without_status_does_not_return :
  let run := exec apiServer deleteContent1 emptyCluster in
  trace run =
    [ EvGetClients None;
      EvPatchVolumeSnapshotContent "snapcontent-1" util.deletionPolicyPatch
        (Some (notFound "snapcontent-1")) ]
  /\ IsNotFound (notFound "snapcontent-1") = true
  /\ outcome run = Panicked nil_pointer_dereference
  /\ outcome run <> Done tt.
Proof. vm_compute. repeat split; discriminate. Qed.

(** ** The claim rewrite *)

Lemma Cmp_refl (q : Quantity) : Cmp q q = 0.
Proof. unfold Cmp. now rewrite Z.compare_refl. Qed.

Lemma Cmp_antisym (q y : Quantity) : Cmp y q = - Cmp q y.
Proof.
  unfold Cmp. rewrite (Z.min_comm (scale y) (scale q)).
  rewrite (Z.compare_antisym (unscaled q * _) (unscaled y * _)).
  destruct (_ ?= _); reflexivity.
Qed.

Lemma Qmax_upper_bound (x y : Quantity) :
  0 <= Cmp (Qmax x y) x /\ 0 <= Cmp (Qmax x y) y.
Proof.
  unfold Qmax. destruct (Cmp x y <? 0) eqn:Hlt.
  - apply Z.ltb_lt in Hlt. rewrite (Cmp_antisym x y), Cmp_refl. lia.
  - apply Z.ltb_ge in Hlt. rewrite Cmp_refl. lia.
Qed.

Lemma setPVCStorageResourceRequest_request (pvc : PersistentVolumeClaim.t) (Y : Quantity) :
  storageRequest (restore.PVCRestoreItemAction.setPVCStorageResourceRequest pvc Y) =
  Some match storageRequest pvc with
       | None => Y
       | Some X => Qmax X Y
       end.
Proof.
  unfold storageRequest, restore.PVCRestoreItemAction.setPVCStorageResourceRequest, Qmax, index.
  destruct (PersistentVolumeClaim.Resources_Requests (PersistentVolumeClaim.Spec pvc))
    as [requests|]; cbn.
  - destruct (requests !! ResourceStorage) as [X|] eqn:HX; cbn.
    + destruct (Cmp X Y <? 0); cbn; [apply lookup_insert_eq | exact HX].
    + apply lookup_insert_eq.
  - rewrite lookup_empty. cbn. apply lookup_insert_eq.
Qed.

Lemma setPVCStorageResourceRequest_rest (pvc : PersistentVolumeClaim.t) (Y : Quantity) :
  let pvc' := restore.PVCRestoreItemAction.setPVCStorageResourceRequest pvc Y in
  PersistentVolumeClaim.ObjectMeta pvc' = PersistentVolumeClaim.ObjectMeta pvc
  /\ PersistentVolumeClaim.VolumeName (PersistentVolumeClaim.Spec pvc')
     = PersistentVolumeClaim.VolumeName (PersistentVolumeClaim.Spec pvc)
  /\ PersistentVolumeClaim.DataSource (PersistentVolumeClaim.Spec pvc')
     = PersistentVolumeClaim.DataSource (PersistentVolumeClaim.Spec pvc).
Proof.
  unfold restore.PVCRestoreItemAction.setPVCStorageResourceRequest.
  destruct (_ !! ResourceStorage) as [X|]; [destruct (Cmp X Y <? 0)|]; cbn; auto.
Qed.

(** The annotations after the loop of [removePVCAnnotations]: the keys in
    [remove] are gone and every other key reads as before. *)
Lemma removePVCAnnotations_index (pvc : PersistentVolumeClaim.t) (remove : list string)
    (k : string) :
  index (PersistentVolumeClaim.Annotations
           (restore.PVCRestoreItemAction.removePVCAnnotations pvc remove)) k =
  if util.Contains remove k then None else index (PersistentVolumeClaim.Annotations pvc) k.
Proof.
  unfold restore.PVCRestoreItemAction.removePVCAnnotations.
  destruct (PersistentVolumeClaim.Annotations pvc) as [annotations|] eqn:Hann; cbn.
  - set (f := fun (k : string) (_ : string) (acc : gmap string string) =>
                if util.Contains remove k then delete k acc else acc).
    assert (Hfold : forall m j,
               map_fold f annotations m !! j =
               if util.Contains remove j
               then match m !! j with Some _ => None | None => annotations !! j end
               else annotations !! j).
    { apply (map_fold_weak_ind
               (fun (acc m : gmap string string) =>
                  forall j, acc !! j =
                            if util.Contains remove j
                            then match m !! j with Some _ => None | None => annotations !! j end
                            else annotations !! j)).
      - intros j. rewrite lookup_empty. now destruct (util.Contains remove j).
      - intros i x m acc Hfresh IH j. unfold f. destruct (decide (i = j)) as [->|Hne].
        + rewrite lookup_insert_eq. specialize (IH j). rewrite Hfresh in IH.
          destruct (util.Contains remove j); [apply lookup_delete_eq | exact IH].
        + rewrite (lookup_insert_ne m i j x Hne). rewrite <- (IH j).
          destruct (util.Contains remove i); [now apply lookup_delete_ne | reflexivity]. }
    rewrite Hfold. destruct (util.Contains remove k); [|reflexivity].
    now destruct (annotations !! k).
  - rewrite lookup_empty. now destruct (util.Contains remove k).
Qed.

Lemma Contains_In (slice : list string) (key : string) :
  In key slice <-> util.Contains slice key = true.
Proof.
  induction slice as [|i rest IH]; cbn; [intuition discriminate|].
  destruct (String.eqb i key) eqn:Heq.
  - apply String.eqb_eq in Heq. intuition.
  - apply String.eqb_neq in Heq. rewrite <- IH. intuition.
Qed.

Section ClaimRewrite.

Context `{Externals}.
Context {W : Type} (env : Environment W) (w : W).
Variable pvc : PersistentVolumeClaim.t.
Variable restore_ : velero.Restore.

Let run :=
  exec env
    (restore.PVCRestoreItemAction.Execute
       {| velero.Item := inr pvc; velero.Restore_ := restore_ |}) w.

Let prepared := preparedClaim pvc restore_.

Lemma Execute_completed dmr repDestination latestImage restoreSize :
  chainCompleted (trace run) dmr repDestination latestImage restoreSize ->
  outcome run =
    Done {| velero.UpdatedItem :=
              Some (restore.PVCRestoreItemAction.resetPVCSpec
                      (restore.PVCRestoreItemAction.setPVCStorageResourceRequest
                         prepared restoreSize)
                      (TypedLocalObjectReference.Name latestImage));
            velero.AdditionalItems := [];
            velero.SkipRestore := false |}.
Proof.
  unfold chainCompleted, run, restore.PVCRestoreItemAction.Execute. cbn.
  fold prepared.
  intros ((ns1 & n1 & Hdmr) & (ns2 & n2 & Hrd) & (status & Hstatus & Himage) & Hsize).
  revert Hdmr Hrd.
  answer. destruct r as [e|]; cbn; [intros; absent|].
  answer. destruct r as [e|dmr']; cbn; [intros; absent|].
  answer. destruct r as [e|]; cbn; [intros; absent|].
  answer. destruct r as [e|rd']; cbn; [intros; absent|].
  intros Hdmr Hrd.
  destruct (ReplicationDestination.Status rd') as [status'|] eqn:Hstatus'; cbn in *;
    [destruct (ReplicationDestination.LatestImage status') as [image'|] eqn:Himage'; cbn in *;
     [destruct (MustParse (PVCData.Size (DMBRef.BackedUpPVCData
                             (DataMoverRestore.DataMoverBackupref (DataMoverRestore.Spec dmr')))))
        as [size'|] eqn:Hsize'; cbn in *|]|];
    destruct Hdmr as [Hd | [Hd | [Hd | [Hd | Hd]]]];
      try discriminate Hd; try contradiction;
    destruct Hrd as [Hev | [Hev | [Hev | [Hev | Hev]]]];
      try discriminate Hev; try contradiction;
    injection Hd as _ _ ->; injection Hev as _ _ ->;
    try congruence.
  assert (image' = latestImage) as -> by congruence.
  assert (size' = restoreSize) as -> by congruence.
  reflexivity.
Qed.

Lemma prepared_storageRequest : storageRequest prepared = storageRequest pvc.
Proof.
  unfold prepared, preparedClaim.
  destruct (index (velero.NamespaceMapping restore_) _);
    unfold storageRequest, restore.PVCRestoreItemAction.removePVCAnnotations;
    destruct (PersistentVolumeClaim.Annotations pvc); reflexivity.
Qed.

Lemma prepared_annotations (k : string) :
  index (PersistentVolumeClaim.Annotations prepared) k =
  if util.Contains provisionerAnnotations k then None
  else index (PersistentVolumeClaim.Annotations pvc) k.
Proof.
  unfold prepared, preparedClaim. rewrite <- removePVCAnnotations_index.
  destruct (index (velero.NamespaceMapping restore_) _); reflexivity.
Qed.

(** C4.  Size reconciliation: when the chain of the claim is completed with
    the recorded size [Y], [Execute] returns the claim with a storage
    request that is [Y] when the claim requested nothing or requested less
    than [Y], and the request [X] of the claim, unchanged, when [X] is not
    less than [Y]; that is the larger of the two, at least [X] and at least
    [Y]. *)
Theorem size_reconciliation dmr repDestination latestImage (Y : Quantity) :
  chainCompleted (trace run) dmr repDestination latestImage Y ->
  exists out pvc',
    outcome run = Done out
    /\ velero.UpdatedItem out = Some pvc'
    /\ storageRequest pvc' =
       Some match storageRequest pvc with None => Y | Some X => Qmax X Y end
    /\ (storageRequest pvc = None -> storageRequest pvc' = Some Y)
    /\ (forall X, storageRequest pvc = Some X -> Cmp X Y < 0 -> storageRequest pvc' = Some Y)
    /\ (forall X, storageRequest pvc = Some X -> 0 <= Cmp X Y -> storageRequest pvc' = Some X)
    /\ (forall Z, storageRequest pvc' = Some Z ->
                  0 <= Cmp Z Y /\ forall X, storageRequest pvc = Some X -> 0 <= Cmp Z X).
Proof.
  intros Hchain. rewrite (Execute_completed _ _ _ _ Hchain).
  eexists _, _. split; [reflexivity|]. split; [reflexivity|].
  assert (Hreq : storageRequest
                   (restore.PVCRestoreItemAction.resetPVCSpec
                      (restore.PVCRestoreItemAction.setPVCStorageResourceRequest prepared Y)
                      (TypedLocalObjectReference.Name latestImage)) =
                 Some match storageRequest pvc with None => Y | Some X => Qmax X Y end).
  { rewrite <- prepared_storageRequest, <- setPVCStorageResourceRequest_request. reflexivity. }
  rewrite Hreq. split; [reflexivity|].
  split; [|split; [|split]].
  - intros ->. reflexivity.
  - intros X -> Hlt. unfold Qmax. apply Z.ltb_lt in Hlt. now rewrite Hlt.
  - intros X -> Hge. unfold Qmax. apply Z.ltb_ge in Hge. now rewrite Hge.
  - intros Z HZ. injection HZ as <-. split.
    + destruct (storageRequest pvc) as [X|]; [apply Qmax_upper_bound|].
      rewrite Cmp_refl. lia.
    + intros X ->. apply Qmax_upper_bound.
Qed.

(** What [Execute] returns when the reads it makes are answered (the
    destination being the one it reads, under its fixed name): the claim
    with the four provisioner annotations removed and every other
    annotation as it was, whatever annotations the claim came with; the
    volume name is empty and the data source is the [VolumeSnapshot], in the
    snapshot API group, named by the latest image of the replication
    destination that was read. *)
Theorem claim_rewrite_completed dmr repDestination latestImage restoreSize :
  chainCompleted (trace run) dmr repDestination latestImage restoreSize ->
  exists out pvc',
    outcome run = Done out
    /\ velero.UpdatedItem out = Some pvc'
    /\ (forall k, In k provisionerAnnotations ->
                  index (PersistentVolumeClaim.Annotations pvc') k = None)
    /\ (forall k, ~ In k provisionerAnnotations ->
                  index (PersistentVolumeClaim.Annotations pvc') k
                  = index (PersistentVolumeClaim.Annotations pvc) k)
    /\ PersistentVolumeClaim.VolumeName (PersistentVolumeClaim.Spec pvc') = ""
    /\ PersistentVolumeClaim.DataSource (PersistentVolumeClaim.Spec pvc') =
       Some {| TypedLocalObjectReference.APIGroup := Some "snapshot.storage.k8s.io";
               TypedLocalObjectReference.Kind := "VolumeSnapshot";
               TypedLocalObjectReference.Name := TypedLocalObjectReference.Name latestImage |}.
Proof.
  intros Hchain. rewrite (Execute_completed _ _ _ _ Hchain).
  eexists _, _. split; [reflexivity|]. split; [reflexivity|].
  assert (Hann : forall k,
             index (PersistentVolumeClaim.Annotations
                      (restore.PVCRestoreItemAction.resetPVCSpec
                         (restore.PVCRestoreItemAction.setPVCStorageResourceRequest
                            prepared restoreSize)
                         (TypedLocalObjectReference.Name latestImage))) k =
             if util.Contains provisionerAnnotations k then None
             else index (PersistentVolumeClaim.Annotations pvc) k).
  { intros k. rewrite <- prepared_annotations.
    unfold PersistentVolumeClaim.Annotations. cbn.
    now destruct (setPVCStorageResourceRequest_rest prepared restoreSize) as [-> _]. }
  split; [|split; [|split; reflexivity]].
  - intros k Hin. rewrite Hann. now apply Contains_In in Hin as ->.
  - intros k Hout. rewrite Hann. destruct (util.Contains provisionerAnnotations k) eqn:Hc;
      [|reflexivity]. now apply Contains_In in Hc.
Qed.

End ClaimRewrite.

(** *** The claim rewrite on examples *)

Lemma chain_of_mssql_pvc (request : Quantity) :
  @chainCompleted exampleExternals
    (trace (exec apiServer (restoreClaim (claim "mssql-pvc" request))
              (clusterRestored "mssql-pvc")))
    (restoreRequest "mssql-pvc") (syncedDestination "dmr-mssql-pvc-rep-dest")
    volsyncImage (Gi 8).
Proof.
  repeat split.
  - exists "app", "dmr-mssql-pvc". vm_compute. right. left. reflexivity.
  - exists "openshift-adp", "dmr-mssql-pvc-rep-dest". vm_compute.
    right. right. right. left. reflexivity.
  - eexists. split; reflexivity.
Qed.

(** Request 5Gi, recorded size 8Gi: the rewritten claim asks for 8Gi. *)
Lemma size_reconciliation_witness :
  exists out pvc',
    outcome (exec apiServer (restoreClaim (claim "mssql-pvc" (Gi 5)))
               (clusterRestored "mssql-pvc")) = Done out
    /\ velero.UpdatedItem out = Some pvc'
    /\ storageRequest pvc' = Some (Gi 8).
Proof.
  destruct (@size_reconciliation exampleExternals Cluster apiServer
              (clusterRestored "mssql-pvc") (claim "mssql-pvc" (Gi 5)) restore1
              (restoreRequest "mssql-pvc") (syncedDestination "dmr-mssql-pvc-rep-dest")
              volsyncImage (Gi 8) (chain_of_mssql_pvc (Gi 5)))
    as (out & pvc' & Hout & Hitem & _ & _ & Hraise & _).
  exists out, pvc'. split; [exact Hout|]. split; [exact Hitem|].
  apply (Hraise (Gi 5)); reflexivity.
Defined.

(** Request 10Gi, recorded size 8Gi: the request stays at 10Gi. *)
Example request_10Gi_kept :
  exists out pvc',
    outcome (exec apiServer (restoreClaim (claim "mssql-pvc" (Gi 10)))
               (clusterRestored "mssql-pvc")) = Done out
    /\ velero.UpdatedItem out = Some pvc'
    /\ storageRequest pvc' = Some (Gi 10).
Proof. eexists _, _. vm_compute. repeat split. Qed.

Lemma claim_rewrite_completed_witness :
  exists out pvc',
    outcome (exec apiServer (restoreClaim (claim "mssql-pvc" (Gi 5)))
               (clusterRestored "mssql-pvc")) = Done out
    /\ velero.UpdatedItem out = Some pvc'
    /\ index (PersistentVolumeClaim.Annotations pvc') "volume.kubernetes.io/selected-node" = None
    /\ index (PersistentVolumeClaim.Annotations pvc') "example.com/owner" = Some "team-a"
    /\ PersistentVolumeClaim.VolumeName (PersistentVolumeClaim.Spec pvc') = ""
    /\ PersistentVolumeClaim.DataSource (PersistentVolumeClaim.Spec pvc') = Some volsyncImage.
Proof.
  destruct (@claim_rewrite_completed exampleExternals Cluster apiServer
              (clusterRestored "mssql-pvc") (claim "mssql-pvc" (Gi 5)) restore1
              (restoreRequest "mssql-pvc") (syncedDestination "dmr-mssql-pvc-rep-dest")
              volsyncImage (Gi 8) (chain_of_mssql_pvc (Gi 5)))
    as (out & pvc' & Hout & Hitem & Hgone & Hkept & Hvolume & Hsource).
  exists out, pvc'. split; [exact Hout|]. split; [exact Hitem|].
  split; [apply Hgone; cbn; tauto|].
  split; [|split; [exact Hvolume | exact Hsource]].
  rewrite Hkept; [reflexivity|].
  cbn. intros [Heq | [Heq | [Heq | [Heq | []]]]]; discriminate Heq.
Defined.

(** ** Runs of composed programs, and the wait for the mover *)

Lemma exec_bind {W A B} (env : Environment W) (p : Prog A) (f : A -> Prog B) (w : W) :
  exec env (bind p f) w =
  match outcome (exec env p w) with
  | Done a => prepend (trace (exec env p w)) (exec env (f a) (final (exec env p w)))
  | Failed e =>
      {| trace := trace (exec env p w); outcome := Failed e; final := final (exec env p w) |}
  | Panicked why =>
      {| trace := trace (exec env p w); outcome := Panicked why;
         final := final (exec env p w) |}
  end.
Proof.
  revert w. induction p as [a | e | why | R c k IH]; intros w; cbn.
  - now destruct (exec env (f a) w).
  - reflexivity.
  - reflexivity.
  - rewrite IH. now destruct (outcome (exec env (k _) _)).
Qed.

Section Wait.

Context {W : Type} (env : Environment W).
Variables ns name protectedNS : string.

Let condition := util.restoreCompletedCondition ns name protectedNS.

(** One try of the condition. *)
Lemma condition_round (w : W) :
  rounds (trace (exec env condition w)) = 1%nat
  /\ (forall dmr r, ~ In (EvCreateDataMoverRestore dmr r) (trace (exec env condition w)))
  /\ match outcome (exec env condition w) with
     | Done (true, None) => completingRound ns name protectedNS (trace (exec env condition w))
     | Done (true, Some _) => False
     | Done (false, _) => True
     | Failed _ => False
     | Panicked _ => True
     end.
Proof.
  unfold condition, util.restoreCompletedCondition. cbn.
  answer. destruct r as [e|dmr]; cbn.
  { repeat split; try lia. intros ? ? Hin; absent. }
  answer. destruct r as [e|rd]; cbn.
  { repeat split; try lia. intros ? ? Hin; absent. }
  destruct (ReplicationDestination.Status rd) as [status|] eqn:Hstatus; cbn;
    [|repeat split; try lia; intros ? ? Hin; absent].
  destruct (ReplicationDestination.LastSyncTime status) as [time|] eqn:Htime; cbn;
    [|repeat split; try lia; intros ? ? Hin; absent].
  destruct (ReplicationDestination.Spec_Trigger rd) as [trigger|] eqn:Htrigger; cbn;
    [|repeat split; try lia; intros ? ? Hin; absent].
  destruct (String.eqb_spec (ReplicationDestination.Manual trigger)
                            (ReplicationDestination.LastManualSync status)) as [Heq|Hne]; cbn.
  - split; [reflexivity|]. split; [intros ? ? Hin; absent|].
    exists dmr, rd. split; [reflexivity|].
    exists status, trigger. rewrite Htime. eauto.
  - repeat split; try lia. intros ? ? Hin; absent.
Qed.

Lemma rounds_app (t1 t2 : list Event) :
  rounds (t1 ++ t2)%list = (rounds t1 + rounds t2)%nat.
Proof.
  induction t1 as [|ev t1 IH]; [reflexivity|].
  destruct ev; cbn; rewrite IH; reflexivity.
Qed.

(** The wait: at most [S ticks] tries, no call but the two reads; it ends
    with the nil error only on a try that finds the restore complete, and
    that try is the last. *)
Lemma poll_completed (ticks : nat) (w : W) :
  let r := exec env (PollImmediate ticks condition) w in
  (rounds (trace r) <= S ticks)%nat
  /\ (forall dmr a, ~ In (EvCreateDataMoverRestore dmr a) (trace r))
  /\ match outcome r with
     | Done None =>
         exists earlier round,
           trace r = (earlier ++ round)%list /\ completingRound ns name protectedNS round
     | Done (Some _) => True
     | Failed _ => False
     | Panicked _ => True
     end.
Proof.
  revert w. induction ticks as [|n IH]; intros w; cbn zeta;
    cbn [PollImmediate]; rewrite exec_bind;
    pose proof (condition_round w) as (Hrounds & Hcreate & Hround);
    destruct (exec env condition w) as [t o w'] eqn:Hc; cbn [trace outcome final] in *;
    destruct o as [[done [e|]] | e | why]; try contradiction;
    try (cbn; rewrite ?app_nil_r; repeat split; [lia | exact Hcreate]);
    destruct done;
    try (cbn; rewrite ?app_nil_r; repeat split;
         [lia | exact Hcreate | exists [], t; split; [reflexivity | exact Hround]]).
  - cbn. rewrite app_nil_r. repeat split; [lia | exact Hcreate].
  - destruct (IH w') as (IHrounds & IHcreate & IHout).
    cbn [prepend trace outcome final]. rewrite rounds_app. split; [lia|]. split.
    + intros dmr a [Hin | Hin]%in_app_or; [eapply Hcreate | eapply IHcreate]; eassumption.
    + destruct (outcome (exec env (PollImmediate n condition) w')) as [[e|] | e | why];
        try exact IHout.
      destruct IHout as (earlier & round & -> & Hcompl).
      exists (t ++ earlier)%list, round.
      now rewrite app_assoc.
Qed.

End Wait.

(** ** Names and deletion policy in the restore actions *)

(** One step of a case analysis that follows a program: the answer to the
    next call, or the value the program branches on. *)
Ltac follow :=
  first
    [ answer
    | match goal with
      | |- context [exec _ (match ?x with _ => _ end) _] => destruct x eqn:?; cbn
      | |- context [exec _ (if ?x then _ else _) _] => destruct x eqn:?; cbn
      | |- context [bind (match ?x with _ => _ end) _] => destruct x eqn:?; cbn
      | |- context [bind (if ?x then _ else _) _] => destruct x eqn:?; cbn
      | |- context [deref ?x] => destruct x eqn:?; cbn
      end ].

Section SnapshotRewrite.

Context `{Externals}.
Context {W : Type} (env : Environment W) (w : W).
Variable vs : VolumeSnapshot.t.
Variable restore_ : velero.Restore.

Let input : velero.RestoreItemActionExecuteInput VolumeSnapshot.t :=
  {| velero.Item := inr vs; velero.Restore_ := restore_ |}.

(** In src/internal/restore/volumesnapshot_action.go the restore request is
    read under one fixed name, whatever the snapshot. *)
Lemma restore_request_lookup_fixed ns name r :
  In (EvGetDataMoverRestore ns name r)
     (trace (exec env (restore.VolumeSnapshotRestoreItemAction.Execute input) w)) ->
  name = "dmr-mssql-pvc".
Proof.
  unfold restore.VolumeSnapshotRestoreItemAction.Execute, util.GetVolSyncSnapContent. cbn.
  repeat follow; intros Hin; absent; now injection Hin as _ <- _.
Qed.

(** There, the content that is created has one fixed name, and its deletion
    policy is the one the snapshot carries in its annotation, [Retain] only
    when the snapshot carries none. *)
Lemma created_content_follows_annotation vsc r :
  In (EvCreateVolumeSnapshotContent vsc r)
     (trace (exec env (restore.VolumeSnapshotRestoreItemAction.Execute input) w)) ->
  VolumeSnapshotContent.Name vsc = "VSC-DM-test"
  /\ VolumeSnapshotContent.DeletionPolicy (VolumeSnapshotContent.Spec vsc) =
     match index (VolumeSnapshot.Annotations vs) CSIVSCDeletionPolicy with
     | Some policy => policy
     | None => "Retain"
     end.
Proof.
  unfold restore.VolumeSnapshotRestoreItemAction.Execute, util.GetVolSyncSnapContent. cbn.
  repeat follow; intros Hin; absent; injection Hin as <- _; split; reflexivity.
Qed.

(** In the later revision of the action every content that is created is
    named after the claim recorded in the restore request and has the policy
    [Retain], whatever the annotations of the snapshot. *)
Lemma later_revision_creates_retained vsc r :
  In (EvCreateVolumeSnapshotContent vsc r)
     (trace (exec env (restore.VolumeSnapshotRestoreItemAction_vsr.Execute input) w)) ->
  VolumeSnapshotContent.DeletionPolicy (VolumeSnapshotContent.Spec vsc) = "Retain"
  /\ exists ns name vsr,
       In (EvGetVolumeSnapshotRestore ns name (inr vsr))
          (trace (exec env (restore.VolumeSnapshotRestoreItemAction_vsr.Execute input) w))
       /\ VolumeSnapshotContent.Name vsc =
          "vsr-vsc-" ++ PVCData.Name
                          (DMBRef.BackedUpPVCData
                             (VolumeSnapshotRestore.VolumeSnapshotMoverBackupref
                                (VolumeSnapshotRestore.Spec vsr))).
Proof.
  unfold restore.VolumeSnapshotRestoreItemAction_vsr.Execute, util.IsVolumeSnapshotExists,
    restore.VolumeSnapshotRestoreItemAction_vsr.resetVolumeSnapshotAnnotation. cbn.
  repeat follow; intros Hin; absent; injection Hin as <- _;
    (split; [reflexivity|]); eexists _, _, _; (split; [right; left; reflexivity | reflexivity]).
Qed.

(** And the snapshot it returns after creating a content carries the
    deletion-policy annotation [Retain]. *)
Lemma later_revision_forces_annotation vsc vscupd out :
  In (EvCreateVolumeSnapshotContent vsc (inr vscupd))
     (trace (exec env (restore.VolumeSnapshotRestoreItemAction_vsr.Execute input) w)) ->
  outcome (exec env (restore.VolumeSnapshotRestoreItemAction_vsr.Execute input) w) = Done out ->
  exists vs', velero.UpdatedItem out = Some vs'
              /\ index (VolumeSnapshot.Annotations vs') CSIVSCDeletionPolicy = Some "Retain"
              /\ VolumeSnapshot.Spec_Source vs' =
                 {| VolumeSnapshot.PersistentVolumeClaimName := None;
                    VolumeSnapshot.VolumeSnapshotContentName :=
                      Some (VolumeSnapshotContent.Name vscupd) |}.
Proof.
  unfold restore.VolumeSnapshotRestoreItemAction_vsr.Execute, util.IsVolumeSnapshotExists,
    restore.VolumeSnapshotRestoreItemAction_vsr.resetVolumeSnapshotAnnotation. cbn.
  repeat follow; intros Hin Hout; absent; try discriminate Hout.
  injection Hin as _ <-. injection Hout as <-. cbn.
  eexists. split; [reflexivity|]. split; [|reflexivity].
  cbn. apply lookup_insert_eq.
Qed.

End SnapshotRewrite.

Lemma Sprintf_plain `{Externals} (format : string) :
  has_verb format = false -> Sprintf format = format.
Proof. unfold Sprintf. now intros ->. Qed.

Section ClaimLookups.

Context `{Externals}.
Context {W : Type} (env : Environment W) (w : W).
Variable pvc : PersistentVolumeClaim.t.
Variable restore_ : velero.Restore.

Let run :=
  exec env
    (restore.PVCRestoreItemAction.Execute
       {| velero.Item := inr pvc; velero.Restore_ := restore_ |}) w.

(** The claim rewrite reads the restore request under the name made of
    [dmr-] and the name of the claim. *)
Lemma claim_restore_request_name ns name r :
  In (EvGetDataMoverRestore ns name r) (trace run) ->
  name = Sprintf ("dmr-" ++ PersistentVolumeClaim.Name pvc).
Proof.
  unfold run, restore.PVCRestoreItemAction.Execute,
    restore.PVCRestoreItemAction.removePVCAnnotations. cbn.
  destruct (PersistentVolumeClaim.Annotations pvc); cbn;
    destruct (index (velero.NamespaceMapping restore_) _); cbn;
    repeat follow; intros Hin; absent; now injection Hin as _ <- _.
Qed.

(** It reads the replication destination under one fixed name, whatever the
    claim and whatever the restore request. *)
Lemma claim_destination_lookup_fixed ns name r :
  In (EvGetReplicationDestination ns name r) (trace run) ->
  name = "dmr-mssql-pvc-rep-dest".
Proof.
  unfold run, restore.PVCRestoreItemAction.Execute. cbn.
  repeat follow; intros Hin; absent; now injection Hin as _ <- _.
Qed.

End ClaimLookups.

(** C7, where the code departs from it.  For the claim [data], whose
    restore request [dmr-data] and replication destination
    [dmr-data-rep-dest] are there, the claim rewrite asks for the
    destination [dmr-mssql-pvc-rep-dest] and fails; the snapshot rewrite of
    src/internal/restore/volumesnapshot_action.go asks for the request
    [dmr-mssql-pvc] and fails; and for the claim [mssql-pvc] it names the
    content it creates [VSC-DM-test], not after the claim. *)
Theorem lookup_names_are_fixed :
  trace (exec apiServer (restoreClaim (claim "data" (Gi 5))) (clusterRestored "data")) =
    [ EvGetDatamoverClient None;
      EvGetDataMoverRestore "app" "dmr-data" (inr (restoreRequest "data"));
      EvGetReplicationDestinationClient None;
      EvGetReplicationDestination "openshift-adp" "dmr-mssql-pvc-rep-dest"
        (inl (notFound "dmr-mssql-pvc-rep-dest")) ]
  /\ outcome (exec apiServer (restoreClaim (claim "data" (Gi 5))) (clusterRestored "data")) =
       Failed (Wrapf "failed to get repDest for PVC dmr-mssql-pvc-rep-dest"
                 (notFound "dmr-mssql-pvc-rep-dest"))
  /\ trace (exec apiServer (restoreSnapshot (snapshotOf "data" "Retain")) (clusterMoved "data")) =
       [ EvGetDatamoverClient None;
         EvGetReplicationDestinationClient None;
         EvGetDataMoverRestore "app" "dmr-mssql-pvc" (inl (notFound "dmr-mssql-pvc")) ]
  /\ exists vsc,
       In (EvCreateVolumeSnapshotContent vsc (inr vsc))
          (trace (exec apiServer (restoreSnapshot (snapshotOf "mssql-pvc" "Retain"))
                    (clusterMoved "mssql-pvc")))
       /\ VolumeSnapshotContent.Name vsc = "VSC-DM-test"
       /\ VolumeSnapshotContent.Name vsc <> "vsr-vsc-mssql-pvc".
Proof.
  split; [vm_compute; reflexivity|]. split; [vm_compute; reflexivity|].
  split; [vm_compute; reflexivity|].
  eexists. split; [vm_compute; do 8 right; left; reflexivity|].
  split; [reflexivity | discriminate].
Qed.

(** C8, where the code departs from it.  The snapshot rewrite of
    src/internal/restore/volumesnapshot_action.go, run on a snapshot whose
    deletion-policy annotation says [Delete], creates a content with the
    policy [Delete]; and it returns no updated snapshot, so no annotation of
    the snapshot is set to [Retain]. *)
Theorem annotated_delete_policy_is_copied :
  let run := exec apiServer (restoreSnapshot (snapshotOf "mssql-pvc" "Delete"))
               (clusterMoved "mssql-pvc") in
  outcome run = Done velero.empty_output
  /\ exists vsc,
       In (EvCreateVolumeSnapshotContent vsc (inr vsc)) (trace run)
       /\ VolumeSnapshotContent.DeletionPolicy (VolumeSnapshotContent.Spec vsc) = "Delete"
       /\ contents (final run) !! "VSC-DM-test" = Some vsc.
Proof.
  split; [vm_compute; reflexivity|].
  eexists. split; [vm_compute; do 8 right; left; reflexivity|].
  split; [reflexivity | vm_compute; reflexivity].
Qed.

(** ** The restore orchestrator *)

Section RestoreOrchestrator.

Context `{Externals}.
Context {W : Type} (env : Environment W) (w : W).
Variable ticks : nat.
Variable dmb : DataMoverBackup.t.
Variable restore_ : velero.Restore.

Let requestName := "dmr-" ++ index_string (DataMoverBackup.Annotations dmb) DatamoverSourcePVCName.
Let protectedNS := DataMoverBackup.ProtectedNamespace (DataMoverBackup.Spec dmb).
Let run :=
  exec env
    (restore.DataMoverRestoreItemAction.Execute ticks
       {| velero.Item := inr dmb; velero.Restore_ := restore_ |}) w.

(** A run that ends before the wait. *)
Ltac early :=
  split; [cbn; lia|];
  split; [intros ? ? Hin; absent; try (injection Hin as <- _; auto) | exact I].

(** The shape of every run. *)
Lemma orchestrator_run :
  (rounds (trace run) <= S ticks)%nat
  /\ (forall dmr a,
        In (EvCreateDataMoverRestore dmr a) (trace run) ->
        DataMoverRestore.Name dmr = requestName
        /\ DataMoverRestore.Namespace dmr = DataMoverBackup.Namespace dmb
        /\ DataMoverRestore.ProtectedNamespace (DataMoverRestore.Spec dmr) = protectedNS)
  /\ match outcome run with
     | Done out =>
         out = velero.empty_output
         /\ exists created earlier round,
              trace run = ([ EvGetDatamoverClient None;
                             EvCreateDataMoverRestore created None ] ++ earlier ++ round)%list
              /\ completingRound (DataMoverBackup.Namespace dmb) requestName protectedNS round
     | _ => True
     end.
Proof.
  unfold run, restore.DataMoverRestoreItemAction.Execute. cbn.
  fold requestName. fold protectedNS.
  answer. destruct r as [e|]; cbn.
  { early. }
  answer. destruct r as [e|]; cbn.
  { early. }
  unfold util.IsDataMoverRestoreCompleted. cbn.
  answer. destruct r as [e|]; cbn.
  { early. }
  answer. destruct r as [e|]; cbn.
  { early. }
  rewrite !exec_bind.
  destruct (poll_completed env (DataMoverBackup.Namespace dmb) requestName protectedNS ticks w3)
    as (Hrounds & Hcreate & Hout).
  cbn zeta in *.
  set (poll := exec env (PollImmediate ticks _) w3) in *.
  assert (Hcreated : forall dmr a,
             In (EvCreateDataMoverRestore dmr a)
                (EvGetDatamoverClient None
                 :: EvCreateDataMoverRestore
                      {| DataMoverRestore.ObjectMeta :=
                           ObjectMeta.named (DataMoverBackup.Namespace dmb) requestName;
                         DataMoverRestore.Spec :=
                           {| DataMoverRestore.ResticSecretRef :=
                                {| LocalObjectReference.Name := "restic-secret" |};
                              DataMoverRestore.DataMoverBackupref :=
                                {| DMBRef.BackedUpPVCData :=
                                     {| PVCData.Name :=
                                          index_string (DataMoverBackup.Annotations dmb)
                                            DatamoverSourcePVCName;
                                        PVCData.Size :=
                                          index_string (DataMoverBackup.Annotations dmb)
                                            DatamoverSourcePVCSize |};
                                   DMBRef.ResticRepository :=
                                     index_string (DataMoverBackup.Annotations dmb)
                                       DatamoverResticRepository |};
                              DataMoverRestore.ProtectedNamespace := protectedNS |} |} None
                 :: EvGetDatamoverClient None
                 :: EvGetReplicationDestinationClient None :: trace poll) ->
             DataMoverRestore.Name dmr = requestName
             /\ DataMoverRestore.Namespace dmr = DataMoverBackup.Namespace dmb
             /\ DataMoverRestore.ProtectedNamespace (DataMoverRestore.Spec dmr) = protectedNS).
  { intros dmr a [Hin | [Hin | [Hin | [Hin | Hin]]]]; try discriminate Hin.
    - injection Hin as <- _. auto.
    - exfalso. eapply Hcreate. exact Hin. }
  destruct (outcome poll) as [[e|] | e | why] eqn:Hpoll; cbn; rewrite ?app_nil_r;
    try contradiction.
  - split; [lia|]. split; [exact Hcreated | exact I].
  - split; [lia|]. split; [exact Hcreated|]. split; [reflexivity|].
    destruct Hout as (earlier & round & Htrace & Hcompl).
    eexists _, ([EvGetDatamoverClient None; EvGetReplicationDestinationClient None]
                  ++ earlier)%list, round.
    split; [|exact Hcompl]. rewrite Htrace. reflexivity.
  - split; [lia|]. split; [exact Hcreated | exact I].
Qed.

(** C9.  [Execute] on a backed-up mover-backup item returns without an error
    only in a run where it has created the restore request, named [dmr-]
    followed by the recorded claim name, in the namespace of the item, and
    where, within the tries that fit in the time-out, one try has found the
    request, and, in the protected namespace, the replication destination
    named after the request with [-rep-dest], with a last sync time and its
    manual trigger equal to the trigger it last synced on; what it returns
    then is the empty output, with no updated item.  A run in which no try
    finds that state ends in a failure of [Execute]. *)
Theorem restore_orchestrator_waits :
  (forall out,
      outcome run = Done out ->
      out = velero.empty_output
      /\ velero.UpdatedItem out = None
      /\ (rounds (trace run) <= S ticks)%nat
      /\ exists created earlier round,
           trace run = ([ EvGetDatamoverClient None;
                          EvCreateDataMoverRestore created None ] ++ earlier ++ round)%list
           /\ DataMoverRestore.Name created = requestName
           /\ DataMoverRestore.Namespace created = DataMoverBackup.Namespace dmb
           /\ completingRound (DataMoverBackup.Namespace dmb) requestName protectedNS round)
  /\ ((forall earlier round,
          trace run = (earlier ++ round)%list ->
          ~ completingRound (DataMoverBackup.Namespace dmb) requestName protectedNS round) ->
      (exists err, outcome run = Failed err) \/ (exists why, outcome run = Panicked why)).
Proof.
  destruct orchestrator_run as (Hrounds & Hcreated & Hout). split.
  - intros out Hdone. rewrite Hdone in Hout.
    destruct Hout as (-> & created & earlier & round & Htrace & Hcompl).
    split; [reflexivity|]. split; [reflexivity|]. split; [exact Hrounds|].
    exists created, earlier, round. split; [exact Htrace|].
    destruct (Hcreated created None) as (Hname & Hns & _).
    { rewrite Htrace. right. left. reflexivity. }
    auto.
  - intros Hnever. destruct (outcome run) as [out | err | why]; eauto.
    exfalso. destruct Hout as (_ & created & earlier & round & Htrace & Hcompl).
    eapply (Hnever ([EvGetDatamoverClient None; EvCreateDataMoverRestore created None]
                      ++ earlier)%list round); [|exact Hcompl].
    rewrite Htrace. now rewrite <- app_assoc.
Qed.

End RestoreOrchestrator.

(** *** The restore orchestrator on an example: the mover is done after
    eight calls, that is on the third try. *)
Lemma restore_orchestrator_waits_witness :
  outcome (exec (moverDoneAfter 8) (restoreMoverItem 60) (0%nat, emptyCluster))
    = Done velero.empty_output
  /\ (rounds (trace (exec (moverDoneAfter 8) (restoreMoverItem 60) (0%nat, emptyCluster)))
      <= 61)%nat.
Proof.
  assert (Hdone : outcome (exec (moverDoneAfter 8) (restoreMoverItem 60) (0%nat, emptyCluster))
                  = Done velero.empty_output) by (vm_compute; reflexivity).
  split; [exact Hdone|].
  destruct (proj1 (@restore_orchestrator_waits exampleExternals (nat * Cluster)
                     (moverDoneAfter 8) (0%nat, emptyCluster) 60 moverItem restore1)
                  velero.empty_output Hdone)
    as (_ & _ & Hrounds & _).
  exact Hrounds.
Defined.

Example mover_done_on_third_try :
  rounds (trace (exec (moverDoneAfter 8) (restoreMoverItem 60) (0%nat, emptyCluster))) = 3%nat.
Proof. vm_compute. reflexivity. Qed.

(** A mover that is never done: the wait runs out of tries and [Execute]
    fails with the time-out. *)
Example mover_never_done :
  outcome (exec apiServer (restoreMoverItem 60) emptyCluster)
    = Failed (WithStack ErrWaitTimeout)
  /\ rounds (trace (exec apiServer (restoreMoverItem 60) emptyCluster)) = 61%nat.
Proof. vm_compute. split; reflexivity. Qed.

(** ** The backup orchestrator *)

#[local] Arguments Nat.ltb : simpl never.

Section BackupOrchestrator.

Context `{Externals}.
Context {W : Type} (env : Environment W) (w : W).
Variable snapCont : VolumeSnapshotContent.t.
Variable backup_ : velero.Backup.

Let ref := VolumeSnapshotContent.VolumeSnapshotRef (VolumeSnapshotContent.Spec snapCont).
Let run :=
  exec env (backup.VolumeSnapshotContentBackupItemAction.Execute (inr snapCont) backup_) w.

(** A create call is issued only after the existence check has read, under
    the name [vsb-] and the snapshot name in the namespace of the snapshot,
    nothing (a not-found error) or a request recorded for another content.
    What is created has that name and namespace and is recorded for the
    content. *)
Lemma create_only_when_absent vsb r :
  In (EvCreateVolumeSnapshotBackup vsb r) (trace run) ->
  ((exists e,
       In (EvGetDataMoverBackup (ObjectReference.Namespace ref)
             ("vsb-" ++ ObjectReference.Name ref) (inl e)) (trace run)
       /\ IsNotFound e = true)
   \/ (exists found,
         In (EvGetDataMoverBackup (ObjectReference.Namespace ref)
               ("vsb-" ++ ObjectReference.Name ref) (inr found)) (trace run)
         /\ recordedContent found <> VolumeSnapshotContent.Name snapCont))
  /\ DataMoverBackup.Name vsb = "vsb-" ++ ObjectReference.Name ref
  /\ DataMoverBackup.Namespace vsb = ObjectReference.Namespace ref
  /\ recordedContent vsb = VolumeSnapshotContent.Name snapCont.
Proof.
  unfold run, backup.VolumeSnapshotContentBackupItemAction.Execute,
    backup.VolumeSnapshotContentBackupItemAction.ExecuteWith,
    backup.VolumeSnapshotContentBackupItemAction.DoesVolumeSnapshotBackupExistForVSC,
    recordedContent. cbn. fold ref.
  answer. destruct r0 as [e|]; cbn; [intros Hin; absent|].
  answer. destruct r0 as [e|found]; cbn.
  - destruct (IsNotFound e) eqn:Hnf; cbn; [|intros Hin; absent].
    answer. destruct r0 as [e'|]; cbn; [intros Hin; absent|].
    answer. intros Hin.
    assert (Hev : exists a, In (EvCreateVolumeSnapshotBackup vsb r)
                               [EvCreateVolumeSnapshotBackup
                                  {| DataMoverBackup.ObjectMeta :=
                                       ObjectMeta.named (ObjectReference.Namespace ref)
                                         ("vsb-" ++ ObjectReference.Name ref);
                                     DataMoverBackup.Spec :=
                                       {| DataMoverBackup.VolumeSnapshotContent :=
                                            {| ObjectReference.Kind := "";
                                               ObjectReference.Namespace := "";
                                               ObjectReference.Name :=
                                                 VolumeSnapshotContent.Name snapCont |};
                                          DataMoverBackup.ProtectedNamespace :=
                                            ObjectMeta.Namespace
                                              (velero.Backup_ObjectMeta backup_) |};
                                     DataMoverBackup.Status :=
                                       {| DataMoverBackup.Phase := "";
                                          DataMoverBackup.SourcePVCData :=
                                            {| PVCData.Name := ""; PVCData.Size := "" |};
                                          DataMoverBackup.ResticRepository := "" |} |} a])
      by (exists r0; destruct r0; cbn in Hin; absent; left; exact Hin).
    destruct Hev as (a & [Hev | []]). injection Hev as <- _.
    split; [|now repeat split].
    left. exists e. split; [|exact Hnf]. destruct r0; cbn; right; left; reflexivity.
  - destruct (String.eqb_spec
                (ObjectReference.Name
                   (DataMoverBackup.VolumeSnapshotContent (DataMoverBackup.Spec found)))
                (VolumeSnapshotContent.Name snapCont)) as [Heq|Hne]; cbn;
      [intros Hin; absent|].
    answer. destruct r0 as [e'|]; cbn; [intros Hin; absent|].
    answer. intros Hin.
    assert (Hev : exists a, In (EvCreateVolumeSnapshotBackup vsb r)
                               [EvCreateVolumeSnapshotBackup
                                  {| DataMoverBackup.ObjectMeta :=
                                       ObjectMeta.named (ObjectReference.Namespace ref)
                                         ("vsb-" ++ ObjectReference.Name ref);
                                     DataMoverBackup.Spec :=
                                       {| DataMoverBackup.VolumeSnapshotContent :=
                                            {| ObjectReference.Kind := "";
                                               ObjectReference.Namespace := "";
                                               ObjectReference.Name :=
                                                 VolumeSnapshotContent.Name snapCont |};
                                          DataMoverBackup.ProtectedNamespace :=
                                            ObjectMeta.Namespace
                                              (velero.Backup_ObjectMeta backup_) |};
                                     DataMoverBackup.Status :=
                                       {| DataMoverBackup.Phase := "";
                                          DataMoverBackup.SourcePVCData :=
                                            {| PVCData.Name := ""; PVCData.Size := "" |};
                                          DataMoverBackup.ResticRepository := "" |} |} a])
      by (exists r0; destruct r0; cbn in Hin; absent; left; exact Hin).
    destruct Hev as (a & [Hev | []]). injection Hev as <- _.
    split; [|now repeat split].
    right. exists found. split; [|exact Hne]. destruct r0; cbn; right; left; reflexivity.
Qed.

End BackupOrchestrator.

(** One invocation on the in-memory cluster, by what the store holds under
    the name of the request: a request recorded for the content (nothing is
    created, the store is left as it is), a request recorded for another
    content (the create is refused and the action fails), or nothing (the
    request is created and recorded for the content). *)
Lemma one_invocation `{Externals} (w : Cluster) (snapCont : VolumeSnapshotContent.t)
    (backup_ : velero.Backup) :
  let ref := VolumeSnapshotContent.VolumeSnapshotRef (VolumeSnapshotContent.Spec snapCont) in
  let key := (ObjectReference.Namespace ref, "vsb-" ++ ObjectReference.Name ref) in
  let run :=
    exec apiServer
      (backup.VolumeSnapshotContentBackupItemAction.Execute (inr snapCont) backup_) w in
  (exists found,
      moverBackups w !! key = Some found
      /\ recordedContent found = VolumeSnapshotContent.Name snapCont
      /\ final run = w
      /\ (forall vsb r, ~ In (EvCreateVolumeSnapshotBackup vsb r) (trace run))
      /\ exists out, outcome run = Done out)
  \/ (exists found,
        moverBackups w !! key = Some found
        /\ recordedContent found <> VolumeSnapshotContent.Name snapCont
        /\ final run = w
        /\ exists e, outcome run = Failed e)
  \/ (moverBackups w !! key = None
      /\ exists vsb,
           recordedContent vsb = VolumeSnapshotContent.Name snapCont
           /\ final run = setMoverBackups w (<[key := vsb]> (moverBackups w))
           /\ exists out, outcome run = Done out).
Proof.
  cbn zeta.
  unfold backup.VolumeSnapshotContentBackupItemAction.Execute,
    backup.VolumeSnapshotContentBackupItemAction.ExecuteWith,
    backup.VolumeSnapshotContentBackupItemAction.DoesVolumeSnapshotBackupExistForVSC,
    recordedContent. cbn.
  unfold lookup_or_notFound.
  destruct (moverBackups w !! (_, "vsb-" ++ _)) as [found|] eqn:Hkey; cbn.
  - destruct (String.eqb_spec
                (ObjectReference.Name
                   (DataMoverBackup.VolumeSnapshotContent (DataMoverBackup.Spec found)))
                (VolumeSnapshotContent.Name snapCont)) as [Heq|Hne]; cbn.
    + left. exists found. split; [reflexivity|]. split; [exact Heq|]. split; [reflexivity|].
      split; [intros vsb r Hin; absent | eexists; reflexivity].
    + right. left. exists found. rewrite Hkey. cbn.
      split; [reflexivity|]. split; [exact Hne|]. split; [reflexivity|]. eexists; reflexivity.
  - right. right. rewrite Hkey. cbn. split; [reflexivity|].
    eexists. split; [|split; [reflexivity | eexists; reflexivity]]. reflexivity.
Qed.

(** C6.  On a cluster, two invocations of the backup action for the same
    content create at most one mover-backup request.  The first invocation
    issues a create only when the existence check has found no request
    recorded for the content: its read, under the name of the request, was
    answered not-found or with a request recorded for another content, and
    the store holds no request recorded for the content under that name.
    After a first invocation that returned without an error the second one
    issues no create and returns without an error; and after both the store
    of requests is as it was, or has one request more, under that name,
    where there was none.  The existence check is the one modelled from the
    spec. *)
Theorem backup_twice_creates_once `{Externals} (w : Cluster)
    (snapCont : VolumeSnapshotContent.t) (backup_ : velero.Backup) :
  let ref := VolumeSnapshotContent.VolumeSnapshotRef (VolumeSnapshotContent.Spec snapCont) in
  let key := (ObjectReference.Namespace ref, "vsb-" ++ ObjectReference.Name ref) in
  let first :=
    exec apiServer
      (backup.VolumeSnapshotContentBackupItemAction.Execute (inr snapCont) backup_) w in
  let second :=
    exec apiServer
      (backup.VolumeSnapshotContentBackupItemAction.Execute (inr snapCont) backup_)
      (final first) in
  (forall vsb r,
      In (EvCreateVolumeSnapshotBackup vsb r) (trace first) ->
      ((exists e,
           In (EvGetDataMoverBackup (ObjectReference.Namespace ref)
                 ("vsb-" ++ ObjectReference.Name ref) (inl e)) (trace first)
           /\ IsNotFound e = true)
       \/ (exists found,
             In (EvGetDataMoverBackup (ObjectReference.Namespace ref)
                   ("vsb-" ++ ObjectReference.Name ref) (inr found)) (trace first)
             /\ recordedContent found <> VolumeSnapshotContent.Name snapCont))
      /\ ~ exists found, moverBackups w !! key = Some found
                         /\ recordedContent found = VolumeSnapshotContent.Name snapCont)
  /\ ((exists out, outcome first = Done out) ->
      (forall vsb r, ~ In (EvCreateVolumeSnapshotBackup vsb r) (trace second))
      /\ exists out, outcome second = Done out)
  /\ (moverBackups (final second) = moverBackups w
      \/ (moverBackups w !! key = None
          /\ exists vsb,
               recordedContent vsb = VolumeSnapshotContent.Name snapCont
               /\ moverBackups (final second) = <[key := vsb]> (moverBackups w))).
Proof.
  cbn zeta.
  pose proof (one_invocation w snapCont backup_) as Hfirst. cbn zeta in Hfirst.
  pose proof (one_invocation
                (final (exec apiServer
                          (backup.VolumeSnapshotContentBackupItemAction.Execute
                             (inr snapCont) backup_) w)) snapCont backup_) as Hsecond.
  cbn zeta in Hsecond.
  split.
  { intros vsb r Hin.
    split; [exact (proj1 (create_only_when_absent apiServer w snapCont backup_ vsb r Hin))|].
    intros (found' & Hkey' & Hrec').
    destruct Hfirst as [(found & Hkey & Hrec & Hfinal & Hnone & Hdone)
                       | [(found & Hkey & Hrec & Hfinal & e & Hfailed)
                         | (Hkey & vsb' & Hrec & Hfinal & Hdone)]].
    - now apply Hnone in Hin.
    - congruence.
    - congruence. }
  destruct Hfirst as [(found & Hkey & Hrec & Hfinal & Hnone & Hdone)
                     | [(found & Hkey & Hrec & Hfinal & e & Hfailed)
                       | (Hkey & vsb & Hrec & Hfinal & Hdone)]].
  - (* the request is there, recorded for the content *)
    rewrite Hfinal in Hsecond |- *.
    destruct Hsecond as [(found' & _ & _ & Hfinal' & Hnone' & Hdone')
                        | [(found' & Hkey' & Hrec' & _) | (Hkey' & _)]];
      [|congruence|congruence].
    split; [intros _; now split|]. left. now rewrite Hfinal'.
  - (* a request of that name is there, recorded for another content *)
    rewrite Hfinal in Hsecond |- *.
    split; [intros (out & Hdone); congruence|].
    left.
    destruct Hsecond as [(found' & _ & _ & Hfinal' & _)
                        | [(found' & _ & _ & Hfinal' & _) | (Hkey' & _)]];
      [now rewrite Hfinal' | now rewrite Hfinal' | congruence].
  - (* no request of that name *)
    rewrite Hfinal in Hsecond |- *.
    assert (Hthere : moverBackups
                       (setMoverBackups w
                          (<[(ObjectReference.Namespace
                                (VolumeSnapshotContent.VolumeSnapshotRef
                                   (VolumeSnapshotContent.Spec snapCont)),
                              "vsb-" ++ ObjectReference.Name
                                          (VolumeSnapshotContent.VolumeSnapshotRef
                                             (VolumeSnapshotContent.Spec snapCont)))
                             := vsb]> (moverBackups w)))
                     !! (ObjectReference.Namespace
                           (VolumeSnapshotContent.VolumeSnapshotRef
                              (VolumeSnapshotContent.Spec snapCont)),
                         "vsb-" ++ ObjectReference.Name
                                     (VolumeSnapshotContent.VolumeSnapshotRef
                                        (VolumeSnapshotContent.Spec snapCont)))
                     = Some vsb) by (cbn; apply lookup_insert_eq).
    destruct Hsecond as [(found' & _ & _ & Hfinal' & Hnone' & Hdone')
                        | [(found' & Hkey' & Hrec' & _) | (Hkey' & _)]];
      [|congruence|congruence].
    split; [intros _; now split|].
    right. split; [exact Hkey|]. exists vsb. split; [exact Hrec|]. now rewrite Hfinal'.
Qed.

(** *** The backup orchestrator on an example: the content [sc-a] on a
    cluster without requests.  The first invocation creates the request
    [vsb-snap-a]; the second finds it and creates nothing. *)
Lemma backup_twice_creates_once_witness :
  let first := exec apiServer (backupContent contentA) emptyCluster in
  let second := exec apiServer (backupContent contentA) (final first) in
  trace first = [ EvGetDatamoverClient None;
                  EvGetDataMoverBackup "app" "vsb-snap-a" (inl (notFound "vsb-snap-a"));
                  EvGetDatamoverClient None;
                  EvCreateVolumeSnapshotBackup requestOfA None ]
  /\ trace second = [ EvGetDatamoverClient None;
                      EvGetDataMoverBackup "app" "vsb-snap-a" (inr requestOfA) ]
  /\ (forall vsb r, ~ In (EvCreateVolumeSnapshotBackup vsb r) (trace second))
  /\ moverBackups (final second) = {[ ("app", "vsb-snap-a") := requestOfA ]}.
Proof.
  cbn zeta.
  split; [vm_compute; reflexivity|]. split; [vm_compute; reflexivity|].
  split; [|vm_compute; reflexivity].
  apply (proj1 (proj2 (@backup_twice_creates_once exampleExternals emptyCluster
                         contentA backup1))).
  eexists. vm_compute. reflexivity.
Defined.

(** The check of the earlier request type, which the sources hold, reports
    a request that is not there as an error. *)
Lemma earlier_check_absent_is_error {W : Type} (env : Environment W) (w : W)
    (volSnap : VolumeSnapshotContent.t) ns name e :
  In (EvGetDataMoverBackup ns name (inl e))
     (trace (exec env (util.DoesDataMoverBackupExistForVSC volSnap) w)) ->
  outcome (exec env (util.DoesDataMoverBackupExistForVSC volSnap) w) = Done (false, Some e).
Proof.
  unfold util.DoesDataMoverBackupExistForVSC. cbn.
  answer. destruct r as [e0|]; cbn; [intros Hin; absent|].
  answer. destruct r as [e0|dmb]; cbn.
  - intros Hin. absent. now injection Hin as _ _ <-.
  - intros Hin. exfalso.
    destruct ((0 <? String.length _)%nat && String.eqb _ _); cbn in Hin; absent.
Qed.

(** ** The claim rewrite and the chain of the claim *)

(** C5, where the code departs from it.  The chain of the claim [data] is
    completed: its restore request [dmr-data] is there, and so is its
    replication destination [dmr-data-rep-dest], synced, with the snapshot
    [volsync-snap-data] as its latest image.  The claim rewrite reads the
    destination under the fixed name [dmr-mssql-pvc-rep-dest].  On a cluster
    that holds the chain of [data] alone it fails and returns no claim, so
    no annotation is removed and no data source is set.  On a cluster that
    holds the chain of [mssql-pvc] as well it returns the claim [data] with
    the snapshot [volsync-snap] of [mssql-pvc] as its data source, not the
    snapshot of its own destination. *)
Theorem completed_chain_is_not_the_one_read :
  let pvc := claim "data" (Gi 5) in
  moverRestores clusterDataRestored !! ("app", "dmr-data") = Some (restoreRequest "data")
  /\ replicationDestinations clusterDataRestored !! ("openshift-adp", "dmr-data-rep-dest")
     = Some destinationOfData
  /\ synced destinationOfData
  /\ (exists status, ReplicationDestination.Status destinationOfData = Some status
                     /\ ReplicationDestination.LatestImage status = Some imageOfData)
  /\ trace (exec apiServer (restoreClaim pvc) clusterDataRestored)
     = [ EvGetDatamoverClient None;
         EvGetDataMoverRestore "app" "dmr-data" (inr (restoreRequest "data"));
         EvGetReplicationDestinationClient None;
         EvGetReplicationDestination "openshift-adp" "dmr-mssql-pvc-rep-dest"
           (inl (notFound "dmr-mssql-pvc-rep-dest")) ]
  /\ outcome (exec apiServer (restoreClaim pvc) clusterDataRestored)
     = Failed (Wrapf "failed to get repDest for PVC dmr-mssql-pvc-rep-dest"
                 (notFound "dmr-mssql-pvc-rep-dest"))
  /\ exists out pvc',
       outcome (exec apiServer (restoreClaim pvc) clusterTwoChains) = Done out
       /\ velero.UpdatedItem out = Some pvc'
       /\ PersistentVolumeClaim.DataSource (PersistentVolumeClaim.Spec pvc') = Some volsyncImage
       /\ PersistentVolumeClaim.DataSource (PersistentVolumeClaim.Spec pvc') <> Some imageOfData.
Proof.
  cbn zeta.
  split; [vm_compute; reflexivity|]. split; [vm_compute; reflexivity|].
  split; [eexists _, _; cbn; repeat split; eauto|].
  split; [eexists; split; reflexivity|].
  split; [vm_compute; reflexivity|]. split; [vm_compute; reflexivity|].
  eexists _, _. split; [vm_compute; reflexivity|]. split; [reflexivity|].
  split; [reflexivity | discriminate].
Qed.

(** ** The helpers on pods, snapshot classes and object maps *)

Lemma usesClaim_true (pvcName : string) (v : Volume.t) :
  util.usesClaim pvcName v = true <->
  exists source, Volume.PersistentVolumeClaim v = Some source
                 /\ Volume.ClaimName source = pvcName.
Proof.
  unfold util.usesClaim. destruct (Volume.PersistentVolumeClaim v) as [source|].
  - rewrite String.eqb_eq. split; [eauto | now intros (s & [= <-] & Heq)].
  - split; [discriminate | now intros (s & Hs & _)].
Qed.


(** The pods among the volumes of the listed pods. *)
Lemma claim_users_listed (pvcName : string) (items : list Pod.t) (p : Pod.t) :
  In p (flat_map (fun p => flat_map (fun v => if util.usesClaim pvcName v then [p] else [])
                                    (Pod.Spec_Volumes p))
                 items)
  <-> In p items
      /\ exists v source, In v (Pod.Spec_Volumes p)
                          /\ Volume.PersistentVolumeClaim v = Some source
                          /\ Volume.ClaimName source = pvcName.
Proof.
  rewrite in_flat_map. split.
  - intros (q & Hq & Hin). apply in_flat_map in Hin as (v & Hv & Hin).
    destruct (util.usesClaim pvcName v) eqn:Huse; [|destruct Hin].
    destruct Hin as [<- | []]. split; [exact Hq|].
    apply usesClaim_true in Huse as (source & Hs & Hname). eauto.
  - intros (Hp & v & source & Hv & Hs & Hname). exists p. split; [exact Hp|].
    apply in_flat_map. exists v. split; [exact Hv|].
    assert (Huse : util.usesClaim pvcName v = true) by (apply usesClaim_true; eauto).
    rewrite Huse. now left.
Qed.


Lemma volume_name_found (pod : Pod.t) (pvcName volName : string) :
  util.GetPodVolumeNameForPVC pod pvcName = inr volName <->
  exists v, find (util.usesClaim pvcName) (Pod.Spec_Volumes pod) = Some v
            /\ Volume.Name v = volName.
Proof.
  unfold util.GetPodVolumeNameForPVC.
  destruct (find (util.usesClaim pvcName) (Pod.Spec_Volumes pod)) as [v|].
  - split; [intros [= <-]; eauto | now intros (v' & [= <-] & <-)].
  - split; [discriminate | now intros (v' & Hv & _)].
Qed.

Lemma resticLoop_exists `{Platform} (pods : list Pod.t) (pvcName : string) (d : bool) :
  (forall p, In p pods -> exists v, In v (Pod.Spec_Volumes p) /\ util.usesClaim pvcName v = true) ->
  util.resticLoop pods pvcName d = inr (existsb (resticHasClaim pvcName d) pods).
Proof.
  induction pods as [|p pods IH]; intros Huse; [reflexivity|].
  cbn [util.resticLoop existsb]. unfold resticHasClaim at 1.
  destruct (Huse p (or_introl eq_refl)) as (v & Hv & Hclaim).
  destruct (util.GetPodVolumeNameForPVC p pvcName) as [err|volName] eqn:Hname.
  - exfalso. unfold util.GetPodVolumeNameForPVC in Hname.
    destruct (find _ _) eqn:Hfind; [discriminate|].
    apply (find_none _ _ Hfind) in Hv. congruence.
  - destruct (GetPodVolumesUsingRestic p d) as [|vol vols]; cbn -[util.Contains].
    + apply IH. intros q Hq. apply Huse. now right.
    + destruct (util.Contains (vol :: vols) volName); [reflexivity|].
      apply IH. intros q Hq. apply Huse. now right.
Qed.

(** X2.  [IsPVCBackedUpByRestic] returns an error only when the listing of
    the pods fails, and then that error; the error of
    [GetPodVolumeNameForPVC] never comes out, since it is asked only about
    pods that use the claim.  Otherwise the answer is [true] exactly when
    some listed pod mounts the claim and restic has the first volume
    through which the pod mounts it. *)
Theorem restic_backs_up_claim `{Platform} (pvcNamespace pvcName : string)
    (podClient : util.PodsGetter) (defaultVolumesToRestic : bool) :
  match podClient pvcNamespace with
  | inl err =>
      util.IsPVCBackedUpByRestic pvcNamespace pvcName podClient defaultVolumesToRestic
      = inl (WithStack err)
  | inr items =>
      exists answer,
        util.IsPVCBackedUpByRestic pvcNamespace pvcName podClient defaultVolumesToRestic
        = inr answer
        /\ (answer = true <->
            exists p v,
              In p items
              /\ find (fun v => match Volume.PersistentVolumeClaim v with
                                | Some source => String.eqb (Volume.ClaimName source) pvcName
                                | None => false
                                end) (Pod.Spec_Volumes p) = Some v
              /\ In (Volume.Name v) (GetPodVolumesUsingRestic p defaultVolumesToRestic))
  end.
Proof.
  unfold util.IsPVCBackedUpByRestic, util.GetPodsUsingPVC.
  destruct (podClient pvcNamespace) as [err|items]; [reflexivity|].
  pose proof (claim_users_listed pvcName items) as Hmem.
  rewrite resticLoop_exists.
  - eexists. split; [reflexivity|]. rewrite existsb_exists. split.
    + intros (p & Hp & Htest). unfold resticHasClaim in Htest.
      destruct (util.GetPodVolumeNameForPVC p pvcName) as [err|volName] eqn:Hname;
        [discriminate|].
      apply volume_name_found in Hname as (v & Hfind & <-).
      exists p, v. split; [now apply Hmem in Hp|]. split; [exact Hfind|].
      now apply Contains_In.
    + intros (p & v & Hp & Hfind & Hin). exists p. split.
      * apply Hmem. split; [exact Hp|].
        destruct (find_some _ _ Hfind) as [Hv Huse].
        change (util.usesClaim pvcName v = true) in Huse.
        apply usesClaim_true in Huse as (source & Hs & Hn). eauto.
      * unfold resticHasClaim.
        assert (Hname : util.GetPodVolumeNameForPVC p pvcName = inr (Volume.Name v))
          by (apply volume_name_found; eauto).
        rewrite Hname. now apply Contains_In.
  - intros p Hp. apply Hmem in Hp as (_ & v & source & Hv & Hs & Hn).
    exists v. split; [exact Hv|]. apply usesClaim_true. eauto.
Qed.

(** The pod [mssql-0] mounts the claim as [data], which restic has. *)
Example restic_backs_up_mssql :
  @util.IsPVCBackedUpByRestic resticOnData "app" "mssql-pvc" podsOfApp false = inr true
  /\ @util.IsPVCBackedUpByRestic resticOnData "other" "mssql-pvc" podsOfApp false
     = inl (WithStack (OtherError "connection refused")).
Proof. split; reflexivity. Qed.

(** X3.  [GetVolumeSnapshotClassForStorageClass] wraps the error of the
    listing; otherwise it returns the first listed class whose driver is the
    provisioner and that carries the selector label, whatever the value of
    the label, and an error when no listed class is such. *)
Theorem snapshot_class_for_provisioner `{Constants} (provisioner : string)
    (snapshotClient : util.VolumeSnapshotClassesLister) :
  match snapshotClient with
  | inl err =>
      util.GetVolumeSnapshotClassForStorageClass provisioner snapshotClient
      = inl (Wrapf "error listing volumesnapshot classes" err)
  | inr items =>
      let fits sc :=
        VolumeSnapshotClass.Driver sc = provisioner
        /\ is_Some (index (ObjectMeta.Labels (VolumeSnapshotClass.ObjectMeta sc))
                          VolumeSnapshotClassSelectorLabel) in
      (forall sc,
          util.GetVolumeSnapshotClassForStorageClass provisioner snapshotClient = inr sc ->
          fits sc
          /\ exists before rest,
               items = (before ++ sc :: rest)%list /\ forall sc', In sc' before -> ~ fits sc')
      /\ ((exists sc, In sc items /\ fits sc) ->
          exists sc, util.GetVolumeSnapshotClassForStorageClass provisioner snapshotClient = inr sc)
  end.
Proof.
  unfold util.GetVolumeSnapshotClassForStorageClass.
  destruct snapshotClient as [err|items]; [reflexivity|]. cbn zeta.
  set (test := fun sc => String.eqb (VolumeSnapshotClass.Driver sc) provisioner
                         && util.hasSelectorLabel sc).
  assert (Htest : forall sc,
             test sc = true <->
             VolumeSnapshotClass.Driver sc = provisioner
             /\ is_Some (index (ObjectMeta.Labels (VolumeSnapshotClass.ObjectMeta sc))
                               VolumeSnapshotClassSelectorLabel)).
  { intros sc. unfold test, util.hasSelectorLabel.
    rewrite andb_true_iff, String.eqb_eq, bool_decide_eq_true. reflexivity. }
  split.
  - intros sc Hfound. destruct (find test items) as [sc'|] eqn:Hfind; [|discriminate].
    injection Hfound as ->. split; [apply Htest; eapply find_some; exact Hfind|].
    clear - Hfind Htest. induction items as [|c items IH]; [discriminate|].
    cbn in Hfind. destruct (test c) eqn:Hc.
    + injection Hfind as ->. exists [], items. split; [reflexivity | intros ? []].
    + destruct (IH Hfind) as (before & rest & -> & Hbefore).
      exists (c :: before), rest. split; [reflexivity|].
      intros sc' [<- | Hin]; [|now apply Hbefore].
      intros Hfits%Htest. congruence.
  - intros (sc & Hin & Hfits%Htest). destruct (find test items) as [sc'|] eqn:Hfind; [eauto|].
    apply (find_none _ _ Hfind) in Hin. congruence.
Qed.

Lemma assignAll_lookup (f : string -> string) (vals into : gomap string) (k : string) :
  util.assignAll f vals into !! k =
  match index vals k with
  | Some v => Some (f v)
  | None => index into k
  end.
Proof.
  assert (Hvals : index vals k = default ∅ vals !! k)
    by (destruct vals; [reflexivity | symmetry; apply lookup_empty]).
  assert (Hinto : index into k = default ∅ into !! k)
    by (destruct into; [reflexivity | symmetry; apply lookup_empty]).
  rewrite Hvals, Hinto. unfold util.assignAll. revert k Hvals Hinto.
  generalize (default ∅ vals). intros m k _ _. revert k.
  apply (map_fold_weak_ind
           (fun (acc m : gmap string string) =>
              forall k, acc !! k = match m !! k with
                                   | Some v => Some (f v)
                                   | None => default ∅ into !! k
                                   end)).
  - intros k. now rewrite lookup_empty.
  - intros i x m' acc Hfresh IH k. destruct (decide (i = k)) as [->|Hne].
    + now rewrite !lookup_insert_eq.
    + rewrite !(lookup_insert_ne _ i k) by exact Hne. apply IH.
Qed.

(** X4.  After [AddAnnotations] every key of [vals] reads the value [vals]
    gives it and every other key reads as before; the map of the object is
    no longer nil, also when [vals] is nil or empty, and the name, the
    namespace and the labels are untouched. *)
Theorem AddAnnotations_lookup (o : ObjectMeta.t) (vals : gomap string) :
  let o' := util.AddAnnotations o vals in
  (forall k, index (ObjectMeta.Annotations o') k =
             match index vals k with
             | Some v => Some v
             | None => index (ObjectMeta.Annotations o) k
             end)
  /\ ObjectMeta.Annotations o' <> None
  /\ ObjectMeta.Name o' = ObjectMeta.Name o
  /\ ObjectMeta.Namespace o' = ObjectMeta.Namespace o
  /\ ObjectMeta.Labels o' = ObjectMeta.Labels o.
Proof.
  cbn. split; [intros k; apply assignAll_lookup|]. now repeat split.
Qed.

Lemma substring_length_le (n : nat) (s : string) : (String.length (substring 0 n s) <= n)%nat.
Proof.
  revert s. induction n as [|n IH]; intros [|c s]; cbn; try lia.
  specialize (IH s). lia.
Qed.

Lemma append_length (s1 s2 : string) :
  String.length (s1 ++ s2) = (String.length s1 + String.length s2)%nat.
Proof. induction s1 as [|c s1 IH]; simpl; [reflexivity | f_equal; exact IH]. Qed.

Lemma GetValidName_length `{Externals} (label : string) :
  (String.length (GetValidName label) <= 63)%nat.
Proof.
  unfold GetValidName. cbv zeta.
  destruct (String.length label <=? DNS1035LabelMaxLength)%nat eqn:Hlen;
    [now apply Nat.leb_le in Hlen|].
  rewrite append_length.
  pose proof (substring_length_le (DNS1035LabelMaxLength - 6) label).
  pose proof (substring_length_le 6 (sha256_hex label)).
  unfold DNS1035LabelMaxLength in *. lia.
Qed.

(** X5.  After [AddLabels] every key of [vals] reads the valid name of the
    value [vals] gives it, which is at most 63 bytes long and is the value
    itself when that is at most 63 bytes long; every other key reads as
    before. *)
Theorem AddLabels_lookup `{Externals} (o : ObjectMeta.t) (vals : gomap string) :
  let o' := util.AddLabels o vals in
  (forall k, index vals k = None ->
             index (ObjectMeta.Labels o') k = index (ObjectMeta.Labels o) k)
  /\ (forall k v, index vals k = Some v ->
                  exists l, index (ObjectMeta.Labels o') k = Some l
                            /\ l = GetValidName v
                            /\ (String.length l <= 63)%nat
                            /\ ((String.length v <= 63)%nat -> l = v))
  /\ ObjectMeta.Annotations o' = ObjectMeta.Annotations o.
Proof.
  cbn. split; [|split; [|reflexivity]].
  - intros k Hk. now rewrite assignAll_lookup, Hk.
  - intros k v Hk. exists (GetValidName v). rewrite assignAll_lookup, Hk.
    split; [reflexivity|]. split; [reflexivity|]. split; [apply GetValidName_length|].
    intros Hlen. unfold GetValidName, DNS1035LabelMaxLength.
    apply Nat.leb_le in Hlen. now rewrite Hlen.
Qed.

(** X6.  A content that [AddLabels] has labelled with the name of a backup
    is owned, for [HasBackupLabel], by the backups whose name is not blank
    and has the same valid name: by that backup itself if its name is not
    blank, and by no backup with a blank name. *)
Theorem labelled_content_is_owned `{Externals} (o : ObjectMeta.t) (name name' : string) :
  util.HasBackupLabel (util.AddLabels o (Some {[ BackupNameLabel := name ]})) name' = true <->
  TrimSpace name' <> "" /\ GetValidName name = GetValidName name'.
Proof.
  unfold util.HasBackupLabel, index_string. cbn [util.AddLabels util.setMaps ObjectMeta.Labels].
  change (Some (util.assignAll GetValidName (Some {[BackupNameLabel := name]})
                  (ObjectMeta.Labels o)))
    with (Some (util.assignAll GetValidName (Some {[BackupNameLabel := name]})
                  (ObjectMeta.Labels o)) : gomap string).
  cbn [index]. rewrite assignAll_lookup. cbn [index].
  rewrite lookup_singleton_eq. cbn [default].
  destruct (String.length (TrimSpace name') =? 0)%nat eqn:Hblank.
  - split; [discriminate|]. intros [Hname _]. exfalso. apply Hname.
    apply Nat.eqb_eq in Hblank. now destruct (TrimSpace name').
  - rewrite String.eqb_eq. split.
    + intros Heq. split; [|exact Heq]. intros Hempty. now rewrite Hempty in Hblank.
    + now intros [_ Heq].
Qed.

Lemma labelled_content_is_owned_witness :
  @util.HasBackupLabel exampleExternals
    (@util.AddLabels exampleExternals (ObjectMeta.named "" "snapcontent-1")
       (Some {[ BackupNameLabel := "backup-1" ]})) "backup-1" = true.
Proof.
  apply (proj2 (@labelled_content_is_owned exampleExternals
                  (ObjectMeta.named "" "snapcontent-1") "backup-1" "backup-1")).
  split; [discriminate | reflexivity].
Defined.

(** ** The backup action on mover-backup requests *)

Section StatusWait.

Context `{Constants}.
Context {W : Type} (env : Environment W).
Variables ns name : string.

Let condition := util.backupCompletedCondition ns name.
Let readError (e : error) := Wrapf ("failed to get datamoverbackup " ++ ns ++ "/" ++ name) e.

Lemma backupCompleted_test (dmb : DataMoverBackup.t) :
  (String.length (DataMoverBackup.Phase (DataMoverBackup.Status dmb)) =? 0)%nat
  || negb (String.eqb (DataMoverBackup.Phase (DataMoverBackup.Status dmb))
                      DatamoverBackupPhaseCompleted) = false
  <-> backupCompleted dmb.
Proof.
  unfold backupCompleted. rewrite orb_false_iff, negb_false_iff, String.eqb_eq, Nat.eqb_neq.
  destruct (DataMoverBackup.Phase (DataMoverBackup.Status dmb)); cbn; intuition congruence.
Qed.

(** One try of the wait is one read of the request. *)
Lemma backup_round (s : DataMoverBackup.t) (w : W) :
  exec env (condition s) w =
  {| trace := [EvGetDataMoverBackup ns name (fst (handle env (GetDataMoverBackup ns name) w))];
     outcome :=
       Done match fst (handle env (GetDataMoverBackup ns name) w) with
            | inl e => (s, (false, Some (readError e)))
            | inr live =>
                (live,
                 (negb ((String.length (DataMoverBackup.Phase (DataMoverBackup.Status live)) =? 0)%nat
                        || negb (String.eqb (DataMoverBackup.Phase (DataMoverBackup.Status live))
                                            DatamoverBackupPhaseCompleted)),
                  None))
            end;
     final := snd (handle env (GetDataMoverBackup ns name) w) |}.
Proof.
  unfold condition, util.backupCompletedCondition. cbn.
  destruct (handle env (GetDataMoverBackup ns name) w) as [[e|live] w']; cbn; [reflexivity|].
  now destruct (_ || _).
Qed.

(** The wait for the mover: at most [S ticks] reads, one after the other;
    every read but the last finds a request that is not completed; the last
    one finds it completed (nil error), or fails (its error, wrapped), or is
    the last try that fits in the time-out. *)
Lemma backup_poll (ticks : nat) (s : DataMoverBackup.t) (w : W) :
  let r := exec env (PollImmediateWith ticks condition s) w in
  (length (trace r) <= S ticks)%nat
  /\ match outcome r with
     | Done (dmb, None) =>
         exists earlier,
           trace r = (earlier ++ [EvGetDataMoverBackup ns name (inr dmb)])%list
           /\ Forall (pendingRead ns name) earlier
           /\ backupCompleted dmb
     | Done (_, Some e) =>
         (e = ErrWaitTimeout /\ length (trace r) = S ticks
          /\ Forall (pendingRead ns name) (trace r))
         \/ (exists earlier e',
               trace r = (earlier ++ [EvGetDataMoverBackup ns name (inl e')])%list
               /\ Forall (pendingRead ns name) earlier
               /\ e = readError e')
     | Failed _ => False
     | Panicked _ => False
     end.
Proof.
  revert s w. induction ticks as [|n IH]; intros s w; cbn zeta;
    cbn [PollImmediateWith]; rewrite exec_bind, backup_round; cbn [trace outcome final];
    destruct (handle env (GetDataMoverBackup ns name) w) as [[e|live] w'] eqn:Hread;
    cbn [fst snd];
    try (cbn; split; [lia|]; right; exists [], e; repeat split; constructor);
    (destruct (_ || _) eqn:Htest; cbn [negb];
     [ | cbn; apply backupCompleted_test in Htest; split; [lia|];
         exists []; repeat split; [constructor | apply Htest | apply Htest] ]);
    assert (Hpending : pendingRead ns name (EvGetDataMoverBackup ns name (inr live)))
      by (exists live; split; [reflexivity|];
          intros Hdone%backupCompleted_test; congruence).
  - cbn. split; [lia|]. left. repeat split. constructor; [exact Hpending | constructor].
  - destruct (IH live w') as (Hlen & Hout). cbn zeta in Hlen, Hout.
    destruct (exec env (PollImmediateWith n condition live) w') as [t o w''].
    cbn [trace outcome final] in *. cbn. split; [lia|].
    destruct o as [[dmb [e|]] | e | why]; try contradiction.
    + destruct Hout as [(-> & Hfull & Hall) | (earlier & e' & -> & Hall & ->)].
      * left. repeat split; [cbn; lia | now constructor].
      * right. exists (EvGetDataMoverBackup ns name (inr live) :: earlier), e'.
        repeat split. now constructor.
    + destruct Hout as (earlier & -> & Hall & Hdone).
      exists (EvGetDataMoverBackup ns name (inr live) :: earlier).
      repeat split; [now constructor | apply Hdone | apply Hdone].
Qed.

End StatusWait.

Lemma pending_reads_found `{Constants} (ns name ns' name' : string) (e : error)
    (reads : list Event) :
  Forall (pendingRead ns name) reads ->
  ~ In (EvGetDataMoverBackup ns' name' (inl e)) reads.
Proof.
  intros Hall Hin. rewrite List.Forall_forall in Hall.
  destruct (Hall _ Hin) as (live & Heq & _). discriminate Heq.
Qed.

Lemma pending_reads_are_reads `{Constants} (ns name : string) (reads : list Event) (ev : Event) :
  Forall (pendingRead ns name) reads -> In ev reads ->
  exists a, ev = EvGetDataMoverBackup ns name a.
Proof.
  intros Hall Hin. rewrite List.Forall_forall in Hall.
  destruct (Hall _ Hin) as (live & -> & _). now exists (inr live).
Qed.

Section RequestBackup.

Context `{Externals} `{Constants}.
Context {W : Type} (env : Environment W) (w : W).
Variables (ticks : nat) (dmb : DataMoverBackup.t) (backup : velero.Backup).

Let ns := DataMoverBackup.Namespace dmb.
Let name := DataMoverBackup.Name dmb.
Let run := exec env (backup.DataMoverBackupItemAction.Execute ticks (inr dmb) backup) w.
Let readError (e : error) := Wrapf ("failed to get datamoverbackup " ++ ns ++ "/" ++ name) e.

(** The item returned for the request as read last. *)
Let backedUp (live : DataMoverBackup.t) : DataMoverBackup.t :=
  let status := DataMoverBackup.Status live in
  {| DataMoverBackup.ObjectMeta :=
       util.AddAnnotations (DataMoverBackup.ObjectMeta dmb)
         (Some {[ DatamoverResticRepository := DataMoverBackup.ResticRepository status;
                  DatamoverSourcePVCName := PVCData.Name (DataMoverBackup.SourcePVCData status);
                  DatamoverSourcePVCSize := PVCData.Size (DataMoverBackup.SourcePVCData status) ]});
     DataMoverBackup.Spec := DataMoverBackup.Spec dmb;
     DataMoverBackup.Status := status |}.

(** The shape of every run. *)
Lemma request_backup_run :
  match outcome run with
  | Done (item, items) =>
      exists earlier live,
        trace run = (EvGetDatamoverClient None
                     :: earlier ++ [EvGetDataMoverBackup ns name (inr live)])%list
        /\ (length earlier <= ticks)%nat
        /\ Forall (pendingRead ns name) earlier
        /\ backupCompleted live
        /\ item = backedUp live
        /\ items = []
  | Failed e =>
      (exists e', trace run = [EvGetDatamoverClient (Some e')] /\ e = WithStack e')
      \/ (exists reads,
            trace run = EvGetDatamoverClient None :: reads
            /\ length reads = S ticks
            /\ Forall (pendingRead ns name) reads
            /\ e = WithStack ErrWaitTimeout)
      \/ (exists earlier e',
            trace run = (EvGetDatamoverClient None
                         :: earlier ++ [EvGetDataMoverBackup ns name (inl e')])%list
            /\ (length earlier <= ticks)%nat
            /\ Forall (pendingRead ns name) earlier
            /\ e = WithStack (readError e'))
  | Panicked _ => False
  end.
Proof.
  unfold run, backup.DataMoverBackupItemAction.Execute,
    util.GetDataMoverbackupWithCompletedStatus. cbn.
  fold ns. fold name.
  answer. destruct r as [e|]; cbn.
  { left. now exists e. }
  rewrite exec_bind.
  destruct (backup_poll env ns name ticks zeroDataMoverBackup w0) as (Hlen & Hout).
  cbn zeta in Hlen, Hout.
  destruct (exec env (PollImmediateWith ticks _ zeroDataMoverBackup) w0) as [t o w1].
  cbn [trace outcome final] in *.
  destruct o as [[live [e|]] | e | why]; try contradiction; cbn.
  - destruct Hout as [(-> & Hfull & Hall) | (earlier & e' & -> & Hall & ->)].
    + right. left. exists t. rewrite app_nil_r. now repeat split.
    + right. right. exists earlier, e'. rewrite app_nil_r.
      rewrite length_app in Hlen. cbn in Hlen. repeat split; [lia | exact Hall].
  - destruct Hout as (earlier & -> & Hall & Hdone).
    exists earlier, live. rewrite app_nil_r.
    rewrite length_app in Hlen. cbn in Hlen. repeat split; [lia | exact Hall | apply Hdone | apply Hdone].
Qed.

(** X7.  The backup action on a mover-backup request returns an item only
    after a read of the request, under the namespace and name of the item,
    that found it completed (a phase that is not empty and is the completed
    one); every read before found it not completed.  The returned item has
    the status of that read, the spec, name, namespace and labels of the item
    passed in, and there are no additional items. *)
Theorem completed_request_is_backed_up (item : DataMoverBackup.t)
    (items : list velero.ResourceIdentifier) :
  outcome run = Done (item, items) ->
  items = []
  /\ DataMoverBackup.Spec item = DataMoverBackup.Spec dmb
  /\ DataMoverBackup.Name item = DataMoverBackup.Name dmb
  /\ DataMoverBackup.Namespace item = DataMoverBackup.Namespace dmb
  /\ ObjectMeta.Labels (DataMoverBackup.ObjectMeta item)
     = ObjectMeta.Labels (DataMoverBackup.ObjectMeta dmb)
  /\ exists earlier live,
       trace run = (EvGetDatamoverClient None
                    :: earlier ++ [EvGetDataMoverBackup (DataMoverBackup.Namespace dmb)
                                     (DataMoverBackup.Name dmb) (inr live)])%list
       /\ Forall (pendingRead (DataMoverBackup.Namespace dmb) (DataMoverBackup.Name dmb)) earlier
       /\ backupCompleted live
       /\ DataMoverBackup.Status item = DataMoverBackup.Status live.
Proof.
  intros Hdone. pose proof request_backup_run as Hrun. rewrite Hdone in Hrun.
  destruct Hrun as (earlier & live & Htrace & _ & Hall & Hcompleted & -> & ->).
  do 5 (split; [reflexivity|]). exists earlier, live.
  split; [exact Htrace|]. split; [exact Hall|]. split; [exact Hcompleted | reflexivity].
Qed.

(** X8.  The item returned by the backup action on a mover-backup request
    records its own status in its annotations: the restic repository, the
    name of the source claim and its size, under the three keys (which
    differ); every other annotation of the item passed in is kept. *)
Theorem backed_up_status_is_annotated (item : DataMoverBackup.t)
    (items : list velero.ResourceIdentifier) :
  DatamoverResticRepository <> DatamoverSourcePVCName ->
  DatamoverResticRepository <> DatamoverSourcePVCSize ->
  DatamoverSourcePVCName <> DatamoverSourcePVCSize ->
  outcome run = Done (item, items) ->
  let annotations := ObjectMeta.Annotations (DataMoverBackup.ObjectMeta item) in
  let status := DataMoverBackup.Status item in
  index annotations DatamoverResticRepository = Some (DataMoverBackup.ResticRepository status)
  /\ index annotations DatamoverSourcePVCName
     = Some (PVCData.Name (DataMoverBackup.SourcePVCData status))
  /\ index annotations DatamoverSourcePVCSize
     = Some (PVCData.Size (DataMoverBackup.SourcePVCData status))
  /\ forall k,
       k <> DatamoverResticRepository -> k <> DatamoverSourcePVCName ->
       k <> DatamoverSourcePVCSize ->
       index annotations k = index (ObjectMeta.Annotations (DataMoverBackup.ObjectMeta dmb)) k.
Proof.
  intros Hrn Hrs Hns Hdone. pose proof request_backup_run as Hrun. rewrite Hdone in Hrun.
  destruct Hrun as (earlier & live & _ & _ & _ & _ & -> & _).
  cbn. rewrite !assignAll_lookup. cbn.
  repeat split.
  - now rewrite lookup_insert_eq.
  - rewrite lookup_insert_ne by exact Hrn. now rewrite lookup_insert_eq.
  - rewrite lookup_insert_ne by exact Hrs. rewrite lookup_insert_ne by exact Hns.
    now rewrite lookup_singleton_eq.
  - intros k Hr Hn Hs. rewrite assignAll_lookup. cbn.
    rewrite !lookup_insert_ne by congruence. now rewrite lookup_singleton_ne by congruence.
Qed.

(** X9.  A read of the request that fails (also with a not-found error, so
    before the mover has made the request) ends the wait at once: it is the
    last call of the run, and the action fails with that error, wrapped with
    the namespace and name of the request. *)
Theorem failed_read_ends_the_wait (ns' name' : string) (e : error) :
  In (EvGetDataMoverBackup ns' name' (inl e)) (trace run) ->
  outcome run
  = Failed (WithStack (Wrapf ("failed to get datamoverbackup "
                                ++ DataMoverBackup.Namespace dmb ++ "/"
                                ++ DataMoverBackup.Name dmb) e))
  /\ exists earlier,
       trace run = (earlier ++ [EvGetDataMoverBackup (DataMoverBackup.Namespace dmb)
                                  (DataMoverBackup.Name dmb) (inl e)])%list.
Proof.
  intros Hin. pose proof request_backup_run as Hrun.
  destruct (outcome run) as [[item items] | err | why]; [ | | contradiction].
  - destruct Hrun as (earlier & live & Htrace & _ & Hall & _).
    rewrite Htrace in Hin. destruct Hin as [Hin | Hin]; [discriminate|].
    apply in_app_or in Hin. destruct Hin as [Hin | Hin].
    + now apply (pending_reads_found _ _ _ _ _ _ Hall) in Hin.
    + absent.
  - destruct Hrun as [(e' & Htrace & ->) | [(reads & Htrace & _ & Hall & ->)
                                           | (earlier & e' & Htrace & _ & Hall & ->)]];
      rewrite Htrace in Hin.
    + absent.
    + destruct Hin as [Hin | Hin]; [discriminate|].
      now apply (pending_reads_found _ _ _ _ _ _ Hall) in Hin.
    + destruct Hin as [Hin | Hin]; [discriminate|].
      apply in_app_or in Hin. destruct Hin as [Hin | Hin].
      * now apply (pending_reads_found _ _ _ _ _ _ Hall) in Hin.
      * destruct Hin as [Hin | []]. injection Hin as _ _ <-.
        split; [reflexivity|].
        exists (EvGetDatamoverClient None :: earlier). rewrite Htrace. reflexivity.
Qed.

(** X10.  The backup action on a mover-backup request only reads: its calls
    are the making of the mover client, first and once, and reads of the
    request under the namespace and name of the item, at most one per try of
    the wait; it never panics. *)
Theorem request_backup_only_reads :
  (forall ev, In ev (trace run) ->
     (exists a, ev = EvGetDatamoverClient a)
     \/ exists a, ev = EvGetDataMoverBackup (DataMoverBackup.Namespace dmb)
                         (DataMoverBackup.Name dmb) a)
  /\ (exists a reads,
        trace run = EvGetDatamoverClient a :: reads
        /\ (length reads <= S ticks)%nat
        /\ forall ev, In ev reads ->
             exists r, ev = EvGetDataMoverBackup (DataMoverBackup.Namespace dmb)
                              (DataMoverBackup.Name dmb) r)
  /\ forall why, outcome run <> Panicked why.
Proof.
  pose proof request_backup_run as Hrun.
  assert (Hshape : exists a reads,
            trace run = EvGetDatamoverClient a :: reads
            /\ (length reads <= S ticks)%nat
            /\ forall ev, In ev reads -> exists r, ev = EvGetDataMoverBackup ns name r).
  { destruct (outcome run) as [[item items] | err | why]; [ | | contradiction].
    - destruct Hrun as (earlier & live & Htrace & Hlen & Hall & _).
      exists None, (earlier ++ [EvGetDataMoverBackup ns name (inr live)])%list.
      split; [exact Htrace|]. split; [rewrite length_app; cbn; lia|].
      intros ev Hin. apply in_app_or in Hin. destruct Hin as [Hin | [<- | []]].
      + eapply pending_reads_are_reads; eassumption.
      + now eexists.
    - destruct Hrun as [(e' & Htrace & ->) | [(reads & Htrace & Hlen & Hall & ->)
                                             | (earlier & e' & Htrace & Hlen & Hall & ->)]].
      + exists (Some e'), []. split; [exact Htrace|]. split; [cbn; lia|]. intros ev [].
      + exists None, reads. split; [exact Htrace|]. split; [lia|].
        intros ev Hin. eapply pending_reads_are_reads; eassumption.
      + exists None, (earlier ++ [EvGetDataMoverBackup ns name (inl e')])%list.
        split; [exact Htrace|]. split; [rewrite length_app; cbn; lia|].
        intros ev Hin. apply in_app_or in Hin. destruct Hin as [Hin | [<- | []]].
        * eapply pending_reads_are_reads; eassumption.
        * now eexists. }
  split; [|split].
  - destruct Hshape as (a & reads & Htrace & _ & Hreads). intros ev Hin.
    rewrite Htrace in Hin. destruct Hin as [<- | Hin]; [left; now eexists|].
    right. now apply Hreads.
  - exact Hshape.
  - intros why Hpanic. now rewrite Hpanic in Hrun.
Qed.

(** X11.  When the mover client was made, the action fails with the
    time-out error only after all the tries that fit in the time-out, each
    of which read the request and found it not completed. *)
Theorem request_backup_time_out :
  In (EvGetDatamoverClient None) (trace run) ->
  outcome run = Failed (WithStack ErrWaitTimeout) ->
  exists reads,
    trace run = EvGetDatamoverClient None :: reads
    /\ length reads = S ticks
    /\ Forall (pendingRead (DataMoverBackup.Namespace dmb) (DataMoverBackup.Name dmb)) reads.
Proof.
  intros Hclient Hfailed. pose proof request_backup_run as Hrun. rewrite Hfailed in Hrun.
  destruct Hrun as [(e' & Htrace & _) | [(reads & Htrace & Hlen & Hall & _)
                                        | (earlier & e' & _ & _ & _ & Heq)]].
  - rewrite Htrace in Hclient. absent.
  - now exists reads.
  - discriminate Heq.
Qed.

End RequestBackup.

(** *** The action on an example: the mover is done, the first read ends
    the wait. *)
Lemma completed_request_is_backed_up_witness :
  outcome (exec apiServer (backupRequestItem 3) clusterBackedUp) = Done (requestBackedUp, [])
  /\ exists earlier live,
       trace (exec apiServer (backupRequestItem 3) clusterBackedUp)
       = (EvGetDatamoverClient None
          :: earlier ++ [EvGetDataMoverBackup "app" "dmb-snap-1" (inr live)])%list
       /\ DataMoverBackup.Status requestBackedUp = DataMoverBackup.Status live.
Proof.
  assert (Hdone : outcome (exec apiServer (backupRequestItem 3) clusterBackedUp)
                  = Done (requestBackedUp, [])) by (vm_compute; reflexivity).
  split; [exact Hdone|].
  destruct (@completed_request_is_backed_up exampleExternals exampleConstants Cluster apiServer
              clusterBackedUp 3 requestItem backup1 requestBackedUp [] Hdone)
    as (_ & _ & _ & _ & _ & earlier & live & Htrace & _ & _ & Hstatus).
  exists earlier, live. split; [exact Htrace | exact Hstatus].
Defined.

Lemma backed_up_status_is_annotated_witness :
  index (ObjectMeta.Annotations (DataMoverBackup.ObjectMeta requestBackedUp))
        "datamover.io/source-pvc-size" = Some "8Gi"
  /\ index (ObjectMeta.Annotations (DataMoverBackup.ObjectMeta requestBackedUp))
           "example.com/owner" = Some "team-a".
Proof.
  destruct (@backed_up_status_is_annotated exampleExternals exampleConstants Cluster apiServer
              clusterBackedUp 3 requestItem backup1 requestBackedUp [])
    as (_ & _ & Hsize & Hother).
  - discriminate.
  - discriminate.
  - discriminate.
  - vm_compute; reflexivity.
  - split; [exact Hsize|]. rewrite Hother by discriminate. reflexivity.
Defined.

(** The request is not there yet: the first read fails and so does the
    action, without a second try. *)
Lemma failed_read_ends_the_wait_witness :
  outcome (exec apiServer (backupRequestItem 3) emptyCluster)
  = Failed (WithStack (Wrapf "failed to get datamoverbackup app/dmb-snap-1"
                             (notFound "dmb-snap-1")))
  /\ length (trace (exec apiServer (backupRequestItem 3) emptyCluster)) = 2%nat.
Proof.
  destruct (@failed_read_ends_the_wait exampleExternals exampleConstants Cluster apiServer
              emptyCluster 3 requestItem backup1 "app" "dmb-snap-1" (notFound "dmb-snap-1"))
    as (Hout & _).
  - vm_compute. right. left. reflexivity.
  - split; [exact Hout | vm_compute; reflexivity].
Defined.

(** The mover never touches the request: four tries, then the time-out. *)
Lemma request_backup_time_out_witness :
  outcome (exec apiServer (backupRequestItem 3) clusterNotBackedUp)
  = Failed (WithStack ErrWaitTimeout)
  /\ length (trace (exec apiServer (backupRequestItem 3) clusterNotBackedUp)) = 5%nat.
Proof.
  assert (Hfailed : outcome (exec apiServer (backupRequestItem 3) clusterNotBackedUp)
                    = Failed (WithStack ErrWaitTimeout)) by (vm_compute; reflexivity).
  split; [exact Hfailed|].
  destruct (@request_backup_time_out exampleExternals exampleConstants Cluster apiServer
              clusterNotBackedUp 3 requestItem backup1) as (reads & Htrace & Hlen & _).
  - vm_compute. left. reflexivity.
  - exact Hfailed.
  - unfold backupRequestItem. rewrite Htrace. cbn. now rewrite Hlen.
Defined.

(** ** The content of a snapshot *)

Lemma snapshotRead_snapshot (ns name : string) (a : error + VolumeSnapshot.t) :
  snapshotRead ns name (EvGetVolumeSnapshot ns name a).
Proof. left. now exists a. Qed.

Lemma snapshotRead_content (ns name contentName : string)
    (a : error + VolumeSnapshotContent.t) :
  snapshotRead ns name (EvGetVolumeSnapshotContent contentName a).
Proof. right. now exists contentName, a. Qed.

Ltac reads :=
  repeat (apply List.Forall_cons;
          [first [apply snapshotRead_snapshot | apply snapshotRead_content]|]);
  apply List.Forall_nil.

Section ContentOfSnapshot.

Context {W : Type} (env : Environment W).
Variable volSnap : VolumeSnapshot.t.

Let ns := VolumeSnapshot.Namespace volSnap.
Let name := VolumeSnapshot.Name volSnap.
Let condition := util.contentReadyCondition volSnap.

(** One try of the wait: at most two reads; it says it is done only after
    reading the snapshot, bound, and then the content under the bound name,
    with a snapshot handle. *)
Lemma content_round (s : option VolumeSnapshotContent.t) (w : W) :
  let r := exec env (condition s) w in
  Forall (snapshotRead ns name) (trace r)
  /\ (length (trace r) <= 2)%nat
  /\ match outcome r with
     | Done (s', (true, None)) =>
         exists vs contentName content,
           trace r = [ EvGetVolumeSnapshot ns name (inr vs);
                       EvGetVolumeSnapshotContent contentName (inr content) ]
           /\ boundTo vs contentName
           /\ s' = Some content
           /\ hasSnapshotHandle content
     | Done (_, (true, Some _)) => False
     | Done (_, (false, _)) => True
     | Failed _ => False
     | Panicked _ => False
     end.
Proof.
  unfold condition, util.contentReadyCondition. cbn. fold ns. fold name.
  answer. destruct r as [e|vs]; cbn.
  { split; [reads|]. split; [lia | exact I]. }
  destruct (VolumeSnapshot.Status vs) as [status|] eqn:Hstatus; cbn.
  2:{ split; [reads|]. split; [lia | exact I]. }
  destruct (VolumeSnapshot.BoundVolumeSnapshotContentName status) as [b|] eqn:Hbound; cbn.
  2:{ split; [reads|]. split; [lia | exact I]. }
  answer. destruct r as [e|content]; cbn.
  { split; [reads|]. split; [lia | exact I]. }
  destruct (VolumeSnapshotContent.Status content) as [cs|] eqn:Hcs; cbn.
  2:{ split; [reads|]. split; [lia | exact I]. }
  destruct (VolumeSnapshotContent.StatusSnapshotHandle cs) as [h|] eqn:Hh; cbn.
  2:{ split; [reads|]. split; [lia | exact I]. }
  split; [reads|]. split; [lia|].
  exists vs, b, content. split; [reflexivity|].
  split; [now exists status|]. split; [reflexivity | now exists cs, h].
Qed.

(** The wait: at most two reads for each try; it ends without an error only
    with a try that says it is done. *)
Lemma content_poll (ticks : nat) (s : option VolumeSnapshotContent.t) (w : W) :
  let r := exec env (PollImmediateWith ticks condition s) w in
  Forall (snapshotRead ns name) (trace r)
  /\ (length (trace r) <= 2 * S ticks)%nat
  /\ match outcome r with
     | Done (s', None) =>
         exists earlier vs contentName content,
           trace r = (earlier ++ [ EvGetVolumeSnapshot ns name (inr vs);
                                   EvGetVolumeSnapshotContent contentName (inr content) ])%list
           /\ boundTo vs contentName
           /\ s' = Some content
           /\ hasSnapshotHandle content
     | Done (_, Some _) => True
     | Failed _ => False
     | Panicked _ => False
     end.
Proof.
  revert s w. induction ticks as [|n IH]; intros s w; cbn zeta;
    cbn [PollImmediateWith]; rewrite exec_bind;
    destruct (content_round s w) as (Hreads & Hlen & Hout); cbn zeta in Hreads, Hlen, Hout;
    destruct (exec env (condition s) w) as [t o w']; cbn [trace outcome final] in *;
    destruct o as [[s' [done [e|]]] | e | why]; try contradiction; cbn;
    try (split; [rewrite app_nil_r; exact Hreads|];
         split; [rewrite app_nil_r; lia | exact I]);
    destruct done; cbn;
    try (destruct Hout as (vs & b & content & -> & Hbound & -> & Hhandle);
         split; [exact Hreads|]; split; [cbn; lia|];
         exists [], vs, b, content; now repeat split).
  - split; [rewrite app_nil_r; exact Hreads|]. split; [rewrite app_nil_r; lia | exact I].
  - destruct (IH s' w') as (Hreads' & Hlen' & Hout'). cbn zeta in Hreads', Hlen', Hout'.
    destruct (exec env (PollImmediateWith n condition s') w') as [t' o' w''].
    cbn [trace outcome final] in *. cbn.
    split; [apply Forall_app; now split|].
    split; [rewrite length_app; lia|].
    destruct o' as [[s'' [e|]] | e | why]; try contradiction; [exact I|].
    destruct Hout' as (earlier & vs & b & content & -> & Hbound & -> & Hhandle).
    exists (t ++ earlier)%list, vs, b, content. rewrite app_assoc. now repeat split.
Qed.

Variables (ticks : nat) (shouldWait : bool) (w : W).

Let run := exec env (util.GetVolumeSnapshotContentForVolumeSnapshot ticks volSnap shouldWait) w.


(** X13.  Looking up the content of a snapshot only reads: every call is a
    read of the snapshot under the namespace and name of the one passed in,
    or a read of a content; with the wait there are at most two calls for
    each try that fits in the time-out, without it at most one. *)
Theorem content_lookup_only_reads :
  Forall (snapshotRead (VolumeSnapshot.Namespace volSnap) (VolumeSnapshot.Name volSnap))
         (trace run)
  /\ (length (trace run) <= if shouldWait then 2 * S ticks else 1)%nat.
Proof.
  unfold run, util.GetVolumeSnapshotContentForVolumeSnapshot.
  destruct shouldWait; cbn [negb].
  - rewrite exec_bind. fold condition.
    destruct (content_poll ticks None w) as (Hreads & Hlen & Hout).
    cbn zeta in Hreads, Hlen, Hout.
    destruct (exec env (PollImmediateWith ticks condition None) w) as [t o w'].
    cbn [trace outcome final] in *.
    destruct o as [[s' [e|]] | e | why]; try contradiction; cbn;
      rewrite app_nil_r; now split.
  - destruct (VolumeSnapshot.Status volSnap) as [status|]; cbn;
      [|split; [apply List.Forall_nil | lia]].
    destruct (VolumeSnapshot.BoundVolumeSnapshotContentName status) as [b|]; cbn;
      [|split; [apply List.Forall_nil | lia]].
    answer. destruct r as [e|content]; cbn; (split; [reads | lia]).
Qed.

End ContentOfSnapshot.

(** The mover's snapshot on the cluster it has left: the first try of the
    wait returns its content. *)
Example content_of_moved_snapshot :
  outcome (exec apiServer (util.GetVolumeSnapshotContentForVolumeSnapshot 3 volsyncSnapshot true)
             (clusterMoved "mssql-pvc"))
  = Done (Some volsyncContent)
  /\ outcome (exec apiServer
                 (util.GetVolumeSnapshotContentForVolumeSnapshot 3 volsyncSnapshot true)
                 emptyCluster)
     = Failed (Wrapf "failed to get volumesnapshot openshift-adp/volsync-snap"
                     (notFound "volsync-snap")).
Proof. split; vm_compute; reflexivity. Qed.

(** ** The restore action on snapshot contents *)

Section ContentRestore.

Context `{Externals} `{Platform} `{Constants}.
Context {W : Type} (env : Environment W) (w : W).
Variable input : restore.VolumeSnapshotContentRestoreItemAction.Input.

Let run := exec env (restore.VolumeSnapshotContentRestoreItemAction.Execute input) w.
Let item := velero.Item (restore.VolumeSnapshotContentRestoreItemAction.Base input).

(** X14.  In mover mode, or when the restore says that volumes are not to
    be restored, the restore action on a content skips it: it returns the
    skip output, with no item and no additional items, without a call and
    without looking at the item, so also for an item that does not convert
    to a content. *)
Theorem content_restore_skips :
  util.DataMoverCase = true
  \/ restore.VolumeSnapshotContentRestoreItemAction.RestorePVs input = Some false ->
  trace run = []
  /\ exists out,
       outcome run = Done out
       /\ velero.SkipRestore out = true
       /\ velero.UpdatedItem out = None
       /\ velero.AdditionalItems out = [].
Proof.
  unfold run, restore.VolumeSnapshotContentRestoreItemAction.Execute.
  intros [-> | ->]; cbn.
  - split; [reflexivity|]. eexists. now repeat split.
  - destruct util.DataMoverCase; cbn; (split; [reflexivity|]; eexists; now repeat split).
Qed.

(** X15.  Otherwise the restore action on a content returns the content as
    it is, makes no call, and asks for one secret to be restored with it
    exactly when the annotations of the content hold both snapshotter-secret
    keys; the name and the namespace of that secret are read from the two
    annotations that velero records for deletion, and are empty when the
    content does not have them. *)
Theorem content_restore_secret (snapCont : VolumeSnapshotContent.t) :
  util.DataMoverCase = false ->
  restore.VolumeSnapshotContentRestoreItemAction.RestorePVs input <> Some false ->
  item = inr snapCont ->
  let annotations := ObjectMeta.Annotations (VolumeSnapshotContent.ObjectMeta snapCont) in
  trace run = []
  /\ exists out,
       outcome run = Done out
       /\ velero.SkipRestore out = false
       /\ velero.UpdatedItem out = Some snapCont
       /\ ((index annotations PrefixedSnapshotterSecretNameKey <> None
            /\ index annotations PrefixedSnapshotterSecretNamespaceKey <> None) ->
           velero.AdditionalItems out
           = [ {| velero.GroupResource_ := {| velero.Group := ""; velero.Resource := "secrets" |};
                  velero.Namespace :=
                    default "" (index annotations CSIDeleteSnapshotSecretNamespace);
                  velero.Name := default "" (index annotations CSIDeleteSnapshotSecretName) |} ])
       /\ ((index annotations PrefixedSnapshotterSecretNameKey = None
            \/ index annotations PrefixedSnapshotterSecretNamespaceKey = None) ->
           velero.AdditionalItems out = []).
Proof.
  unfold run, item, restore.VolumeSnapshotContentRestoreItemAction.Execute.
  intros -> Hpvs ->. cbn zeta.
  assert (Hset : IsSetToFalse (restore.VolumeSnapshotContentRestoreItemAction.RestorePVs input)
                 = false).
  { destruct (restore.VolumeSnapshotContentRestoreItemAction.RestorePVs input) as [[|]|];
      cbn; congruence. }
  rewrite Hset. cbn. split; [reflexivity|]. eexists. split; [reflexivity|]. cbn.
  split; [reflexivity|]. split; [reflexivity|].
  unfold util.IsVolumeSnapshotContentHasDeleteSecret. cbn zeta.
  destruct (index _ PrefixedSnapshotterSecretNameKey) as [n|];
    destruct (index _ PrefixedSnapshotterSecretNamespaceKey) as [ns|];
    rewrite ?bool_decide_eq_true_2 by eauto;
    rewrite ?(bool_decide_eq_false_2 (is_Some None)) by (intros [? ?]; discriminate);
    cbn; split; try reflexivity; intuition congruence.
Qed.

End ContentRestore.

Lemma content_restore_skips_witness :
  outcome (exec apiServer
             (@restore.VolumeSnapshotContentRestoreItemAction.Execute
                exampleExternals examplePlatform exampleConstants
                (restoreContentInput (inl (OtherError "not a content")) (Some false)))
             emptyCluster)
  = Done restore.VolumeSnapshotContentRestoreItemAction.skip.
Proof.
  destruct (@content_restore_skips exampleExternals examplePlatform exampleConstants
              Cluster apiServer emptyCluster
              (restoreContentInput (inl (OtherError "not a content")) (Some false)))
    as (_ & out & Hout & _).
  - right. reflexivity.
  - vm_compute. reflexivity.
Defined.

(** The snapshotter's secret is named, the secret recorded for deletion is
    not: the secret asked for has an empty name and namespace. *)
Lemma content_restore_secret_witness :
  exists out,
    outcome (exec apiServer
               (@restore.VolumeSnapshotContentRestoreItemAction.Execute
                  exampleExternals examplePlatform exampleConstants
                  (restoreContentInput (inr contentWithSecret) None))
               emptyCluster) = Done out
    /\ velero.AdditionalItems out
       = [ {| velero.GroupResource_ := {| velero.Group := ""; velero.Resource := "secrets" |};
              velero.Namespace := "";
              velero.Name := "" |} ].
Proof.
  destruct (@content_restore_secret exampleExternals examplePlatform exampleConstants
              Cluster apiServer emptyCluster
              (restoreContentInput (inr contentWithSecret) None) contentWithSecret)
    as (_ & out & Hout & _ & _ & Hsecret & _).
  - reflexivity.
  - discriminate.
  - reflexivity.
  - exists out. split; [exact Hout|]. rewrite Hsecret; [reflexivity|].
    split; vm_compute; discriminate.
Defined.

(** ** The restore orchestrator, further *)

Section RestoreRequest.

Context `{Externals}.
Context {W : Type} (env : Environment W) (w : W).
Variable ticks : nat.
Variable dmb : DataMoverBackup.t.
Variable restore_ : velero.Restore.

Let annotations := DataMoverBackup.Annotations dmb.
Let run :=
  exec env
    (restore.DataMoverRestoreItemAction.Execute ticks
       {| velero.Item := inr dmb; velero.Restore_ := restore_ |}) w.

(** What the restore request is made of. *)
Lemma restore_request_fields dmr a :
  In (EvCreateDataMoverRestore dmr a) (trace run) ->
  DataMoverRestore.Name dmr = "dmr-" ++ index_string annotations DatamoverSourcePVCName
  /\ DataMoverRestore.DataMoverBackupref (DataMoverRestore.Spec dmr)
     = {| DMBRef.BackedUpPVCData :=
            {| PVCData.Name := index_string annotations DatamoverSourcePVCName;
               PVCData.Size := index_string annotations DatamoverSourcePVCSize |};
          DMBRef.ResticRepository := index_string annotations DatamoverResticRepository |}.
Proof.
  unfold run, restore.DataMoverRestoreItemAction.Execute. cbn. fold annotations.
  answer. destruct r as [e|]; cbn; [intros Hin; absent|].
  answer. destruct r as [e|]; cbn.
  { intros Hin. absent. injection Hin as <- _. now split. }
  unfold util.IsDataMoverRestoreCompleted. cbn.
  answer. destruct r as [e|]; cbn.
  { intros Hin. absent. injection Hin as <- _. now split. }
  answer. destruct r as [e|]; cbn.
  { intros Hin. absent. injection Hin as <- _. now split. }
  rewrite !exec_bind.
  destruct (poll_completed env (DataMoverBackup.Namespace dmb)
              ("dmr-" ++ index_string annotations DatamoverSourcePVCName)
              (DataMoverBackup.ProtectedNamespace (DataMoverBackup.Spec dmb)) ticks w3)
    as (_ & Hcreate & _).
  cbn zeta in Hcreate.
  set (poll := exec env (PollImmediate ticks _) w3) in *.
  destruct (outcome poll) as [[e|] | e | why]; cbn; rewrite ?app_nil_r;
    intros [Hin | [Hin | [Hin | [Hin | Hin]]]]; try discriminate Hin;
    try (injection Hin as <- _; now split);
    exfalso; eapply Hcreate; exact Hin.
Qed.

(** X17.  The error that says the restore never completed is not one the
    restore orchestrator makes: when it fails, the error is the one of the
    first making of the mover client, handed on as it is, or an error
    wrapped by the orchestrator (a failed create, or an error with a stack:
    a later client, a failed read of the request, or the time-out). *)
Theorem orchestrator_failures (e : error) :
  outcome run = Failed e ->
  trace run = [EvGetDatamoverClient (Some e)]
  \/ (exists cause, e = Wrapf "error creating datamoverrestore CR" cause)
  \/ (exists cause, e = WithStack cause).
Proof.
  unfold run, restore.DataMoverRestoreItemAction.Execute. cbn. fold annotations.
  answer. destruct r as [e0|]; cbn.
  { intros [= ->]. now left. }
  answer. destruct r as [e0|]; cbn.
  { intros [= <-]. right. left. now eexists. }
  unfold util.IsDataMoverRestoreCompleted. cbn.
  answer. destruct r as [e0|]; cbn.
  { intros [= <-]. right. right. now eexists. }
  answer. destruct r as [e0|]; cbn.
  { intros [= <-]. right. right. now eexists. }
  rewrite !exec_bind.
  destruct (poll_completed env (DataMoverBackup.Namespace dmb)
              ("dmr-" ++ index_string annotations DatamoverSourcePVCName)
              (DataMoverBackup.ProtectedNamespace (DataMoverBackup.Spec dmb)) ticks w3)
    as (_ & _ & Hout).
  cbn zeta in Hout.
  set (poll := exec env (PollImmediate ticks _) w3) in *.
  destruct (outcome poll) as [[e0|] | e0 | why]; cbn; try contradiction;
    try discriminate.
  intros [= <-]. right. right. now eexists.
Qed.

End RestoreRequest.

(** No mover in the cluster: the wait runs out and the orchestrator fails
    with the time-out, with a stack. *)
Lemma orchestrator_failures_witness :
  outcome (exec apiServer (restoreMoverItem 2) emptyCluster) = Failed (WithStack ErrWaitTimeout)
  /\ (exists cause, WithStack ErrWaitTimeout = WithStack cause).
Proof.
  assert (Hfailed : outcome (exec apiServer (restoreMoverItem 2) emptyCluster)
                    = Failed (WithStack ErrWaitTimeout)) by (vm_compute; reflexivity).
  split; [exact Hfailed|].
  destruct (@orchestrator_failures exampleExternals Cluster apiServer emptyCluster 2
              moverItem restore1 (WithStack ErrWaitTimeout) Hfailed)
    as [Htrace | [(cause & Hcause) | Hstack]].
  - vm_compute in Htrace. discriminate Htrace.
  - discriminate Hcause.
  - exact Hstack.
Defined.

(** X16.  What the backup action records is what the restore orchestrator
    asks the mover to restore: the restore request made from an item that
    the backup action on mover-backup requests returned carries the restic
    repository, the name of the source claim and its size of the status that
    item had at backup, and is named [dmr-] and the name of the source
    claim.  (The three annotation keys differ.) *)
Theorem recorded_status_is_restored `{Externals} `{Constants} {W W' : Type}
    (env : Environment W) (w : W) (env' : Environment W') (w' : W')
    (ticks ticks' : nat) (dmb item : DataMoverBackup.t)
    (items : list velero.ResourceIdentifier)
    (backup_ : velero.Backup) (restore_ : velero.Restore)
    (dmr : DataMoverRestore.t) (a : option error) :
  DatamoverResticRepository <> DatamoverSourcePVCName ->
  DatamoverResticRepository <> DatamoverSourcePVCSize ->
  DatamoverSourcePVCName <> DatamoverSourcePVCSize ->
  outcome (exec env (backup.DataMoverBackupItemAction.Execute ticks (inr dmb) backup_) w)
  = Done (item, items) ->
  In (EvCreateDataMoverRestore dmr a)
     (trace (exec env'
               (restore.DataMoverRestoreItemAction.Execute ticks'
                  {| velero.Item := inr item; velero.Restore_ := restore_ |}) w')) ->
  let status := DataMoverBackup.Status item in
  let ref := DataMoverRestore.DataMoverBackupref (DataMoverRestore.Spec dmr) in
  DMBRef.ResticRepository ref = DataMoverBackup.ResticRepository status
  /\ PVCData.Name (DMBRef.BackedUpPVCData ref) = PVCData.Name (DataMoverBackup.SourcePVCData status)
  /\ PVCData.Size (DMBRef.BackedUpPVCData ref) = PVCData.Size (DataMoverBackup.SourcePVCData status)
  /\ DataMoverRestore.Name dmr = "dmr-" ++ PVCData.Name (DataMoverBackup.SourcePVCData status).
Proof.
  intros Hrn Hrs Hns Hdone Hin.
  pose proof (request_backup_run env w ticks dmb backup_) as Hrun.
  cbn zeta in Hrun. rewrite Hdone in Hrun.
  destruct Hrun as (earlier & live & _ & _ & _ & _ & -> & _).
  apply restore_request_fields in Hin. destruct Hin as (Hname & Href).
  cbn zeta. rewrite Hname, Href. cbn.
  unfold index_string, DataMoverBackup.Annotations. cbn.
  rewrite !assignAll_lookup. cbn.
  rewrite lookup_insert_eq.
  rewrite (lookup_insert_ne _ DatamoverResticRepository DatamoverSourcePVCName) by exact Hrn.
  rewrite lookup_insert_eq.
  rewrite (lookup_insert_ne _ DatamoverResticRepository DatamoverSourcePVCSize) by exact Hrs.
  rewrite (lookup_insert_ne _ DatamoverSourcePVCName DatamoverSourcePVCSize) by exact Hns.
  rewrite lookup_singleton_eq. cbn. now repeat split.
Qed.

(** The item of the example, backed up and then restored on a cluster whose
    mover is done on the third try. *)
Lemma recorded_status_is_restored_witness :
  In (EvCreateDataMoverRestore (restoreRequest "mssql-pvc") None)
     (trace (exec (moverDoneAfter 8)
               (@restore.DataMoverRestoreItemAction.Execute exampleExternals 60
                  {| velero.Item := inr requestBackedUp; velero.Restore_ := restore1 |})
               (0%nat, emptyCluster)))
  /\ DataMoverRestore.Name (restoreRequest "mssql-pvc")
     = "dmr-" ++ PVCData.Name (DataMoverBackup.SourcePVCData
                                 (DataMoverBackup.Status requestBackedUp)).
Proof.
  assert (Hin : In (EvCreateDataMoverRestore (restoreRequest "mssql-pvc") None)
                   (trace (exec (moverDoneAfter 8)
                             (@restore.DataMoverRestoreItemAction.Execute exampleExternals 60
                                {| velero.Item := inr requestBackedUp;
                                   velero.Restore_ := restore1 |})
                             (0%nat, emptyCluster))))
    by (vm_compute; right; left; reflexivity).
  split; [exact Hin|].
  destruct (@recorded_status_is_restored exampleExternals exampleConstants Cluster (nat * Cluster)
              apiServer clusterBackedUp (moverDoneAfter 8) (0%nat, emptyCluster)
              3 60 requestItem requestBackedUp [] backup1 restore1
              (restoreRequest "mssql-pvc") None)
    as (_ & _ & _ & Hname); try discriminate.
  - vm_compute; reflexivity.
  - exact Hin.
  - exact Hname.
Defined.

(** ** The claim rewrite, further *)

Lemma setPVCStorageResourceRequest_meta (pvc : PersistentVolumeClaim.t) (Y : Quantity) :
  PersistentVolumeClaim.ObjectMeta
    (restore.PVCRestoreItemAction.setPVCStorageResourceRequest pvc Y)
  = PersistentVolumeClaim.ObjectMeta pvc.
Proof.
  unfold restore.PVCRestoreItemAction.setPVCStorageResourceRequest.
  destruct (_ !! ResourceStorage) as [x|]; [destruct (Cmp x Y <? 0)|]; reflexivity.
Qed.

(** X20.  Setting the storage request of a claim to a restore size twice is
    the same as setting it once, and the claim keeps its metadata, its
    volume name and its data source. *)
Theorem setPVCStorageResourceRequest_idempotent (pvc : PersistentVolumeClaim.t) (Y : Quantity) :
  let pvc' := restore.PVCRestoreItemAction.setPVCStorageResourceRequest pvc Y in
  restore.PVCRestoreItemAction.setPVCStorageResourceRequest pvc' Y = pvc'
  /\ PersistentVolumeClaim.ObjectMeta pvc' = PersistentVolumeClaim.ObjectMeta pvc
  /\ PersistentVolumeClaim.VolumeName (PersistentVolumeClaim.Spec pvc')
     = PersistentVolumeClaim.VolumeName (PersistentVolumeClaim.Spec pvc)
  /\ PersistentVolumeClaim.DataSource (PersistentVolumeClaim.Spec pvc')
     = PersistentVolumeClaim.DataSource (PersistentVolumeClaim.Spec pvc).
Proof.
  cbn zeta. split; [|split; [apply setPVCStorageResourceRequest_meta|]].
  - remember (restore.PVCRestoreItemAction.setPVCStorageResourceRequest pvc Y) as pvc' eqn:Hpvc'.
    unfold restore.PVCRestoreItemAction.setPVCStorageResourceRequest in Hpvc'.
    destruct (_ !! ResourceStorage) as [x|] eqn:Hx in Hpvc';
      [destruct (Cmp x Y <? 0) eqn:Hcmp in Hpvc'|]; subst pvc';
      unfold restore.PVCRestoreItemAction.setPVCStorageResourceRequest; cbn.
    + rewrite lookup_insert_eq, Cmp_refl. cbn. reflexivity.
    + rewrite Hx, Hcmp. reflexivity.
    + rewrite lookup_insert_eq, Cmp_refl. cbn. reflexivity.
  - unfold restore.PVCRestoreItemAction.setPVCStorageResourceRequest.
    destruct (_ !! ResourceStorage) as [x|]; [destruct (Cmp x Y <? 0)|]; now split.
Qed.

Section ClaimRewriteEdges.

Context `{Externals}.
Context {W : Type} (env : Environment W) (w : W).
Variable pvc : PersistentVolumeClaim.t.
Variable restore_ : velero.Restore.

Let run :=
  exec env
    (restore.PVCRestoreItemAction.Execute
       {| velero.Item := inr pvc; velero.Restore_ := restore_ |}) w.

Let prepared := preparedClaim pvc restore_.

(** The namespace the claim is restored into. *)
Let target : string :=
  match index (velero.NamespaceMapping restore_) (PersistentVolumeClaim.Namespace pvc) with
  | Some val => val
  | None => PersistentVolumeClaim.Namespace pvc
  end.

Lemma prepared_names :
  PersistentVolumeClaim.Namespace prepared = target
  /\ PersistentVolumeClaim.Name prepared = PersistentVolumeClaim.Name pvc.
Proof.
  unfold prepared, preparedClaim, target, restore.PVCRestoreItemAction.removePVCAnnotations.
  destruct (PersistentVolumeClaim.Annotations pvc); cbn;
    destruct (index (velero.NamespaceMapping restore_) _); cbn; now split.
Qed.

(** X18.  The claim rewrite follows the namespace mapping of the restore:
    when the mapping has an entry for the namespace of the claim, the
    restore request is read in the namespace the entry gives, not in the one
    of the claim, and the returned claim is in that namespace; with no entry
    both are the namespace of the claim.  The name of the claim is kept. *)
Theorem claim_follows_namespace_mapping :
  (forall ns name r, In (EvGetDataMoverRestore ns name r) (trace run) -> ns = target)
  /\ (forall out,
        outcome run = Done out ->
        exists pvc',
          velero.UpdatedItem out = Some pvc'
          /\ PersistentVolumeClaim.Namespace pvc' = target
          /\ PersistentVolumeClaim.Name pvc' = PersistentVolumeClaim.Name pvc).
Proof.
  destruct prepared_names as (Hns & Hname). revert Hns Hname.
  unfold run, restore.PVCRestoreItemAction.Execute. cbn. fold prepared.
  intros Hns Hname. split.
  - intros ns name r. repeat follow; intros Hin; absent;
      injection Hin as <- _ _; exact Hns.
  - intros out. repeat follow; intros Hdone; try discriminate Hdone.
    injection Hdone as <-. cbn. eexists. split; [reflexivity|].
    unfold PersistentVolumeClaim.Namespace, PersistentVolumeClaim.Name. cbn.
    rewrite setPVCStorageResourceRequest_meta. now split.
Qed.

(** X19.  The claim rewrite takes the latest image of the replication
    destination it has read without a check: when that destination has no
    status, or a status without a latest image (it has not synced yet), the
    rewrite panics instead of returning an error. *)
Theorem claim_rewrite_unsynced_panics ns name (rd : ReplicationDestination.t) :
  In (EvGetReplicationDestination ns name (inr rd)) (trace run) ->
  ReplicationDestination.Status rd = None
  \/ (exists status, ReplicationDestination.Status rd = Some status
                     /\ ReplicationDestination.LatestImage status = None) ->
  exists why, outcome run = Panicked why.
Proof.
  unfold run, restore.PVCRestoreItemAction.Execute. cbn. fold prepared.
  answer. destruct r as [e|]; cbn; [intros Hin; absent|].
  answer. destruct r as [e|dmr]; cbn; [intros Hin; absent|].
  answer. destruct r as [e|]; cbn; [intros Hin; absent|].
  answer. destruct r as [e|rd']; cbn; [intros Hin; absent|].
  intros Hin Hunsynced.
  assert (rd' = rd) as ->.
  { destruct (ReplicationDestination.Status rd') as [st|]; cbn in Hin;
      [destruct (ReplicationDestination.LatestImage st); cbn in Hin;
       [destruct (MustParse _); cbn in Hin|]|];
      absent; now injection Hin as _ _ ->. }
  clear Hin.
  destruct Hunsynced as [-> | (status & -> & Himage)]; cbn; [now eexists|].
  rewrite Himage. cbn. now eexists.
Qed.

End ClaimRewriteEdges.

(** The request of [mssql-pvc] is there, its destination has not synced. *)
Lemma claim_rewrite_unsynced_panics_witness :
  exists why,
    outcome (exec apiServer (restoreClaim (claim "mssql-pvc" (Gi 5)))
               (clusterRestoring "mssql-pvc")) = Panicked why.
Proof.
  apply (@claim_rewrite_unsynced_panics exampleExternals Cluster apiServer
           (clusterRestoring "mssql-pvc") (claim "mssql-pvc" (Gi 5)) restore1
           "openshift-adp" "dmr-mssql-pvc-rep-dest" (freshDestination "dmr-mssql-pvc-rep-dest")).
  - vm_compute. do 3 right. left. reflexivity.
  - left. reflexivity.
Defined.

(** The claim of [legacy] restored into [app], where the mover has put the
    restore request. *)
Lemma claim_follows_namespace_mapping_witness :
  exists out pvc',
    outcome (exec apiServer
               (@restore.PVCRestoreItemAction.Execute exampleExternals
                  {| velero.Item := inr legacyClaim; velero.Restore_ := restoreMapped |})
               (clusterRestored "mssql-pvc")) = Done out
    /\ velero.UpdatedItem out = Some pvc'
    /\ PersistentVolumeClaim.Namespace pvc' = "app".
Proof.
  destruct (@claim_follows_namespace_mapping exampleExternals Cluster apiServer
              (clusterRestored "mssql-pvc") legacyClaim restoreMapped) as (_ & Hout).
  eexists. 
  destruct (Hout _ ltac:(vm_compute; reflexivity)) as (pvc' & Hitem & Hns & _).
  exists pvc'. split; [vm_compute; reflexivity|]. split; [exact Hitem | exact Hns].
Defined.

(** ** The snapshot rewrite, further *)

Section LaterSnapshotRewrite.

Context `{Externals}.
Context {W : Type} (env : Environment W) (w : W).
Variable vs : VolumeSnapshot.t.
Variable restore_ : velero.Restore.

Let input : velero.RestoreItemActionExecuteInput VolumeSnapshot.t :=
  {| velero.Item := inr vs; velero.Restore_ := restore_ |}.
Let run := exec env (restore.VolumeSnapshotRestoreItemAction_vsr.Execute input) w.

(** X21.  When the snapshot is in the cluster already (the read under its
    namespace and name finds one), the later snapshot rewrite creates no
    content and returns the snapshot as it was passed in, with no additional
    items: running the rewrite again does not bind the snapshot again. *)
Theorem existing_snapshot_is_left_alone ns name (live : VolumeSnapshot.t) :
  In (EvGetVolumeSnapshot ns name (inr live)) (trace run) ->
  outcome run = Done {| velero.UpdatedItem := Some vs;
                        velero.AdditionalItems := [];
                        velero.SkipRestore := false |}
  /\ forall vsc r, ~ In (EvCreateVolumeSnapshotContent vsc r) (trace run).
Proof.
  unfold run, restore.VolumeSnapshotRestoreItemAction_vsr.Execute, util.IsVolumeSnapshotExists,
    restore.VolumeSnapshotRestoreItemAction_vsr.resetVolumeSnapshotAnnotation. cbn.
  repeat follow; intros Hin; absent.
  split; [reflexivity|]. intros vsc a Hc. absent.
Qed.

(** X22.  The later snapshot rewrite panics in one case only: the mover
    client was made and the snapshot names no claim as its source.  In
    particular the write of the deletion-policy annotation never meets a nil
    annotations map, since it is reached only after the driver annotation
    was found. *)
Theorem later_rewrite_panics_iff :
  (exists why, outcome run = Panicked why)
  <-> (In (EvGetVolumeSnapshotMoverClient None) (trace run)
       /\ VolumeSnapshot.PersistentVolumeClaimName (VolumeSnapshot.Spec_Source vs) = None).
Proof.
  unfold run, restore.VolumeSnapshotRestoreItemAction_vsr.Execute, util.IsVolumeSnapshotExists,
    restore.VolumeSnapshotRestoreItemAction_vsr.resetVolumeSnapshotAnnotation. cbn.
  answer. destruct r as [e|]; cbn.
  { split; [intros (why & Hp); discriminate | intros (Hin & _); absent]. }
  destruct (VolumeSnapshot.PersistentVolumeClaimName (VolumeSnapshot.Spec_Source vs))
    as [claimName|] eqn:Hclaim; cbn.
  2:{ split; [intros _; split; [left; reflexivity | reflexivity]
             | intros _; eexists; reflexivity]. }
  split; [|intros (_ & Hnone); discriminate].
  intros (why & Hp). exfalso. revert Hp.
  answer. destruct r as [e|vsr]; cbn; [discriminate|].
  answer. destruct r as [e|]; cbn; [discriminate|].
  answer. destruct r as [e|live]; cbn; [|discriminate].
  destruct (index (VolumeSnapshot.Annotations vs) CSIDriverNameAnnotation) as [d|] eqn:Hd;
    cbn; [|discriminate].
  answer. destruct r as [e'|vscupd]; cbn; [discriminate|].
  unfold VolumeSnapshot.Annotations in *. cbn.
  destruct (ObjectMeta.Annotations (VolumeSnapshot.ObjectMeta vs)); cbn; discriminate.
Qed.

(** What the later rewrite creates. *)
Lemma later_created_content vsc r :
  In (EvCreateVolumeSnapshotContent vsc r) (trace run) ->
  ObjectMeta.Labels (VolumeSnapshotContent.ObjectMeta vsc)
  = Some {[ RestoreNameLabel :=
              GetValidName (ObjectMeta.Name (velero.Restore_ObjectMeta restore_)) ]}
  /\ VolumeSnapshotContent.VolumeSnapshotRef (VolumeSnapshotContent.Spec vsc)
     = {| ObjectReference.Kind := "VolumeSnapshot";
          ObjectReference.Namespace := VolumeSnapshot.Namespace vs;
          ObjectReference.Name := VolumeSnapshot.Name vs |}
  /\ index (VolumeSnapshot.Annotations vs) CSIDriverNameAnnotation
     = Some (VolumeSnapshotContent.Driver (VolumeSnapshotContent.Spec vsc))
  /\ exists ns name vsr,
       In (EvGetVolumeSnapshotRestore ns name (inr vsr)) (trace run)
       /\ VolumeSnapshotContent.Source_ (VolumeSnapshotContent.Spec vsc)
          = {| VolumeSnapshotContent.VolumeHandle := None;
               VolumeSnapshotContent.SnapshotHandle :=
                 Some (VolumeSnapshotRestore.SnapshotHandle
                         (VolumeSnapshotRestore.Status vsr)) |}.
Proof.
  unfold run, restore.VolumeSnapshotRestoreItemAction_vsr.Execute, util.IsVolumeSnapshotExists,
    restore.VolumeSnapshotRestoreItemAction_vsr.resetVolumeSnapshotAnnotation. cbn.
  repeat follow; intros Hin; absent; injection Hin as <- _; cbn;
    (split; [reflexivity|]); (split; [reflexivity|]); (split; [reflexivity|]);
    eexists _, _, _; (split; [right; left; reflexivity | reflexivity]).
Qed.

(** X24.  Every content that the later snapshot rewrite creates is linked
    back to the snapshot being restored (its reference is a VolumeSnapshot
    with the namespace and name of that snapshot), has as source the
    snapshot handle of the restore request that the rewrite has read and no
    volume handle, has the driver that the snapshot carries in its driver
    annotation, and is created only after the read of the snapshot in the
    cluster has failed. *)
Theorem created_content_is_bound_back vsc r :
  In (EvCreateVolumeSnapshotContent vsc r) (trace run) ->
  VolumeSnapshotContent.VolumeSnapshotRef (VolumeSnapshotContent.Spec vsc)
  = {| ObjectReference.Kind := "VolumeSnapshot";
       ObjectReference.Namespace := VolumeSnapshot.Namespace vs;
       ObjectReference.Name := VolumeSnapshot.Name vs |}
  /\ index (VolumeSnapshot.Annotations vs) CSIDriverNameAnnotation
     = Some (VolumeSnapshotContent.Driver (VolumeSnapshotContent.Spec vsc))
  /\ (exists ns name vsr,
        In (EvGetVolumeSnapshotRestore ns name (inr vsr)) (trace run)
        /\ VolumeSnapshotContent.Source_ (VolumeSnapshotContent.Spec vsc)
           = {| VolumeSnapshotContent.VolumeHandle := None;
                VolumeSnapshotContent.SnapshotHandle :=
                  Some (VolumeSnapshotRestore.SnapshotHandle
                          (VolumeSnapshotRestore.Status vsr)) |})
  /\ exists e, In (EvGetVolumeSnapshot (VolumeSnapshot.Namespace vs) (VolumeSnapshot.Name vs)
                     (inl e)) (trace run).
Proof.
  intros Hin. destruct (later_created_content vsc r Hin) as (_ & Href & Hdriver & Hsource).
  split; [exact Href|]. split; [exact Hdriver|]. split; [exact Hsource|].
  revert Hin.
  unfold run, restore.VolumeSnapshotRestoreItemAction_vsr.Execute, util.IsVolumeSnapshotExists,
    restore.VolumeSnapshotRestoreItemAction_vsr.resetVolumeSnapshotAnnotation. cbn.
  repeat follow; intros Hin; absent;
    eexists; do 3 right; left; reflexivity.
Qed.

End LaterSnapshotRewrite.

Section OlderSnapshotRewrite.

Context `{Externals}.
Context {W : Type} (env : Environment W) (w : W).
Variable vs : VolumeSnapshot.t.
Variable restore_ : velero.Restore.

Let input : velero.RestoreItemActionExecuteInput VolumeSnapshot.t :=
  {| velero.Item := inr vs; velero.Restore_ := restore_ |}.

Lemma older_created_labels vsc r :
  In (EvCreateVolumeSnapshotContent vsc r)
     (trace (exec env (restore.VolumeSnapshotRestoreItemAction.Execute input) w)) ->
  ObjectMeta.Labels (VolumeSnapshotContent.ObjectMeta vsc)
  = Some {[ RestoreNameLabel :=
              GetValidName (ObjectMeta.Name (velero.Restore_ObjectMeta restore_)) ]}.
Proof.
  unfold restore.VolumeSnapshotRestoreItemAction.Execute, util.GetVolSyncSnapContent. cbn.
  repeat follow; intros Hin; absent; injection Hin as <- _; reflexivity.
Qed.

End OlderSnapshotRewrite.

(** A content that carries the restore-name label only is owned by no
    backup. *)
Lemma restore_label_is_no_backup_label `{Externals} (o : ObjectMeta.t) (v backupName : string) :
  ObjectMeta.Labels o = Some {[ RestoreNameLabel := v ]} ->
  util.HasBackupLabel o backupName = false.
Proof.
  intros Hlabels. unfold util.HasBackupLabel, index_string, index. rewrite Hlabels.
  destruct (String.length (TrimSpace backupName) =? 0)%nat eqn:Hblank; [reflexivity|].
  rewrite lookup_singleton_ne by discriminate. cbn.
  destruct (GetValidName backupName) eqn:Hvalid; [|reflexivity].
  exfalso. eapply GetValidName_not_empty; [|exact Hvalid].
  now apply not_blank_not_empty.
Qed.

(** X23.  The deletion guard never removes a content as a snapshot rewrite
    creates it: such a content carries the restore-name label and no
    backup-name label, so for every backup the deletion guard returns the
    nil error without a patch, a delete or any other call. *)
Theorem restored_content_is_not_deleted `{Externals} {W W' : Type}
    (env : Environment W) (w : W) (env' : Environment W') (w' : W')
    (vs : VolumeSnapshot.t) (restore_ : velero.Restore) (backup_ : velero.Backup)
    (vsc : VolumeSnapshotContent.t) (r : error + VolumeSnapshotContent.t) :
  In (EvCreateVolumeSnapshotContent vsc r)
     (trace (exec env (restore.VolumeSnapshotRestoreItemAction_vsr.Execute
                         {| velero.Item := inr vs; velero.Restore_ := restore_ |}) w))
  \/ In (EvCreateVolumeSnapshotContent vsc r)
        (trace (exec env (restore.VolumeSnapshotRestoreItemAction.Execute
                            {| velero.Item := inr vs; velero.Restore_ := restore_ |}) w)) ->
  exec env' (delete.VolumeSnapshotContentDeleteItemAction.Execute
               {| velero.Delete_Item := inr vsc; velero.Delete_Backup := backup_ |}) w'
  = {| trace := []; outcome := Done tt; final := w' |}.
Proof.
  intros Hin.
  assert (Hlabels : ObjectMeta.Labels (VolumeSnapshotContent.ObjectMeta vsc)
                    = Some {[ RestoreNameLabel :=
                                GetValidName (ObjectMeta.Name
                                                (velero.Restore_ObjectMeta restore_)) ]}).
  { destruct Hin as [Hin | Hin].
    - now destruct (later_created_content env w vs restore_ vsc r Hin).
    - exact (older_created_labels env w vs restore_ vsc r Hin). }
  unfold delete.VolumeSnapshotContentDeleteItemAction.Execute. cbn.
  now rewrite (restore_label_is_no_backup_label _ _ _ Hlabels).
Qed.

(** *** The later rewrite on examples *)

Lemma existing_snapshot_is_left_alone_witness :
  outcome (exec apiServer (restoreSnapshotLater (snapshotOf "mssql-pvc" "Delete"))
             (clusterSnapshotThere "mssql-pvc"))
  = Done {| velero.UpdatedItem := Some (snapshotOf "mssql-pvc" "Delete");
            velero.AdditionalItems := [];
            velero.SkipRestore := false |}.
Proof.
  apply (@existing_snapshot_is_left_alone exampleExternals Cluster apiServer
           (clusterSnapshotThere "mssql-pvc") (snapshotOf "mssql-pvc" "Delete") restore1
           "app" "velero-mssql-pvc" (snapshotOf "mssql-pvc" "Retain")).
  vm_compute. do 3 right. left. reflexivity.
Defined.

Lemma created_content_is_bound_back_witness :
  In (EvCreateVolumeSnapshotContent contentRestored (inr contentRestored))
     (trace (exec apiServer (restoreSnapshotLater (snapshotOf "mssql-pvc" "Delete"))
               (clusterSnapshotMoved "mssql-pvc")))
  /\ ObjectReference.Name
       (VolumeSnapshotContent.VolumeSnapshotRef (VolumeSnapshotContent.Spec contentRestored))
     = "velero-mssql-pvc".
Proof.
  assert (Hin : In (EvCreateVolumeSnapshotContent contentRestored (inr contentRestored))
                   (trace (exec apiServer
                             (restoreSnapshotLater (snapshotOf "mssql-pvc" "Delete"))
                             (clusterSnapshotMoved "mssql-pvc"))))
    by (vm_compute; do 4 right; left; reflexivity).
  split; [exact Hin|].
  destruct (@created_content_is_bound_back exampleExternals Cluster apiServer
              (clusterSnapshotMoved "mssql-pvc") (snapshotOf "mssql-pvc" "Delete") restore1
              contentRestored (inr contentRestored) Hin) as (Href & _).
  rewrite Href. reflexivity.
Defined.

Lemma restored_content_is_not_deleted_witness :
  exec apiServer
    (@delete.VolumeSnapshotContentDeleteItemAction.Execute exampleExternals
       {| velero.Delete_Item := inr contentRestored; velero.Delete_Backup := backup1 |})
    (setContents emptyCluster {[ "vsr-vsc-mssql-pvc" := contentRestored ]})
  = {| trace := []; outcome := Done tt;
       final := setContents emptyCluster {[ "vsr-vsc-mssql-pvc" := contentRestored ]} |}.
Proof.
  apply (@restored_content_is_not_deleted exampleExternals Cluster Cluster
           apiServer (clusterSnapshotMoved "mssql-pvc") apiServer
           (setContents emptyCluster {[ "vsr-vsc-mssql-pvc" := contentRestored ]})
           (snapshotOf "mssql-pvc" "Delete") restore1 backup1
           contentRestored (inr contentRestored)).
  left. vm_compute. do 4 right. left. reflexivity.
Defined.

(** ** The content made from the mover's snapshot *)

Section MovedSnapshot.

Context `{Externals}.
Context {W : Type} (env : Environment W) (w : W).
Variable vs : VolumeSnapshot.t.
Variable restore_ : velero.Restore.

Let run :=
  exec env (restore.VolumeSnapshotRestoreItemAction.Execute
              {| velero.Item := inr vs; velero.Restore_ := restore_ |}) w.

(** X27.  A content created by the snapshot rewrite of
    src/internal/restore/volumesnapshot_action.go is made from what the
    mover left: the rewrite has read a replication destination with a latest
    image, the snapshot of that name in the same (protected) namespace,
    bound to a content, and that content, which has a snapshot handle.  The
    created content has this handle as its source, no volume handle, and
    refers to the mover's snapshot, not to the snapshot being restored. *)
Theorem created_content_comes_from_mover vsc r :
  In (EvCreateVolumeSnapshotContent vsc r) (trace run) ->
  exists protectedNS destination rd image moved contentName content handle,
    In (EvGetReplicationDestination protectedNS destination (inr rd)) (trace run)
    /\ (exists status, ReplicationDestination.Status rd = Some status
                       /\ ReplicationDestination.LatestImage status = Some image)
    /\ In (EvGetVolumeSnapshot protectedNS (TypedLocalObjectReference.Name image) (inr moved))
          (trace run)
    /\ boundTo moved contentName
    /\ In (EvGetVolumeSnapshotContent contentName (inr content)) (trace run)
    /\ (exists status, VolumeSnapshotContent.Status content = Some status
                       /\ VolumeSnapshotContent.StatusSnapshotHandle status = Some handle)
    /\ VolumeSnapshotContent.Source_ (VolumeSnapshotContent.Spec vsc)
       = {| VolumeSnapshotContent.VolumeHandle := None;
            VolumeSnapshotContent.SnapshotHandle := Some handle |}
    /\ VolumeSnapshotContent.VolumeSnapshotRef (VolumeSnapshotContent.Spec vsc)
       = {| ObjectReference.Kind := "VolumeSnapshot";
            ObjectReference.Namespace := protectedNS;
            ObjectReference.Name := TypedLocalObjectReference.Name image |}.
Proof.
  unfold run, restore.VolumeSnapshotRestoreItemAction.Execute, util.GetVolSyncSnapContent. cbn.
  repeat follow; intros Hin; absent; injection Hin as <- _; cbn;
    eexists _, _, _, _, _, _, _, _;
    (split; [do 3 right; left; reflexivity|]);
    (split; [eexists; split; eassumption|]);
    (split; [do 5 right; left; reflexivity|]);
    (split; [eexists; split; eassumption|]);
    (split; [do 6 right; left; reflexivity|]);
    (split; [eexists; split; eassumption|]);
    split; reflexivity.
Qed.

End MovedSnapshot.

Lemma created_content_comes_from_mover_witness :
  In (EvCreateVolumeSnapshotContent contentMoved (inr contentMoved))
     (trace (exec apiServer (restoreSnapshot (snapshotOf "mssql-pvc" "Retain"))
               (clusterMoved "mssql-pvc")))
  /\ exists handle,
       VolumeSnapshotContent.Source_ (VolumeSnapshotContent.Spec contentMoved)
       = {| VolumeSnapshotContent.VolumeHandle := None;
            VolumeSnapshotContent.SnapshotHandle := Some handle |}.
Proof.
  assert (Hin : In (EvCreateVolumeSnapshotContent contentMoved (inr contentMoved))
                   (trace (exec apiServer (restoreSnapshot (snapshotOf "mssql-pvc" "Retain"))
                             (clusterMoved "mssql-pvc"))))
    by (vm_compute; do 8 right; left; reflexivity).
  split; [exact Hin|].
  destruct (@created_content_comes_from_mover exampleExternals Cluster apiServer
              (clusterMoved "mssql-pvc") (snapshotOf "mssql-pvc" "Retain") restore1
              contentMoved (inr contentMoved) Hin)
    as (_ & _ & _ & _ & _ & _ & _ & handle & _ & _ & _ & _ & _ & _ & Hsource & _).
  exists handle. exact Hsource.
Defined.

(** ** The backup action on snapshot contents, further *)

Lemma has_delete_secret_iff `{Externals} (vsc : VolumeSnapshotContent.t) :
  util.IsVolumeSnapshotContentHasDeleteSecret vsc = true
  <-> index (ObjectMeta.Annotations (VolumeSnapshotContent.ObjectMeta vsc))
            PrefixedSnapshotterSecretNameKey <> None
      /\ index (ObjectMeta.Annotations (VolumeSnapshotContent.ObjectMeta vsc))
               PrefixedSnapshotterSecretNamespaceKey <> None.
Proof.
  unfold util.IsVolumeSnapshotContentHasDeleteSecret. cbn zeta.
  rewrite andb_true_iff, !bool_decide_eq_true, <- !not_eq_None_Some. reflexivity.
Qed.

Section ContentBackup.

Context `{Externals}.
Context {W : Type} (env : Environment W) (w : W).
Variable snapCont : VolumeSnapshotContent.t.
Variable backup_ : velero.Backup.

Let ref := VolumeSnapshotContent.VolumeSnapshotRef (VolumeSnapshotContent.Spec snapCont).
Let annotations := ObjectMeta.Annotations (VolumeSnapshotContent.ObjectMeta snapCont).
Let run :=
  exec env (backup.VolumeSnapshotContentBackupItemAction.Execute (inr snapCont) backup_) w.

(** The secret item, by the annotations of the content. *)
Lemma secret_item :
  exists secret,
    (if util.IsVolumeSnapshotContentHasDeleteSecret snapCont then
       [ {| velero.GroupResource_ := {| velero.Group := ""; velero.Resource := "secrets" |};
            velero.Namespace := index_string annotations PrefixedSnapshotterSecretNamespaceKey;
            velero.Name := index_string annotations PrefixedSnapshotterSecretNameKey |} ]
     else []) = secret
    /\ ((index annotations PrefixedSnapshotterSecretNameKey <> None
         /\ index annotations PrefixedSnapshotterSecretNamespaceKey <> None) ->
        secret = [ {| velero.GroupResource_ :=
                        {| velero.Group := ""; velero.Resource := "secrets" |};
                      velero.Namespace :=
                        default "" (index annotations PrefixedSnapshotterSecretNamespaceKey);
                      velero.Name :=
                        default "" (index annotations PrefixedSnapshotterSecretNameKey) |} ])
    /\ ((index annotations PrefixedSnapshotterSecretNameKey = None
         \/ index annotations PrefixedSnapshotterSecretNamespaceKey = None) ->
        secret = []).
Proof.
  pose proof (has_delete_secret_iff snapCont) as Hiff. fold annotations in Hiff.
  destruct (util.IsVolumeSnapshotContentHasDeleteSecret snapCont); eexists;
    (split; [reflexivity|]); split; try reflexivity.
  - intros [Hnone | Hnone]; destruct (proj1 Hiff eq_refl); contradiction.
  - intros Hboth. apply Hiff in Hboth. discriminate Hboth.
Qed.

(** X25.  When the backup action on a snapshot content returns, the item is
    the one passed in, and the last additional item is the mover's backup
    request, named [vsb-] and the snapshot name in the namespace of the
    snapshot, whether this run has created it or not.  Before it comes the
    snapshotter secret, exactly when the annotations of the content hold
    both snapshotter-secret keys, with the name and namespace these two
    annotations give. *)
Theorem backup_content_items item (items : list velero.ResourceIdentifier) :
  outcome run = Done (item, items) ->
  item = inr snapCont
  /\ exists secret,
       items = (secret ++
                [ {| velero.GroupResource_ :=
                       {| velero.Group := "datamover.oadp.openshift.io";
                          velero.Resource := "volumesnapshotbackup" |};
                     velero.Namespace := ObjectReference.Namespace ref;
                     velero.Name := "vsb-" ++ ObjectReference.Name ref |} ])%list
       /\ ((index annotations PrefixedSnapshotterSecretNameKey <> None
            /\ index annotations PrefixedSnapshotterSecretNamespaceKey <> None) ->
           secret = [ {| velero.GroupResource_ :=
                           {| velero.Group := ""; velero.Resource := "secrets" |};
                         velero.Namespace :=
                           default "" (index annotations PrefixedSnapshotterSecretNamespaceKey);
                         velero.Name :=
                           default "" (index annotations PrefixedSnapshotterSecretNameKey) |} ])
       /\ ((index annotations PrefixedSnapshotterSecretNameKey = None
            \/ index annotations PrefixedSnapshotterSecretNamespaceKey = None) ->
           secret = []).
Proof.
  destruct secret_item as (secret & Hsecret & Hboth & Hnone).
  unfold run, backup.VolumeSnapshotContentBackupItemAction.Execute.
  generalize backup.VolumeSnapshotContentBackupItemAction.DoesVolumeSnapshotBackupExistForVSC.
  intros check. unfold backup.VolumeSnapshotContentBackupItemAction.ExecuteWith.
  cbn. fold ref. fold annotations. rewrite Hsecret, exec_bind.
  destruct (exec env (check snapCont) w) as [t o w']; cbn [trace outcome final].
  destruct o as [[there [e|]] | e | why]; cbn; try discriminate.
  destruct there; cbn.
  - intros [= <- <-]. split; [reflexivity|]. now exists secret.
  - answer. destruct r as [e|]; cbn; [discriminate|].
    answer. destruct r as [e|]; cbn; [discriminate|].
    intros [= <- <-]. split; [reflexivity|]. now exists secret.
Qed.

(** X26.  The body of the backup action on a snapshot content adds one
    panic of its own to those of the existence check it calls, whatever that
    check is: the check has answered no, without an error, and the mover
    client, made a second time for the create, could not be made; the error
    of that making is not looked at. *)
Theorem backup_content_panics_iff
    (check : VolumeSnapshotContent.t -> Prog (bool * option error)) :
  let checked := exec env (check snapCont) w in
  let body :=
    exec env (backup.VolumeSnapshotContentBackupItemAction.ExecuteWith check
                (inr snapCont) backup_) w in
  (exists why, outcome body = Panicked why)
  <-> (exists why, outcome checked = Panicked why)
      \/ (outcome checked = Done (false, None)
          /\ exists e, trace body = (trace checked ++ [EvGetDatamoverClient (Some e)])%list).
Proof.
  cbn zeta. unfold backup.VolumeSnapshotContentBackupItemAction.ExecuteWith.
  cbn. rewrite exec_bind.
  destruct (exec env (check snapCont) w) as [t o w']; cbn [trace outcome final].
  destruct o as [[there [e|]] | e | why]; cbn.
  - split; [intros (why & Hp); discriminate
           | intros [(why & Hp) | (Hd & _)]; discriminate].
  - destruct there; cbn.
    + split; [intros (why & Hp); discriminate
             | intros [(why & Hp) | (Hd & _)]; discriminate].
    + answer. destruct r as [e|]; cbn.
      * split; [intros _; right; split; [reflexivity | now exists e] | intros _; now eexists].
      * answer. destruct r as [e|]; cbn;
          (split; [intros (why & Hp); discriminate|]);
          (intros [(why & Hp) | (_ & e' & Ht)]; [discriminate|]);
          apply app_inv_head in Ht; discriminate Ht.
  - split; [intros (why & Hp); discriminate
           | intros [(why & Hp) | (Hd & _)]; discriminate].
  - split; [intros _; left; now eexists | intros _; now eexists].
Qed.

End ContentBackup.

(** The content [sc-a] on the cluster with the request of an older content:
    the request is created and listed. *)
Lemma backup_content_items_witness :
  outcome (exec apiServer (backupContent contentA) clusterWithOlderRequest)
  = Done (inr contentA,
          [ {| velero.GroupResource_ :=
                 {| velero.Group := "datamover.oadp.openshift.io";
                    velero.Resource := "volumesnapshotbackup" |};
               velero.Namespace := "app";
               velero.Name := "vsb-snap-a" |} ])
  /\ exists secret,
       [ {| velero.GroupResource_ :=
              {| velero.Group := "datamover.oadp.openshift.io";
                 velero.Resource := "volumesnapshotbackup" |};
            velero.Namespace := "app";
            velero.Name := "vsb-snap-a" |} ]
       = (secret ++
          [ {| velero.GroupResource_ :=
                 {| velero.Group := "datamover.oadp.openshift.io";
                    velero.Resource := "volumesnapshotbackup" |};
               velero.Namespace := "app";
               velero.Name := "vsb-snap-a" |} ])%list.
Proof.
  assert (Hdone : outcome (exec apiServer (backupContent contentA) clusterWithOlderRequest)
                  = Done (inr contentA,
                          [ {| velero.GroupResource_ :=
                                 {| velero.Group := "datamover.oadp.openshift.io";
                                    velero.Resource := "volumesnapshotbackup" |};
                               velero.Namespace := "app";
                               velero.Name := "vsb-snap-a" |} ]))
    by (vm_compute; reflexivity).
  split; [exact Hdone|].
  destruct (@backup_content_items exampleExternals Cluster apiServer clusterWithOlderRequest
              contentA backup1 _ _ Hdone) as (_ & secret & Hitems & _).
  exists secret. exact Hitems.
Defined.

(** ** What the restore wait retries *)

Lemma last_event (t earlier : list Event) (ev ev' : Event) :
  (t ++ [ev])%list = (earlier ++ [ev'])%list -> ev = ev'.
Proof. intros Heq. now apply app_inj_tail in Heq. Qed.

Section RestoreWaitErrors.

Context {W : Type} (env : Environment W).
Variables ns name protectedNS : string.

Let condition := util.restoreCompletedCondition ns name protectedNS.

(** A try of the condition gives an error only for a failed read of the
    restore request, its one call then. *)
Lemma restore_round_error (w : W) :
  match outcome (exec env condition w) with
  | Done (_, Some e) =>
      exists cause,
        trace (exec env condition w) = [EvGetDataMoverRestore ns name (inl cause)]
        /\ e = Wrapf ("failed to get datamoverrestore " ++ name) cause
  | _ => True
  end.
Proof.
  unfold condition, util.restoreCompletedCondition. cbn.
  answer. destruct r as [e|dmr]; cbn; [now exists e|].
  answer. destruct r as [e|rd]; cbn; [exact I|].
  destruct (ReplicationDestination.Status rd) as [status|]; cbn; [|exact I].
  destruct (ReplicationDestination.LastSyncTime status); cbn; [|exact I].
  destruct (ReplicationDestination.Spec_Trigger rd) as [trigger|]; cbn; [|exact I].
  now destruct (String.eqb _ _).
Qed.

(** The wait ends with an error only at the time-out or right after a
    failed read of the restore request. *)
Lemma restore_poll_error (ticks : nat) (w : W) :
  match outcome (exec env (PollImmediate ticks condition) w) with
  | Done (Some e) =>
      e = ErrWaitTimeout
      \/ exists earlier cause,
           trace (exec env (PollImmediate ticks condition) w)
           = (earlier ++ [EvGetDataMoverRestore ns name (inl cause)])%list
           /\ e = Wrapf ("failed to get datamoverrestore " ++ name) cause
  | _ => True
  end.
Proof.
  revert w. induction ticks as [|n IH]; intros w;
    cbn [PollImmediate]; rewrite exec_bind;
    pose proof (restore_round_error w) as Hround;
    destruct (exec env condition w) as [t o w'] eqn:Hc; cbn [trace outcome final] in *;
    destruct o as [[done [e|]] | e | why]; cbn [exec prepend trace outcome final];
    try exact I;
    try (destruct Hround as (cause & -> & ->); right; exists [], cause; now split);
    destruct done; cbn [exec prepend trace outcome final]; try exact I.
  - now left.
  - specialize (IH w').
    destruct (exec env (PollImmediate n condition) w') as [t' o' w''];
      cbn [trace outcome final] in *.
    destruct o' as [[e|] | e | why]; try exact I.
    destruct IH as [-> | (earlier & cause & -> & ->)]; [now left|].
    right. exists (t ++ earlier)%list, cause. now rewrite app_assoc.
Qed.

End RestoreWaitErrors.

Section RestoreRetries.

Context `{Externals}.
Context {W : Type} (env : Environment W) (w : W).
Variable ticks : nat.
Variable dmb : DataMoverBackup.t.
Variable restore_ : velero.Restore.

Let run :=
  exec env
    (restore.DataMoverRestoreItemAction.Execute ticks
       {| velero.Item := inr dmb; velero.Restore_ := restore_ |}) w.

(** X28.  The wait of the restore orchestrator retries a failed read of the
    replication destination, whatever the error: when the orchestrator fails
    and its last call was a read of the destination, the failure is the
    time-out, never the error of that read (the read of the restore request
    is not retried, see the wrapped error of the condition). *)
Theorem destination_read_failure_is_retried (earlier : list Event) ns name a (err : error) :
  trace run = (earlier ++ [EvGetReplicationDestination ns name a])%list ->
  outcome run = Failed err ->
  err = WithStack ErrWaitTimeout.
Proof.
  unfold run, restore.DataMoverRestoreItemAction.Execute. cbn.
  answer. destruct r as [e|]; cbn.
  { intros Ht. apply (last_event []) in Ht. discriminate Ht. }
  answer. destruct r as [e|]; cbn.
  { intros Ht. apply (last_event [_]) in Ht. discriminate Ht. }
  unfold util.IsDataMoverRestoreCompleted. cbn.
  answer. destruct r as [e|]; cbn.
  { intros Ht. apply (last_event [_; _]) in Ht. discriminate Ht. }
  answer. destruct r as [e|]; cbn.
  { intros Ht. apply (last_event [_; _; _]) in Ht. discriminate Ht. }
  rewrite !exec_bind.
  pose proof (restore_poll_error env (DataMoverBackup.Namespace dmb)
                ("dmr-" ++ index_string (DataMoverBackup.Annotations dmb) DatamoverSourcePVCName)
                (DataMoverBackup.ProtectedNamespace (DataMoverBackup.Spec dmb)) ticks w3)
    as Hpoll.
  destruct (poll_completed env (DataMoverBackup.Namespace dmb)
              ("dmr-" ++ index_string (DataMoverBackup.Annotations dmb) DatamoverSourcePVCName)
              (DataMoverBackup.ProtectedNamespace (DataMoverBackup.Spec dmb)) ticks w3)
    as (_ & _ & Hnofail).
  cbn zeta in Hnofail.
  destruct (exec env (PollImmediate ticks _) w3) as [t o w4]; cbn [trace outcome final] in *.
  destruct o as [[e|] | e | why]; cbn; rewrite ?app_nil_r; try contradiction;
    intros Ht Hf; try discriminate Hf.
  destruct Hpoll as [-> | (before & cause & -> & ->)]; [now injection Hf as <-|].
  exfalso. apply (last_event (_ :: _ :: _ :: _ :: before)) in Ht. discriminate Ht.
Qed.

End RestoreRetries.

(** No mover in the cluster: every read of the destination answers
    not-found, and the orchestrator fails with the time-out. *)
Lemma destination_read_failure_is_retried_witness :
  List.last (trace (exec apiServer (restoreMoverItem 2) emptyCluster)) (EvGetClients None)
  = EvGetReplicationDestination "openshift-adp" "dmr-mssql-pvc-rep-dest"
      (inl (notFound "dmr-mssql-pvc-rep-dest"))
  /\ match outcome (exec apiServer (restoreMoverItem 2) emptyCluster) with
     | Failed err => err = WithStack ErrWaitTimeout
     | _ => False
     end.
Proof.
  split; [vm_compute; reflexivity|].
  destruct (outcome (exec apiServer (restoreMoverItem 2) emptyCluster))
    as [out | err | why] eqn:Hout.
  - vm_compute in Hout. discriminate Hout.
  - apply (@destination_read_failure_is_retried exampleExternals Cluster apiServer emptyCluster 2
             moverItem restore1
             (List.removelast (trace (exec apiServer (restoreMoverItem 2) emptyCluster)))
             "openshift-adp" "dmr-mssql-pvc-rep-dest" (inl (notFound "dmr-mssql-pvc-rep-dest"))
             err).
    + vm_compute. reflexivity.
    + exact Hout.
  - vm_compute in Hout. discriminate Hout.
Defined.
